(** * firefly-cli: compose generation, init validation and reset

    A shallow embedding of

    - [internal/docker/docker_config.go]: [CreateDockerCompose], which
      expands the members of a stack into docker-compose services, volumes
      and [depends_on] edges;
    - [cmd/init.go]: the validators [validateName], [validateCount],
      [validateDatabaseProvider], [validateBlockchainProvider],
      [validateTokensProvider] and the [RunE] body of [initCmd];
    - [cmd/reset.go]: the [RunE] body of [resetCmd].

    Go maps are [gmap]s, the set-like [map[string]struct{}] is a [gset],
    Go [int]s are [Z], strings are [string].  A run-time panic (nil pointer
    dereference, write to a nil map) is an explicit [Panic] result. *)

From Stdlib Require Import ZArith Lia String Ascii List DecimalString DecimalZ.
From stdpp Require Import base option gmap sets list strings.

Local Open Scope Z_scope.
Local Open Scope string_scope.

(** ** Results of code that may panic *)

Inductive result (A : Type) : Type :=
| Ok (a : A)
| Panic (msg : string).
Arguments Ok {A} a.
Arguments Panic {A} msg.

#[global] Instance result_ret : MRet result := fun A a => Ok a.
#[global] Instance result_bind : MBind result := fun A B k r =>
  match r with
  | Ok a => k a
  | Panic msg => Panic msg
  end.

(** A [for _, x := range xs] loop whose body may panic. *)
Fixpoint range_loop {S A : Type} (body : S -> A -> result S) (xs : list A) (s : S)
  : result S :=
  match xs with
  | [] => Ok s
  | x :: rest => s' ← body s x; range_loop body rest s'
  end.

(** ** [fmt.Sprintf] with the verbs the generator uses *)

(** [%d] on a Go [int]: decimal digits, a leading [-] when negative. *)
Definition Sprintf_d (n : Z) : string := NilZero.string_of_int (Z.to_int n).

(** ** Data model of [internal/docker] *)

Module docker.

Record HealthCheck := {
  Test : list string;
  Interval : string;
  Timeout : string;
  Retries : Z
}.

Record LoggingConfig := {
  Driver : string;
  Options : gmap string string
}.

(** Map-typed fields are [option]s: [None] is Go's nil map, which reads as
    empty and panics when written. Pointer fields are [option]s as well. *)
Record Service := {
  Image : string;
  Build : string;
  Command : string;
  Environment : option (gmap string string);
  Volumes : list string;
  Ports : list string;
  DependsOn : option (gmap string (gmap string string));
  HealthCheck_ : option HealthCheck;
  Logging : option LoggingConfig
}.

Record DockerComposeConfig := {
  Version : string;
  Services : gmap string Service;
  Volumes_ : gset string
}.

End docker.
Import docker.

(** The fields of [types.Member] and [types.Stack] that the generator reads. *)
Module types.

Record Member := {
  ID : string;
  External : bool;
  ExposedFireflyPort : Z;
  ExposedFireflyAdminPort : Z;
  ExposedPostgresPort : Z;
  ExposedIPFSApiPort : Z;
  ExposedIPFSGWPort : Z;
  ExposedDataexchangePort : Z
}.

Record Stack := {
  Members : list Member;
  Database : string;
  SwarmKey : string
}.

End types.
Import types.

Definition StandardLogOptions : LoggingConfig :=
  {| Driver := "json-file";
     Options := {[ "max-size" := "10m"; "max-file" := "1" ]} |}.

Definition with_DependsOn (d : option (gmap string (gmap string string)))
    (s : Service) : Service :=
  {| Image := Image s; Build := Build s; Command := Command s;
     Environment := Environment s; Volumes := Volumes s; Ports := Ports s;
     DependsOn := d; HealthCheck_ := HealthCheck_ s; Logging := Logging s |}.

Definition with_Services (m : gmap string Service) (c : DockerComposeConfig)
  : DockerComposeConfig :=
  {| Version := Version c; Services := m; Volumes_ := Volumes_ c |}.

Definition with_Volumes (v : gset string) (c : DockerComposeConfig)
  : DockerComposeConfig :=
  {| Version := Version c; Services := Services c; Volumes_ := v |}.

(** [compose.Services[k] = s] *)
Definition set_service (k : string) (s : Service) (c : DockerComposeConfig)
  : DockerComposeConfig :=
  with_Services (<[k := s]> (Services c)) c.

(** [compose.Volumes[v] = struct{}{}] *)
Definition add_volume (v : string) (c : DockerComposeConfig) : DockerComposeConfig :=
  with_Volumes ({[ v ]} ∪ Volumes_ c) c.

(** [compose.Services[k].DependsOn[dep] = cond]: the map yields a nil
    pointer for an absent key, and reading a field through it panics; so
    does an assignment into a nil [DependsOn] map. The service is reachable
    only through the map, so the mutation is an update of that entry. *)
Definition set_depends_on (k dep : string) (cond : gmap string string)
    (c : DockerComposeConfig) : result DockerComposeConfig :=
  match Services c !! k with
  | None => Panic "invalid memory address or nil pointer dereference"
  | Some s =>
      match DependsOn s with
      | None => Panic "assignment to entry in nil map"
      | Some d => Ok (set_service k (with_DependsOn (Some (<[dep := cond]> d)) s) c)
      end
  end.

(** ** The service literals of [CreateDockerCompose] *)

Definition coreService (member : Member) : Service :=
  {| Image := "ghcr.io/hyperledger-labs/firefly:latest";
     Build := ""; Command := ""; Environment := None;
     Volumes := [ "firefly_core_" +:+ ID member +:+ ":/etc/firefly" ];
     Ports :=
       [ Sprintf_d (ExposedFireflyPort member) +:+ ":"
           +:+ Sprintf_d (ExposedFireflyPort member);
         Sprintf_d (ExposedFireflyAdminPort member) +:+ ":"
           +:+ Sprintf_d (ExposedFireflyAdminPort member) ];
     DependsOn :=
       Some {[ "dataexchange_" +:+ ID member := {[ "condition" := "service_started" ]} ]};
     HealthCheck_ := None;
     Logging := Some StandardLogOptions |}.

Definition postgresService (member : Member) : Service :=
  {| Image := "postgres";
     Build := ""; Command := "";
     Environment :=
       Some {[ "POSTGRES_PASSWORD" := "f1refly";
               "PGDATA" := "/var/lib/postgresql/data/pgdata" ]};
     Volumes := [ "postgres_" +:+ ID member +:+ ":/var/lib/postgresql/data" ];
     Ports := [ Sprintf_d (ExposedPostgresPort member) +:+ ":5432" ];
     DependsOn := None;
     HealthCheck_ :=
       Some {| Test := [ "CMD-SHELL"; "pg_isready -U postgres" ];
               Interval := "5s"; Timeout := "3s"; Retries := 12 |};
     Logging := Some StandardLogOptions |}.

Definition ipfsService (stack : Stack) (member : Member) : Service :=
  {| Image := "ipfs/go-ipfs";
     Build := ""; Command := "";
     Environment :=
       Some {[ "IPFS_SWARM_KEY" := SwarmKey stack; "LIBP2P_FORCE_PNET" := "1" ]};
     Volumes :=
       [ "ipfs_staging_" +:+ ID member +:+ ":/export";
         "ipfs_data_" +:+ ID member +:+ ":/data/ipfs" ];
     Ports :=
       [ Sprintf_d (ExposedIPFSApiPort member) +:+ ":5001";
         Sprintf_d (ExposedIPFSGWPort member) +:+ ":8080" ];
     DependsOn := None;
     HealthCheck_ := None;
     Logging := Some StandardLogOptions |}.

Definition dataexchangeService (member : Member) : Service :=
  {| Image := "ghcr.io/hyperledger-labs/firefly-dataexchange-https:latest";
     Build := ""; Command := ""; Environment := None;
     Volumes := [ "dataexchange_" +:+ ID member +:+ ":/data" ];
     Ports := [ Sprintf_d (ExposedDataexchangePort member) +:+ ":3000" ];
     DependsOn := None;
     HealthCheck_ := None;
     Logging := Some StandardLogOptions |}.

(** ** [CreateDockerCompose] *)

(** The three blocks of the loop body, in source order. *)
Definition emit_core (member : Member) (c : DockerComposeConfig) : DockerComposeConfig :=
  if External member then c
  else add_volume ("firefly_core_" +:+ ID member)
         (set_service ("firefly_core_" +:+ ID member) (coreService member) c).

Definition emit_postgres (stack : Stack) (member : Member) (c : DockerComposeConfig)
  : result DockerComposeConfig :=
  if String.eqb (Database stack) "postgres" then
    set_depends_on ("firefly_core_" +:+ ID member) ("postgres_" +:+ ID member)
      {[ "condition" := "service_healthy" ]}
      (add_volume ("postgres_" +:+ ID member)
         (set_service ("postgres_" +:+ ID member) (postgresService member) c))
  else Ok c.

Definition emit_ipfs_dataexchange (stack : Stack) (member : Member)
    (c : DockerComposeConfig) : DockerComposeConfig :=
  add_volume ("dataexchange_" +:+ ID member)
    (set_service ("dataexchange_" +:+ ID member) (dataexchangeService member)
       (add_volume ("ipfs_data_" +:+ ID member)
          (add_volume ("ipfs_staging_" +:+ ID member)
             (set_service ("ipfs_" +:+ ID member) (ipfsService stack member) c)))).

Definition member_body (stack : Stack) (c : DockerComposeConfig) (member : Member)
  : result DockerComposeConfig :=
  c' ← emit_postgres stack member (emit_core member c);
  Ok (emit_ipfs_dataexchange stack member c').

Definition emptyCompose : DockerComposeConfig :=
  {| Version := "2.1"; Services := ∅; Volumes_ := ∅ |}.

Definition CreateDockerCompose (stack : Stack) : result DockerComposeConfig :=
  range_loop (member_body stack) (Members stack) emptyCompose.

(** ** Reading the generated descriptor

    The generator formats published ports as [host:container] and volume
    mounts as [volume:path]; the functions below read the two parts back. *)

(** Text before and after the first [:]. *)
Fixpoint split_colon (s : string) : option (string * string) :=
  match s with
  | EmptyString => None
  | String c rest =>
      if Ascii.eqb c ":" then Some (EmptyString, rest)
      else '(a, b) ← split_colon rest; Some (String c a, b)
  end.

(** Decimal text back to the integer it denotes. *)
Definition parse_d (s : string) : option Z := Z.of_int <$> NilZero.int_of_string s.

(** A published port pair [(hostPort, containerPort)]. *)
Definition published_port (p : string) : option (Z * Z) :=
  '(h, c) ← split_colon p; h' ← parse_d h; c' ← parse_d c; Some (h', c').

Definition host_port (p : string) : option Z := fst <$> published_port p.

(** The volume named by a mount [volume:path]: the text before the last
    [:], the container path being the colon-free tail. *)
Fixpoint mount_volume (s : string) : option string :=
  match s with
  | EmptyString => None
  | String c rest =>
      match mount_volume rest with
      | Some v => Some (String c v)
      | None => if Ascii.eqb c ":" then Some EmptyString else None
      end
  end.

(** The host ports a service publishes. *)
Definition service_host_ports (s : Service) : list Z := omap host_port (Ports s).

(** All host ports published by the services of a descriptor. *)
Definition published_host_ports (c : DockerComposeConfig) : list Z :=
  map_to_list (Services c) ≫= (fun ks => service_host_ports ks.2).

(** [depends c k k']: service [k] lists [k'] in its [depends_on]. *)
Definition depends (c : DockerComposeConfig) (k k' : string) : Prop :=
  exists s d, Services c !! k = Some s /\ DependsOn s = Some d /\ is_Some (d !! k').


(** The six host ports a member asks for. *)
Definition member_ports (m : Member) : list Z :=
  [ ExposedFireflyPort m; ExposedFireflyAdminPort m; ExposedPostgresPort m;
    ExposedIPFSApiPort m; ExposedIPFSGWPort m; ExposedDataexchangePort m ].

(** ** Package [cmd]: errors and [strconv.Atoi] *)

(** Go's [error] values met in [cmd]: [None] is [nil]; [errors.New] and
    [fmt.Errorf] carry their message, [*strconv.NumError] its fields, and
    the failure of a provider registry the kind, the input and the valid
    tokens. *)
Inductive error : Type :=
| errors_New (msg : string)
| NumError (Func Num : string) (Err : error)
| UnknownProvider (kind input : string) (validOptions : list string).

Definition ErrSyntax : error := errors_New "invalid syntax".
Definition ErrRange : error := errors_New "value out of range".

(** The failures of the validators, under the names the design gives them,
    with the messages of the source. *)
Definition EmptyName : error := errors_New "stack name must not be empty".
Definition NameConflict (stackName : string) : error :=
  errors_New ("stack '" +:+ stackName +:+ "' already exists").
Definition NotANumber : error := errors_New "invalid number".
Definition NonPositiveCount : error :=
  errors_New "number of members must be greater than zero".
Definition TooManyExternal : error :=
  errors_New "number of external processes should not be equal to or greater than the number of members in the network - at least one FireFly core container must exist to be able to extrat and deploy smart contracts".
Definition UnsupportedProvider : error :=
  errors_New "geth is currently the only supported blockchain provider - support for other providers is coming soon".
Definition NoStackSpecified : error := errors_New "no stack specified".
Definition StackNotFound (stackName : string) : error :=
  errors_New ("stack '" +:+ stackName +:+ "' does not exist").

Definition is_digit (c : ascii) : bool :=
  ((48 <=? Z.of_nat (nat_of_ascii c))%Z && (Z.of_nat (nat_of_ascii c) <=? 57)%Z)%bool.

(** Value of a run of decimal digits, [None] on any other byte. *)
Fixpoint digits_value (acc : Z) (s : string) : option Z :=
  match s with
  | EmptyString => Some acc
  | String c rest =>
      if is_digit c
      then digits_value (10 * acc + (Z.of_nat (nat_of_ascii c) - 48)) rest
      else None
  end.

(** Whether a run of decimal digits leaves the range of [uint64] before any
    other byte is met: [ParseUint] stops there and reads no further. *)
Fixpoint digits_overflow (acc : Z) (s : string) : bool :=
  match s with
  | EmptyString => false
  | String c rest =>
      if is_digit c
      then
        let n := 10 * acc + (Z.of_nat (nat_of_ascii c) - 48) in
        if (2 ^ 64 <=? n)%Z then true else digits_overflow n rest
      else false
  end.

(** [strconv.Atoi] on a 64-bit [int]: an optional sign, at least one digit,
    digits only; out of range the value is clamped and the error is
    [ErrRange].  A digit run that overflows 64 bits is out of range whatever
    follows it. *)
Definition Atoi (s : string) : Z * option error :=
  match s with
  | EmptyString => (0, Some (NumError "Atoi" s ErrSyntax))
  | String c rest =>
      let body := if Ascii.eqb c "-" || Ascii.eqb c "+" then rest else s in
      match body with
      | EmptyString => (0, Some (NumError "Atoi" s ErrSyntax))
      | _ =>
          if digits_overflow 0 body then
            (if Ascii.eqb c "-" then - 2 ^ 63 else 2 ^ 63 - 1,
             Some (NumError "Atoi" s ErrRange))
          else
            match digits_value 0 body with
            | None => (0, Some (NumError "Atoi" s ErrSyntax))
            | Some n =>
                if Ascii.eqb c "-" then
                  if (2 ^ 63 <? n)%Z then (- 2 ^ 63, Some (NumError "Atoi" s ErrRange))
                  else (- n, None)
                else
                  if (2 ^ 63 <=? n)%Z then (2 ^ 63 - 1, Some (NumError "Atoi" s ErrRange))
                  else (n, None)
            end
      end
  end.

(** ** What [cmd] calls but does not define

    Package [stacks], the terminal helpers and three library functions are
    outside [cmd/init.go] and [cmd/reset.go]; the commands are stated over
    any implementation of them. The types record what each may touch: the registries and the
    string functions are pure, [CheckExists] and [LoadStack] only read the
    persisted stacks, the two prompts only use the terminal. *)

Module deps.

Record Prompt := { Label : string; IsConfirm : bool }.

Class Collaborators := {
  (* persisted stacks and the terminal *)
  World : Type;
  Console : Type;
  (* package stacks *)
  DatabaseSelection : Type;
  BlockchainProvider : Type;
  TokensProvider : Type;
  LoadedStack : Type;
  BlockchainProvider_eq_dec :: EqDecision BlockchainProvider;
  GoEthereum : BlockchainProvider;
  DatabaseSelectionFromString : string -> DatabaseSelection * option error;
  BlockchainProviderFromString : string -> BlockchainProvider * option error;
  TokensProviderFromString : string -> TokensProvider * option error;
  CheckExists : string -> World -> bool * option error;
  LoadStack : string -> World -> LoadedStack + error;
  ResetStack : LoadedStack -> bool -> World -> World;
  (* Go libraries *)
  strings_TrimSpace : string -> string;
  strings_ToLower : string -> string;
  filepath_Join : list string -> string;
  promptui_Run : Prompt -> Console -> (string * option error) * Console;
  (* package cmd and constants *)
  prompt : string -> (string -> option error) -> Console -> (string * option error) * Console;
  rootCmd_Use : string;
  constants_StacksDir : string
}.

(** [stacks.InitOptions], with the fields [cmd/init.go] sets; the fields
    [DatabaseSelection] and [TokensProvider] carry a trailing underscore, as
    they share their names with their types. *)
Record InitOptions `{Collaborators} := {
  Verbose : bool;
  DatabaseSelection_ : DatabaseSelection;
  TokensProvider_ : TokensProvider;
  FireFlyBasePort : Z;
  ServicesBasePort : Z;
  ExternalProcesses : Z
}.

(** [stackManager.InitStack], the one collaborator that takes the options. *)
Class StackManager `{Collaborators} := {
  InitStack : string -> Z -> InitOptions -> World -> option error * World
}.

End deps.
Import deps.

(** What a command leaves on standard output, and its calls into the
    operations that change persisted stacks. *)
Inductive event : Type :=
| Println (text : string)
| Printf (format : string) (args : list string)
| Called (operation : string).

Record State `{Collaborators} := {
  world : World;
  console : Console;
  trace : list event
}.

(** The package-level flag variables of [cmd]. *)
Record Flags `{Collaborators} := {
  verbose : bool;
  force : bool;
  databaseSelection : string;
  blockchainProviderSelection : string;
  tokensProviderSelection : string;
  initOptions : InitOptions
}.

Section Commands.
Context {C : Collaborators} {SM : StackManager}.

Definition emit (e : event) (st : State) : State :=
  {| world := world st; console := console st; trace := trace st ++ [e] |}.

Definition with_world (w : World) (st : State) : State :=
  {| world := w; console := console st; trace := trace st |}.

Definition with_console (c : Console) (st : State) : State :=
  {| world := world st; console := c; trace := trace st |}.

(** ** [cmd/init.go] *)

Definition validateName (stackName : string) (w : World) : option error :=
  if String.eqb (strings_TrimSpace stackName) "" then Some EmptyName
  else
    let '(exists_, err) := CheckExists stackName w in
    if exists_ then Some (NameConflict stackName) else err.

(** [initOptions] is the package variable the [--external] flag fills. *)
Definition validateCount (initOptions : InitOptions) (input : string) : option error :=
  match Atoi input with
  | (_, Some _) => Some NotANumber
  | (i, None) =>
      if (i <=? 0)%Z then Some NonPositiveCount
      else if (ExternalProcesses initOptions >=? i)%Z then Some TooManyExternal
      else None
  end.

Definition validateDatabaseProvider (input : string) : option error :=
  match DatabaseSelectionFromString input with
  | (_, Some err) => Some err
  | (_, None) => None
  end.

Definition validateBlockchainProvider (input : string) : option error :=
  match BlockchainProviderFromString input with
  | (_, Some err) => Some err
  | (blockchainSelection, None) =>
      if decide (blockchainSelection ≠ GoEthereum) then Some UnsupportedProvider
      else None
  end.

Definition validateTokensProvider (input : string) : option error :=
  match TokensProviderFromString input with
  | (_, Some err) => Some err
  | (_, None) => None
  end.

(** The stack name: the first argument, validated, or the answer to the
    prompt, whose error is dropped. *)
Definition read_stackName (args : list string) (st : State) : (string * option error) * State :=
  match args with
  | stackName :: _ => ((stackName, validateName stackName (world st)), st)
  | [] =>
      let '((stackName, _), con) :=
        prompt "stack name: " (fun s => validateName s (world st)) (console st) in
      ((stackName, None), emit (Println ("You selected " +:+ stackName)) (with_console con st))
  end.

(** The member count: the second argument, validated, or the answer to the
    prompt, whose error is dropped. *)
Definition read_memberCountInput (flags : Flags) (args : list string) (st : State)
  : (string * option error) * State :=
  match args with
  | _ :: memberCountInput :: _ =>
      ((memberCountInput, validateCount (initOptions flags) memberCountInput), st)
  | _ =>
      let '((memberCountInput, _), con) :=
        prompt "number of members: " (validateCount (initOptions flags)) (console st) in
      ((memberCountInput, None), with_console con st)
  end.

(** [initOptions] after the three assignments of [RunE]. *)
Definition fill_initOptions (flags : Flags) : InitOptions :=
  {| Verbose := verbose flags;
     DatabaseSelection_ := (DatabaseSelectionFromString (databaseSelection flags)).1;
     TokensProvider_ := (TokensProviderFromString (tokensProviderSelection flags)).1;
     FireFlyBasePort := FireFlyBasePort (initOptions flags);
     ServicesBasePort := ServicesBasePort (initOptions flags);
     ExternalProcesses := ExternalProcesses (initOptions flags) |}.

Definition newline : string := String "010" "".

Definition created_format : string :=
  String.concat ""
    [ "Stack '%s' created!"; newline; "To start your new stack run:";
      newline; newline; "%s start %s"; newline ].

Definition compose_file_format : string :=
  String.concat ""
    [ newline; "Your docker compose file for this stack can be found at: %s";
      newline; newline ].

(** The [RunE] of [initCmd]. *)
Definition initCmd_RunE (flags : Flags) (args : list string) (st : State)
  : option error * State :=
  match validateDatabaseProvider (databaseSelection flags) with
  | Some err => (Some err, st)
  | None =>
  match validateBlockchainProvider (blockchainProviderSelection flags) with
  | Some err => (Some err, st)
  | None =>
  match validateTokensProvider (tokensProviderSelection flags) with
  | Some err => (Some err, st)
  | None =>
      let st := emit (Println "initializing new FireFly stack...") st in
      match read_stackName args st with
      | ((_, Some err), st) => (Some err, st)
      | ((stackName, None), st) =>
          match read_memberCountInput flags args st with
          | ((_, Some err), st) => (Some err, st)
          | ((memberCountInput, None), st) =>
              let memberCount := (Atoi memberCountInput).1 in
              let st := emit (Called "stackManager.InitStack") st in
              match InitStack stackName memberCount (fill_initOptions flags) (world st) with
              | (Some err, w) => (Some err, with_world w st)
              | (None, w) =>
                  let st := with_world w st in
                  let st := emit (Printf created_format [stackName; rootCmd_Use; stackName]) st in
                  let st :=
                    emit (Printf compose_file_format
                            [filepath_Join [constants_StacksDir; stackName; "docker-compose.yml"]])
                         st in
                  (None, st)
              end
          end
      end
  end end end.

(** ** [cmd/reset.go] *)

Definition reset_warning : string :=
  "WARNING: This will completely remove your all transactions and data from your FireFly stack. Are you sure you want to do that?".

(** Lines 65 to 73: load the stack and clear its data. *)
Definition load_and_reset (flags : Flags) (stackName : string) (st : State)
  : option error * State :=
  match LoadStack stackName (world st) with
  | inr err => (Some err, st)
  | inl stack =>
      let st := emit (Printf "resetting FireFly stack '%s'... " [stackName]) st in
      let st := emit (Called "stack.ResetStack") st in
      let st := with_world (ResetStack stack (verbose flags) (world st)) st in
      (None, emit (Println "done") st)
  end.

(** The [RunE] of [resetCmd]. *)
Definition resetCmd_RunE (flags : Flags) (args : list string) (st : State)
  : option error * State :=
  match args with
  | [] => (Some NoStackSpecified, st)
  | stackName :: _ =>
      match CheckExists stackName (world st) with
      | (_, Some err) => (Some err, st)
      | (false, None) => (Some (StackNotFound stackName), st)
      | (true, None) =>
          if negb (force flags) then
            let st := emit (Println reset_warning) st in
            let '((result, err), con) :=
              promptui_Run
                {| Label := "reset all data in FireFly stack '" +:+ stackName +:+ "'";
                   IsConfirm := true |}
                (console st) in
            let st := with_console con st in
            if bool_decide (is_Some err) || negb (String.eqb (strings_ToLower result) "y")
            then (None, emit (Printf "canceled" []) st)
            else load_and_reset flags stackName st
          else load_and_reset flags stackName st
      end
  end.

End Commands.

(** ** An implementation of the collaborators

    The module below implements package [stacks], [prompt] and the
    terminal as the design describes them; the statements that need a
    concrete environment are instantiated with it. *)

Module model.

(** Modelled from the spec: the database registry of package [stacks]
    ([DatabaseSelectionFromString], [DBSelectionStrings]), a closed
    enumeration parsed by case-sensitive exact match, failing with
    [UnknownProvider] and the valid tokens. The two tokens are the ones the
    source names: the flag default and the kind the generator tests for. *)
Inductive DatabaseSelection : Type := PostgreSQL | SQLite3.

Definition DBSelectionStrings : list string := [ "postgres"; "sqlite3" ].

Definition DatabaseSelectionFromString (s : string) : DatabaseSelection * option error :=
  if String.eqb s "postgres" then (PostgreSQL, None)
  else if String.eqb s "sqlite3" then (SQLite3, None)
  else (SQLite3, Some (UnknownProvider "database" s DBSelectionStrings)).

(** Modelled from the spec: the blockchain provider registry of package
    [stacks] ([BlockchainProviderFromString], [BlockchainProviderStrings],
    [GoEthereum]), a closed enumeration that parses more tokens than the one
    the generator supports; [besu] stands for the providers still to come. *)
Inductive BlockchainProvider : Type := GoEthereum | HyperledgerBesu.

#[global] Instance BlockchainProvider_eq_dec : EqDecision BlockchainProvider.
Proof. solve_decision. Defined.

Definition BlockchainProviderStrings : list string := [ "geth"; "besu" ].

Definition BlockchainProviderFromString (s : string) : BlockchainProvider * option error :=
  if String.eqb s "geth" then (GoEthereum, None)
  else if String.eqb s "besu" then (HyperledgerBesu, None)
  else (GoEthereum, Some (UnknownProvider "blockchain provider" s BlockchainProviderStrings)).

(** Modelled from the spec: the token provider registry of package [stacks]
    ([TokensProviderFromString], [TokensProviderStrings]), a closed
    enumeration with the flag default as its token. *)
Inductive TokensProvider : Type := ERC1155.

Definition TokensProviderStrings : list string := [ "erc1155" ].

Definition TokensProviderFromString (s : string) : TokensProvider * option error :=
  if String.eqb s "erc1155" then (ERC1155, None)
  else (ERC1155, Some (UnknownProvider "tokens provider" s TokensProviderStrings)).

(** Modelled from the spec: the persisted [StackRecord] of a stack, its
    configuration and generated topology, with the contents of its data
    volumes, which a reset discards. *)
Record StackRecord := {
  record_stack : Stack;
  record_topology : DockerComposeConfig;
  record_data : gmap string (list string)
}.

(** Modelled from the spec: persisted storage, one [StackRecord] per stack
    name. *)
Definition World : Type := gmap string StackRecord.

(** Modelled from the spec: [stacks.CheckExists], a pure lookup. *)
Definition CheckExists (stackName : string) (w : World) : bool * option error :=
  (bool_decide (is_Some (w !! stackName)), None).

(** Modelled from the spec: [stacks.LoadStack], the full read of a record. *)
Definition LoadStack (stackName : string) (w : World) : (string * StackRecord) + error :=
  match w !! stackName with
  | Some r => inl (stackName, r)
  | None => inr (StackNotFound stackName)
  end.

(** Modelled from the spec: [ResetStack], which clears the data of a stack
    and keeps its configuration and topology. *)
Definition ResetStack (stack : string * StackRecord) (verbose : bool) (w : World) : World :=
  <[ stack.1 := {| record_stack := record_stack stack.2;
                   record_topology := record_topology stack.2;
                   record_data := ∅ |} ]> w.

(** ASCII white space, and [strings.TrimSpace], [strings.ToLower] on ASCII
    text. *)
Definition is_space (c : ascii) : bool :=
  let n := nat_of_ascii c in ((9 <=? n)%nat && (n <=? 13)%nat || (n =? 32)%nat)%bool.

Fixpoint trim_left (s : string) : string :=
  match s with
  | EmptyString => EmptyString
  | String c rest => if is_space c then trim_left rest else s
  end.

Fixpoint trim_right (s : string) : string :=
  match s with
  | EmptyString => EmptyString
  | String c rest =>
      match trim_right rest with
      | EmptyString => if is_space c then EmptyString else String c EmptyString
      | rest' => String c rest'
      end
  end.

Definition TrimSpace (s : string) : string := trim_right (trim_left s).

Definition lower (c : ascii) : ascii :=
  let n := nat_of_ascii c in
  if ((65 <=? n)%nat && (n <=? 90)%nat)%bool then ascii_of_nat (n + 32) else c.

Fixpoint ToLower (s : string) : string :=
  match s with
  | EmptyString => EmptyString
  | String c rest => String (lower c) (ToLower rest)
  end.

(** [filepath.Join] on clean, non-empty elements. *)
Definition Join (elem : list string) : string := String.concat "/" elem.

(** The terminal: the lines the user is going to type. *)
Definition Console : Type := list string.

Definition ErrEOF : error := errors_New "EOF".
Definition ErrAbort : error := errors_New "".

(** [promptui.Prompt.Run]: the next line; a confirmation prompt aborts on
    anything but [y] or [Y]. *)
Definition Run (p : Prompt) (con : Console) : (string * option error) * Console :=
  match con with
  | [] => ((EmptyString, Some ErrEOF), [])
  | line :: rest =>
      if (IsConfirm p && negb (String.eqb line "y" || String.eqb line "Y"))%bool
      then ((EmptyString, Some ErrAbort), rest)
      else ((line, None), rest)
  end.

(** Modelled from the spec: [prompt] of package [cmd], the interactive
    front end, which asks again until the trimmed answer validates. *)
Fixpoint prompt (promptText : string) (validate : string -> option error) (con : Console)
  : (string * option error) * Console :=
  match con with
  | [] => ((EmptyString, Some ErrEOF), [])
  | line :: rest =>
      match validate (TrimSpace line) with
      | Some _ => prompt promptText validate rest
      | None => ((TrimSpace line, None), rest)
      end
  end.

#[global] Instance collaborators : Collaborators := {|
  deps.World := World;
  deps.Console := Console;
  deps.DatabaseSelection := DatabaseSelection;
  deps.BlockchainProvider := BlockchainProvider;
  deps.TokensProvider := TokensProvider;
  deps.LoadedStack := (string * StackRecord)%type;
  deps.GoEthereum := GoEthereum;
  deps.DatabaseSelectionFromString := DatabaseSelectionFromString;
  deps.BlockchainProviderFromString := BlockchainProviderFromString;
  deps.TokensProviderFromString := TokensProviderFromString;
  deps.CheckExists := CheckExists;
  deps.LoadStack := LoadStack;
  deps.ResetStack := ResetStack;
  strings_TrimSpace := TrimSpace;
  strings_ToLower := ToLower;
  filepath_Join := Join;
  promptui_Run := Run;
  deps.prompt := prompt;
  rootCmd_Use := "ff";
  constants_StacksDir := ".firefly/stacks"
|}.

(** Modelled from the spec: member [i] of a network, named by its index,
    its ports derived from the two base ports (the core port one apart per
    member, the service ports a hundred apart per member, as the flags of
    [init] describe them, and one apart per service family), the first
    [ExternalProcesses] members being external. *)
Definition createMember (options : InitOptions) (i : nat) : Member :=
  let serviceBase := ServicesBasePort options + Z.of_nat i * 100 in
  {| ID := Sprintf_d (Z.of_nat i);
     External := bool_decide (Z.of_nat i < ExternalProcesses options);
     ExposedFireflyPort := FireFlyBasePort options + Z.of_nat i;
     ExposedFireflyAdminPort := serviceBase + 1;
     ExposedPostgresPort := serviceBase + 2;
     ExposedIPFSApiPort := serviceBase + 3;
     ExposedIPFSGWPort := serviceBase + 4;
     ExposedDataexchangePort := serviceBase + 5 |}.

Definition database_token (d : DatabaseSelection) : string :=
  match d with PostgreSQL => "postgres" | SQLite3 => "sqlite3" end.

(** Modelled from the spec: the stack of a network of [memberCount]
    members, which [InitStack] hands to the generator. *)
Definition createStack (memberCount : Z) (options : InitOptions) : Stack :=
  {| Members := createMember options <$> seq 0 (Z.to_nat memberCount);
     Database := database_token (DatabaseSelection_ options);
     SwarmKey := "" |}.

(** Modelled from the spec: [InitStack], which generates the topology of
    the new stack and persists its record, or persists nothing. *)
Definition InitStack (stackName : string) (memberCount : Z) (options : InitOptions)
    (w : World) : option error * World :=
  match CreateDockerCompose (createStack memberCount options) with
  | Ok compose =>
      (None, <[ stackName := {| record_stack := createStack memberCount options;
                                record_topology := compose;
                                record_data := ∅ |} ]> w)
  | Panic msg => (Some (errors_New msg), w)
  end.

#[global] Instance stackManager : StackManager := {| deps.InitStack := InitStack |}.

End model.

(** ** The two orders of the validators of [init] *)

Section ValidationOrder.
Context {C : Collaborators} {SM : StackManager}.

(** The first failure of a sequence of checks, [None] when all pass. *)
Fixpoint first_failure (checks : list (option error)) : option error :=
  match checks with
  | [] => None
  | Some err :: _ => Some err
  | None :: rest => first_failure rest
  end.

(** The checks in the order [initCmd] runs them. *)
Definition init_validations (flags : Flags) (stackName memberCountInput : string)
    (w : World) : list (option error) :=
  [ validateDatabaseProvider (databaseSelection flags);
    validateBlockchainProvider (blockchainProviderSelection flags);
    validateTokensProvider (tokensProviderSelection flags);
    validateName stackName w;
    validateCount (initOptions flags) memberCountInput ].

(** The checks in the order the design document lists them: name, count,
    then the three providers. *)
Definition spec_init_validations (flags : Flags) (stackName memberCountInput : string)
    (w : World) : list (option error) :=
  [ validateName stackName w;
    validateCount (initOptions flags) memberCountInput;
    validateDatabaseProvider (databaseSelection flags);
    validateBlockchainProvider (blockchainProviderSelection flags);
    validateTokensProvider (tokensProviderSelection flags) ].

End ValidationOrder.


(** ** What the generator leaves in a descriptor *)

(** The two [depends_on] maps a core service can carry: as first emitted,
    and after the database amendment. *)
Definition core_depends (id : string) : gmap string (gmap string string) :=
  {[ "dataexchange_" +:+ id := {[ "condition" := "service_started" ]} ]}.

Definition core_depends_db (id : string) : gmap string (gmap string string) :=
  <[ "postgres_" +:+ id := {[ "condition" := "service_healthy" ]} ]> (core_depends id).

(** [emitted stack k s]: [s] under key [k] is one of the four service
    literals, built for a member of the stack. *)
Inductive emitted (stack : Stack) : string -> Service -> Prop :=
| emitted_core m d :
    m ∈ Members stack -> External m = false ->
    d = core_depends (ID m) \/
      (Database stack = "postgres" /\ d = core_depends_db (ID m)) ->
    emitted stack ("firefly_core_" +:+ ID m) (with_DependsOn (Some d) (coreService m))
| emitted_postgres m :
    m ∈ Members stack -> Database stack = "postgres" ->
    emitted stack ("postgres_" +:+ ID m) (postgresService m)
| emitted_ipfs m :
    m ∈ Members stack ->
    emitted stack ("ipfs_" +:+ ID m) (ipfsService stack m)
| emitted_dataexchange m :
    m ∈ Members stack ->
    emitted stack ("dataexchange_" +:+ ID m) (dataexchangeService m).

(** [volume_of v k]: the service under key [k] is the one that mounts the
    volume named [v]. *)
Inductive volume_of : string -> string -> Prop :=
| volume_of_core id : volume_of ("firefly_core_" +:+ id) ("firefly_core_" +:+ id)
| volume_of_postgres id : volume_of ("postgres_" +:+ id) ("postgres_" +:+ id)
| volume_of_ipfs_staging id : volume_of ("ipfs_staging_" +:+ id) ("ipfs_" +:+ id)
| volume_of_ipfs_data id : volume_of ("ipfs_data_" +:+ id) ("ipfs_" +:+ id)
| volume_of_dataexchange id : volume_of ("dataexchange_" +:+ id) ("dataexchange_" +:+ id).

(** The invariant of the loop of [CreateDockerCompose]. *)
Record generated (stack : Stack) (c : DockerComposeConfig) : Prop := {
  generated_services : forall k s, Services c !! k = Some s -> emitted stack k s;
  generated_volumes : forall v, v ∈ Volumes_ c ->
    exists k, volume_of v k /\ is_Some (Services c !! k);
  generated_mounts : forall k v, is_Some (Services c !! k) -> volume_of v k ->
    v ∈ Volumes_ c
}.

(** The key of the service that publishes the [i]-th entry of
    [member_ports], and the position of that port in the service's list. *)
Definition port_service_key (i : nat) (id : string) : string :=
  match i with
  | 0 | 1 => "firefly_core_" +:+ id
  | 2 => "postgres_" +:+ id
  | 3 | 4 => "ipfs_" +:+ id
  | _ => "dataexchange_" +:+ id
  end%nat.

Definition port_slot (i : nat) : nat :=
  match i with
  | 1 | 4 => 1
  | _ => 0
  end%nat.

(** The keys of the services of a descriptor, and how many of them belong
    to a service family, a family being a key prefix. *)
Definition service_names (c : DockerComposeConfig) : list string :=
  (map_to_list (Services c)).*1.

Fixpoint has_prefix (p s : string) : bool :=
  match p, s with
  | EmptyString, _ => true
  | String a p', String b s' => Ascii.eqb a b && has_prefix p' s'
  | String _ _, EmptyString => false
  end.

Definition count_services (family : string) (c : DockerComposeConfig) : nat :=
  length (filter (fun k => has_prefix family k = true) (service_names c)).

(** ** Sample configurations *)

Module sample.

(** The options of [init] with the default base ports. *)
Definition options (database : model.DatabaseSelection) (external : Z) : InitOptions :=
  {| Verbose := false;
     DatabaseSelection_ := database;
     TokensProvider_ := model.ERC1155;
     FireFlyBasePort := 5000;
     ServicesBasePort := 5100;
     ExternalProcesses := external |}.

(** Two members, managed database, no external process. *)
Definition two_members : Stack := model.createStack 2 (options model.PostgreSQL 0).

(** Two members, managed database, the first of them external. *)
Definition one_external : Stack := model.createStack 2 (options model.PostgreSQL 1).

(** The descriptor generated for [two_members]. *)
Definition two_members_compose : DockerComposeConfig :=
  match CreateDockerCompose two_members with
  | Ok c => c
  | Panic _ => emptyCompose
  end.

(** As many members as the default base ports take before a core port
    reaches the admin port of the first member: 5000 + 101 = 5100 + 1. *)
Definition many_members : Stack := model.createStack 102 (options model.SQLite3 0).

(** The options of [init -p 5101 -s 5100]. *)
Definition close_bases : InitOptions :=
  {| Verbose := false;
     DatabaseSelection_ := model.SQLite3;
     TokensProvider_ := model.ERC1155;
     FireFlyBasePort := 5101;
     ServicesBasePort := 5100;
     ExternalProcesses := 0 |}.

(** One member with these base ports: its core port is its admin port. *)
Definition one_member_close_bases : Stack := model.createStack 1 close_bases.

(** The six port fields of a member, one for each family of published
    ports. *)
Definition port_fields : list (Member -> Z) :=
  [ ExposedFireflyPort; ExposedFireflyAdminPort; ExposedPostgresPort;
    ExposedIPFSApiPort; ExposedIPFSGWPort; ExposedDataexchangePort ].

(** The flags of [init] with an unknown database token. *)
Definition unknown_database_flags : Flags :=
  {| verbose := false; force := false;
     databaseSelection := "oracle";
     blockchainProviderSelection := "geth";
     tokensProviderSelection := "erc1155";
     initOptions := options model.SQLite3 0 |}.

(** The flags of [reset] without [--force]. *)
Definition reset_flags : Flags :=
  {| verbose := false; force := false;
     databaseSelection := "sqlite3";
     blockchainProviderSelection := "geth";
     tokensProviderSelection := "erc1155";
     initOptions := options model.SQLite3 0 |}.

(** No stack persisted, nothing typed, nothing printed. *)
Definition fresh_state : State := {| world := (∅ : model.World); console := ([] : model.Console); trace := [] |}.

(** The stack [stack1] persisted, and a user about to answer [n]. *)
Definition stack1_state : State :=
  {| world :=
       ({[ "stack1" := {| model.record_stack := two_members;
                          model.record_topology := two_members_compose;
                          model.record_data := {[ "postgres_0" := [ "rows" ] ]} |} ]}
          : model.World);
     console := ([ "n" ] : model.Console);
     trace := [] |}.

End sample.

(** ** What each member contributes to a descriptor *)

(** The keys under which the loop body stores services for a member, and
    the volumes it declares for it. *)
Definition member_keys (stack : Stack) (m : Member) : list string :=
  ((if External m then [] else [ "firefly_core_" +:+ ID m ]) ++
   (if String.eqb (Database stack) "postgres" then [ "postgres_" +:+ ID m ] else []) ++
   [ "ipfs_" +:+ ID m; "dataexchange_" +:+ ID m ])%list.

Definition member_volumes (stack : Stack) (m : Member) : list string :=
  ((if External m then [] else [ "firefly_core_" +:+ ID m ]) ++
   (if String.eqb (Database stack) "postgres" then [ "postgres_" +:+ ID m ] else []) ++
   [ "ipfs_staging_" +:+ ID m; "ipfs_data_" +:+ ID m; "dataexchange_" +:+ ID m ])%list.

(** The [depends_on] map of the core service of a member, with and without
    the managed database. *)
Definition core_depends_of (stack : Stack) (id : string) : gmap string (gmap string string) :=
  if String.eqb (Database stack) "postgres" then core_depends_db id else core_depends id.

(** The health check of a database service. *)
Definition postgresHealthCheck : HealthCheck :=
  {| Test := [ "CMD-SHELL"; "pg_isready -U postgres" ];
     Interval := "5s"; Timeout := "3s"; Retries := 12 |}.

(** The integer a run of decimal digits denotes, most significant first,
    continuing from [acc]. *)
Fixpoint uint_value (acc : Z) (d : Decimal.uint) : Z :=
  match d with
  | Decimal.Nil => acc
  | Decimal.D0 d => uint_value (10 * acc + 0) d
  | Decimal.D1 d => uint_value (10 * acc + 1) d
  | Decimal.D2 d => uint_value (10 * acc + 2) d
  | Decimal.D3 d => uint_value (10 * acc + 3) d
  | Decimal.D4 d => uint_value (10 * acc + 4) d
  | Decimal.D5 d => uint_value (10 * acc + 5) d
  | Decimal.D6 d => uint_value (10 * acc + 6) d
  | Decimal.D7 d => uint_value (10 * acc + 7) d
  | Decimal.D8 d => uint_value (10 * acc + 8) d
  | Decimal.D9 d => uint_value (10 * acc + 9) d
  end.

(** ** More sample configurations *)

Module scenario.

(** Three members, the first two external, no managed database. *)
Definition three_members : Stack := model.createStack 3 (sample.options model.SQLite3 2).

Definition three_members_compose : DockerComposeConfig :=
  match CreateDockerCompose three_members with
  | Ok c => c
  | Panic _ => emptyCompose
  end.

(** The third of these members, the one that is not external. *)
Definition third_member : Member := model.createMember (sample.options model.SQLite3 2) 2.

(** The same three members, last first. *)
Definition three_members_reversed : Stack :=
  {| Members := reverse (Members three_members);
     Database := Database three_members;
     SwarmKey := SwarmKey three_members |}.

(** Two members under one id, with ports of their own. *)
Definition first_of_shared_id : Member :=
  {| ID := "0"; External := false;
     ExposedFireflyPort := 5000; ExposedFireflyAdminPort := 5101;
     ExposedPostgresPort := 5102; ExposedIPFSApiPort := 5103;
     ExposedIPFSGWPort := 5104; ExposedDataexchangePort := 5105 |}.

Definition second_of_shared_id : Member :=
  {| ID := "0"; External := false;
     ExposedFireflyPort := 5001; ExposedFireflyAdminPort := 5201;
     ExposedPostgresPort := 5202; ExposedIPFSApiPort := 5203;
     ExposedIPFSGWPort := 5204; ExposedDataexchangePort := 5205 |}.

Definition shared_id : Stack :=
  {| Members := [ first_of_shared_id; second_of_shared_id ];
     Database := "postgres"; SwarmKey := "" |}.

Definition shared_id_compose : DockerComposeConfig :=
  match CreateDockerCompose shared_id with
  | Ok c => c
  | Panic _ => emptyCompose
  end.

(** The second of them again, now external. *)
Definition external_of_shared_id : Member :=
  {| ID := "0"; External := true;
     ExposedFireflyPort := 5001; ExposedFireflyAdminPort := 5201;
     ExposedPostgresPort := 5202; ExposedIPFSApiPort := 5203;
     ExposedIPFSGWPort := 5204; ExposedDataexchangePort := 5205 |}.

(** A member that is not external, then an external one under the same
    id. *)
Definition shared_id_external : Stack :=
  {| Members := [ first_of_shared_id; external_of_shared_id ];
     Database := "postgres"; SwarmKey := "" |}.

Definition shared_id_external_compose : DockerComposeConfig :=
  match CreateDockerCompose shared_id_external with
  | Ok c => c
  | Panic _ => emptyCompose
  end.

(** Three members, managed database, no external process. *)
Definition three_members_postgres : Stack :=
  model.createStack 3 (sample.options model.PostgreSQL 0).

Definition three_members_postgres_compose : DockerComposeConfig :=
  match CreateDockerCompose three_members_postgres with
  | Ok c => c
  | Panic _ => emptyCompose
  end.

(** The flags of [init] as they are when no option is given. *)
Definition default_flags : Flags :=
  {| verbose := false; force := false;
     databaseSelection := "sqlite3";
     blockchainProviderSelection := "geth";
     tokensProviderSelection := "erc1155";
     initOptions := sample.options model.SQLite3 0 |}.

(** The flags of [reset --force]. *)
Definition force_flags : Flags :=
  {| verbose := false; force := true;
     databaseSelection := "sqlite3";
     blockchainProviderSelection := "geth";
     tokensProviderSelection := "erc1155";
     initOptions := sample.options model.SQLite3 0 |}.

(** The stack [stack1] persisted, and a user about to answer [Y]. *)
Definition confirming_state : State :=
  {| world := world sample.stack1_state;
     console := ([ "Y" ] : model.Console);
     trace := [] |}.

(** The record of [stack1] as [LoadStack] returns it. *)
Definition stack1_loaded : string * model.StackRecord :=
  ("stack1",
   {| model.record_stack := sample.two_members;
      model.record_topology := sample.two_members_compose;
      model.record_data := {[ "postgres_0" := [ "rows" ] ]} |}).

End scenario.
(** * Properties *)

(** ** Port and mount strings read back *)

Lemma split_colon_app (a b : string) :
  split_colon a = None -> split_colon (a +:+ String ":" b) = Some (a, b).
Proof.
  induction a as [|c a IH]; simpl; [done|].
  destruct (Ascii.eqb c ":"); [done|].
  destruct (split_colon a) as [[? ?]|] eqn:E; [done|].
  intros _. by rewrite IH.
Qed.

Lemma split_colon_uint (d : Decimal.uint) :
  split_colon (NilEmpty.string_of_uint d) = None.
Proof. induction d; simpl; by rewrite ?IHd. Qed.

Lemma split_colon_Sprintf_d (n : Z) : split_colon (Sprintf_d n) = None.
Proof.
  unfold Sprintf_d.
  destruct (Z.to_int n) as [d|d]; simpl.
  - destruct d; try done; simpl; by rewrite split_colon_uint.
  - destruct d; try done; simpl; by rewrite split_colon_uint.
Qed.

Lemma parse_d_Sprintf_d (n : Z) : parse_d (Sprintf_d n) = Some n.
Proof.
  unfold parse_d, Sprintf_d.
  rewrite NilZero.isi.
  - simpl. by rewrite DecimalZ.of_to.
  - destruct n; simpl; try done.
    intros [= E]. by apply DecimalPos.Unsigned.to_uint_nonnil in E.
  - destruct n; simpl; try done.
    intros [= E]. by apply DecimalPos.Unsigned.to_uint_nonnil in E.
Qed.

Lemma published_port_Sprintf (h c : Z) :
  published_port (Sprintf_d h +:+ ":" +:+ Sprintf_d c) = Some (h, c).
Proof.
  unfold published_port.
  change (":" +:+ Sprintf_d c) with (String ":" (Sprintf_d c)).
  rewrite split_colon_app by apply split_colon_Sprintf_d. simpl.
  by rewrite !parse_d_Sprintf_d.
Qed.

Lemma published_port_fixed (h c : Z) (text : string) :
  parse_d text = Some c ->
  published_port (Sprintf_d h +:+ String ":" text) = Some (h, c).
Proof.
  intros Hc. unfold published_port.
  rewrite split_colon_app by apply split_colon_Sprintf_d. simpl.
  by rewrite parse_d_Sprintf_d, Hc.
Qed.

Lemma mount_volume_app (v path : string) :
  mount_volume path = None -> mount_volume (v +:+ String ":" path) = Some v.
Proof.
  intros Hp. induction v as [|c v IH]; simpl.
  - by rewrite Hp.
  - by rewrite IH.
Qed.

(** ** The loop invariant of [CreateDockerCompose] *)

Lemma generated_empty (stack : Stack) : generated stack emptyCompose.
Proof.
  split; simpl.
  - intros k s. by rewrite lookup_empty.
  - intros v. by rewrite elem_of_empty.
  - intros k v [? H]. by rewrite lookup_empty in H.
Qed.

Ltac key_cases :=
  repeat match goal with
  | H : volume_of _ _ |- _ => inversion H; clear H
  end; simplify_eq/=.

Lemma emit_core_generated (stack : Stack) (m : Member) (c : DockerComposeConfig) :
  m ∈ Members stack -> generated stack c -> generated stack (emit_core m c).
Proof.
  intros Hm [Hs Hv Hm']. unfold emit_core.
  destruct (External m) eqn:Hext; [by split|].
  split; simpl.
  - intros k s [[<- <-]|[Hne Hk]]%lookup_insert_Some; [|by eauto].
    apply (emitted_core stack m (core_depends (ID m))); auto.
  - intros v [->%elem_of_singleton|Hin]%elem_of_union.
    + exists ("firefly_core_" +:+ ID m). split; [constructor|].
      rewrite lookup_insert_eq. by eexists.
    + destruct (Hv v Hin) as (k & Hvk & Hk). exists k. split; [done|].
      rewrite lookup_insert_is_Some. destruct (decide ("firefly_core_" +:+ ID m = k)); auto.
  - intros k v Hk Hvk. rewrite elem_of_union, elem_of_singleton.
    apply lookup_insert_is_Some in Hk as [<-|[Hne Hk]].
    + left. by key_cases.
    + right. eauto.
Qed.

Lemma String_eqb_true (a b : string) : String.eqb a b = true <-> a = b.
Proof. apply String.eqb_eq. Qed.

(** The amendment rewrites the [depends_on] of a core service and nothing
    else. *)
Lemma amend_emitted (stack : Stack) (m : Member) (s : Service)
    (d : gmap string (gmap string string)) :
  Database stack = "postgres" ->
  emitted stack ("firefly_core_" +:+ ID m) s ->
  DependsOn s = Some d ->
  emitted stack ("firefly_core_" +:+ ID m)
    (with_DependsOn
       (Some (<[ "postgres_" +:+ ID m := {[ "condition" := "service_healthy" ]} ]> d)) s).
Proof.
  intros Hdb He Hd.
  inversion He as [m' d' Hm' Hext Hd' Hk Hs| | |]; simplify_eq/=.
  rewrite <- Hk.
  apply (emitted_core stack m'); [done..|].
  right. split; [done|].
  destruct Hd' as [->|[_ ->]]; [done|].
  unfold core_depends_db. by rewrite insert_insert_eq.
Qed.

Lemma emit_postgres_generated (stack : Stack) (m : Member) (c c' : DockerComposeConfig) :
  m ∈ Members stack -> generated stack c ->
  emit_postgres stack m c = Ok c' -> generated stack c'.
Proof.
  intros Hm [Hs Hv Hm']. unfold emit_postgres.
  destruct (String.eqb (Database stack) "postgres") eqn:Hdb; [|by intros [= <-]].
  apply String_eqb_true in Hdb.
  unfold set_depends_on. simpl.
  rewrite lookup_insert_ne by done.
  destruct (Services c !! ("firefly_core_" +:+ ID m)) as [s|] eqn:Hcore; [|done].
  destruct (DependsOn s) as [d|] eqn:Hd; [|done].
  intros [= <-]. split; simpl.
  - intros k s'. rewrite !lookup_insert_Some.
    intros [[<- <-]|[Hne [[<- <-]|[Hne' Hk]]]]; [| |by eauto].
    + apply amend_emitted; auto.
    + by apply emitted_postgres.
  - intros v [->%elem_of_singleton|Hin]%elem_of_union.
    + exists ("postgres_" +:+ ID m). split; [constructor|].
      rewrite lookup_insert_ne, lookup_insert_eq by done. by eexists.
    + destruct (Hv v Hin) as (k & Hvk & Hk). exists k. split; [done|].
      rewrite !lookup_insert_is_Some'. auto.
  - intros k v Hk Hvk. rewrite elem_of_union, elem_of_singleton.
    rewrite !lookup_insert_is_Some' in Hk. destruct Hk as [<-|[<-|Hk]].
    + right. apply (Hm' ("firefly_core_" +:+ ID m)); [by eexists|done].
    + left. by key_cases.
    + right. eauto.
Qed.

Lemma emit_ipfs_dataexchange_generated (stack : Stack) (m : Member)
    (c : DockerComposeConfig) :
  m ∈ Members stack -> generated stack c ->
  generated stack (emit_ipfs_dataexchange stack m c).
Proof.
  intros Hm [Hs Hv Hm']. split; simpl.
  - intros k s. rewrite !lookup_insert_Some.
    intros [[<- <-]|[Hne [[<- <-]|[Hne' Hk]]]]; [| |by eauto].
    + by apply emitted_dataexchange.
    + by apply emitted_ipfs.
  - intros v. rewrite !elem_of_union, !elem_of_singleton.
    intros [->|[->|[->|Hin]]].
    + exists ("dataexchange_" +:+ ID m). split; [constructor|].
      rewrite lookup_insert_eq. by eexists.
    + exists ("ipfs_" +:+ ID m). split; [constructor|].
      rewrite lookup_insert_ne, lookup_insert_eq by done. by eexists.
    + exists ("ipfs_" +:+ ID m). split; [constructor|].
      rewrite lookup_insert_ne, lookup_insert_eq by done. by eexists.
    + destruct (Hv v Hin) as (k & Hvk & Hk). exists k. split; [done|].
      rewrite !lookup_insert_is_Some'. auto.
  - intros k v Hk Hvk. rewrite !elem_of_union, !elem_of_singleton.
    rewrite !lookup_insert_is_Some' in Hk. destruct Hk as [<-|[<-|Hk]].
    + left. by key_cases.
    + inversion Hvk; simplify_eq/=; auto.
    + do 3 right. eauto.
Qed.

Lemma member_body_generated (stack : Stack) (m : Member) (c c' : DockerComposeConfig) :
  m ∈ Members stack -> generated stack c ->
  member_body stack c m = Ok c' -> generated stack c'.
Proof.
  intros Hm Hg. unfold member_body.
  destruct (emit_postgres stack m (emit_core m c)) as [c1|] eqn:Hpg; [|done].
  intros [= <-].
  apply emit_ipfs_dataexchange_generated; [done|].
  eapply emit_postgres_generated; [done| |done].
  by apply emit_core_generated.
Qed.

Lemma range_loop_generated (stack : Stack) (ms : list Member) (c c' : DockerComposeConfig) :
  (forall m, m ∈ ms -> m ∈ Members stack) -> generated stack c ->
  range_loop (member_body stack) ms c = Ok c' -> generated stack c'.
Proof.
  revert c. induction ms as [|m ms IH]; intros c Hms Hg; simpl.
  - by intros [= <-].
  - destruct (member_body stack c m) as [c1|] eqn:Hbody; [|done].
    apply IH.
    + intros m' Hm'. apply Hms. by right.
    + eapply member_body_generated; [|done|done]. apply Hms. by left.
Qed.

Lemma CreateDockerCompose_generated (stack : Stack) (c : DockerComposeConfig) :
  CreateDockerCompose stack = Ok c -> generated stack c.
Proof.
  apply range_loop_generated; [done|]. apply generated_empty.
Qed.

(** ** Totality of the generator, and where it fails *)

(** With a managed database, the body of the loop succeeds on a member
    that is not external: its core service has just been emitted. *)
Lemma member_body_postgres (stack : Stack) (c : DockerComposeConfig) (m : Member) :
  Database stack = "postgres" -> External m = false ->
  member_body stack c m =
    Ok (emit_ipfs_dataexchange stack m
          (set_service ("firefly_core_" +:+ ID m)
             (with_DependsOn (Some (core_depends_db (ID m))) (coreService m))
             (add_volume ("postgres_" +:+ ID m)
                (set_service ("postgres_" +:+ ID m) (postgresService m)
                   (emit_core m c))))).
Proof.
  intros Hdb Hext. unfold member_body, emit_postgres, emit_core, set_depends_on.
  rewrite Hdb, Hext. simpl.
  by rewrite lookup_insert_ne, lookup_insert_eq by done.
Qed.

(** Without a managed database the body of the loop always succeeds. *)
Lemma member_body_other (stack : Stack) (c : DockerComposeConfig) (m : Member) :
  Database stack <> "postgres" ->
  member_body stack c m = Ok (emit_ipfs_dataexchange stack m (emit_core m c)).
Proof.
  intros Hdb. unfold member_body, emit_postgres.
  destruct (String.eqb (Database stack) "postgres") eqn:E; [|done].
  by apply String_eqb_true in E.
Qed.

(** The generator returns a descriptor when the database is not managed or
    no member is external. *)
Lemma CreateDockerCompose_total (stack : Stack) :
  Database stack <> "postgres" \/ (forall m, m ∈ Members stack -> External m = false) ->
  exists c, CreateDockerCompose stack = Ok c.
Proof.
  intros Hok. unfold CreateDockerCompose.
  generalize emptyCompose.
  assert (forall m, m ∈ Members stack -> m ∈ Members stack) as Hsub by done.
  revert Hsub. generalize (Members stack) at 1 3.
  intros ms. induction ms as [|m ms IH]; intros Hsub c; simpl; [by eexists|].
  assert (exists c1, member_body stack c m = Ok c1) as [c1 ->].
  { destruct (decide (Database stack = "postgres")) as [Hdb|Hdb].
    - destruct Hok as [?|Hext]; [done|].
      eexists. apply member_body_postgres; [done|]. apply Hext, Hsub. by left.
    - eexists. by apply member_body_other. }
  simpl. apply IH. intros m' Hm'. apply Hsub. by right.
Qed.

(** The loop body leaves a core key absent unless it belongs to a member
    that is not external. *)
Lemma member_body_core_absent (stack : Stack) (c c' : DockerComposeConfig)
    (m : Member) (id : string) :
  (External m = false -> ID m <> id) ->
  Services c !! ("firefly_core_" +:+ id) = None ->
  member_body stack c m = Ok c' ->
  Services c' !! ("firefly_core_" +:+ id) = None.
Proof.
  intros Hid Hnone. unfold member_body.
  assert (Services (emit_core m c) !! ("firefly_core_" +:+ id) = None) as Hcore.
  { unfold emit_core. destruct (External m); [done|]. simpl.
    rewrite lookup_insert_ne; [done|]. intros ?; simplify_eq/=. by apply Hid. }
  destruct (emit_postgres stack m (emit_core m c)) as [c1|] eqn:Hpg; [|done].
  intros [= <-]. simpl. rewrite !lookup_insert_ne by done.
  revert Hpg. unfold emit_postgres.
  destruct (String.eqb (Database stack) "postgres"); [|by intros [= <-]].
  unfold set_depends_on. simpl. rewrite lookup_insert_ne by done.
  destruct (Services (emit_core m c) !! ("firefly_core_" +:+ ID m)) as [s|] eqn:Hs; [|done].
  destruct (DependsOn s); [|done]. intros [= <-]. simpl.
  rewrite lookup_insert_ne.
  - by rewrite lookup_insert_ne.
  - intros ?; simplify_eq/=; congruence.
Qed.

(** With a managed database, the body of the loop panics on a member whose
    core service is not in the map. *)
Lemma member_body_panics (stack : Stack) (c : DockerComposeConfig) (m : Member) :
  Database stack = "postgres" -> External m = true ->
  Services c !! ("firefly_core_" +:+ ID m) = None ->
  member_body stack c m = Panic "invalid memory address or nil pointer dereference".
Proof.
  intros Hdb Hext Hnone. unfold member_body, emit_postgres, emit_core, set_depends_on.
  rewrite Hdb, Hext. simpl.
  by rewrite lookup_insert_ne, Hnone by done.
Qed.

Lemma range_loop_panics (stack : Stack) (ms : list Member) (c : DockerComposeConfig)
    (m : Member) :
  Database stack = "postgres" -> External m = true -> m ∈ ms ->
  (forall m', m' ∈ ms -> External m' = false -> ID m' <> ID m) ->
  Services c !! ("firefly_core_" +:+ ID m) = None ->
  exists msg, range_loop (member_body stack) ms c = Panic msg.
Proof.
  intros Hdb Hext. revert c.
  induction ms as [|m0 ms IH]; intros c Hin Hids Hnone; [by apply elem_of_nil in Hin|].
  simpl. destruct (member_body stack c m0) as [c1|msg] eqn:Hbody; [|by eexists].
  simpl. apply elem_of_cons in Hin as [<-|Hin].
  - by rewrite member_body_panics in Hbody.
  - apply IH; [done| |].
    + intros m' Hm'. apply Hids. by right.
    + eapply member_body_core_absent; [|done|done]. apply Hids. by left.
Qed.

(** C1. The generator is not total on validated configurations: with the
    managed database, a stack that has an external member whose id no
    locally run member shares makes [CreateDockerCompose] panic, the database
    amendment reaching for a core service that was never emitted. *)
Theorem external_member_with_postgres_panics (stack : Stack) (m : Member) :
  Database stack = "postgres" ->
  m ∈ Members stack -> External m = true ->
  (forall m', m' ∈ Members stack -> External m' = false -> ID m' <> ID m) ->
  exists msg, CreateDockerCompose stack = Panic msg.
Proof.
  intros Hdb Hin Hext Hids. by apply (range_loop_panics stack _ _ m).
Qed.

(** A service, once in the map, stays in it; and the loop emits a core
    service for every member that is not external. *)
Lemma member_body_keeps (stack : Stack) (c c' : DockerComposeConfig) (m : Member)
    (k : string) :
  member_body stack c m = Ok c' -> is_Some (Services c !! k) ->
  is_Some (Services c' !! k).
Proof.
  unfold member_body, emit_postgres, emit_core, set_depends_on. intros Hbody Hk.
  assert (is_Some (Services (if External m then c else
            add_volume ("firefly_core_" +:+ ID m)
              (set_service ("firefly_core_" +:+ ID m) (coreService m) c)) !! k)) as Hk1.
  { destruct (External m); [done|]. simpl. rewrite lookup_insert_is_Some'. auto. }
  revert Hbody Hk1. generalize (if External m then c else
            add_volume ("firefly_core_" +:+ ID m)
              (set_service ("firefly_core_" +:+ ID m) (coreService m) c)).
  intros c1 Hbody Hk1.
  destruct (String.eqb (Database stack) "postgres"); simpl in Hbody.
  - destruct (<[_ := _]> (Services c1) !! _) as [s|]; [|done].
    destruct (DependsOn s); [|done]. simpl in Hbody. injection Hbody as <-. simpl.
    rewrite !lookup_insert_is_Some'. auto 10.
  - injection Hbody as <-. simpl. rewrite !lookup_insert_is_Some'. auto.
Qed.

Lemma member_body_emits_core (stack : Stack) (c c' : DockerComposeConfig) (m : Member) :
  member_body stack c m = Ok c' -> External m = false ->
  is_Some (Services c' !! ("firefly_core_" +:+ ID m)).
Proof.
  intros Hbody Hext.
  destruct (decide (Database stack = "postgres")) as [Hdb|Hdb].
  - rewrite member_body_postgres in Hbody by done. injection Hbody as <-. simpl.
    rewrite !lookup_insert_is_Some'. auto.
  - rewrite member_body_other in Hbody by done. injection Hbody as <-.
    unfold emit_core. rewrite Hext. simpl.
    rewrite !lookup_insert_is_Some'. auto.
Qed.

Lemma range_loop_keeps (stack : Stack) (ms : list Member) (c c' : DockerComposeConfig)
    (k : string) :
  range_loop (member_body stack) ms c = Ok c' -> is_Some (Services c !! k) ->
  is_Some (Services c' !! k).
Proof.
  revert c. induction ms as [|m ms IH]; intros c; simpl; [by intros [= <-]|].
  destruct (member_body stack c m) as [c1|] eqn:Hbody; [|done]. simpl.
  intros Hloop Hk. apply (IH c1 Hloop). by apply (member_body_keeps stack c c1 m).
Qed.

Lemma range_loop_emits_core (stack : Stack) (ms : list Member) (c c' : DockerComposeConfig)
    (m : Member) :
  range_loop (member_body stack) ms c = Ok c' -> m ∈ ms -> External m = false ->
  is_Some (Services c' !! ("firefly_core_" +:+ ID m)).
Proof.
  revert c. induction ms as [|m0 ms IH]; intros c; simpl; [by intros _ ?%elem_of_nil|].
  destruct (member_body stack c m0) as [c1|] eqn:Hbody; [|done]. simpl.
  intros Hloop [->|Hin]%elem_of_cons Hext.
  - apply (range_loop_keeps stack ms c1 c' _ Hloop).
    by apply (member_body_emits_core stack c c1 m0).
  - by apply (IH c1).
Qed.

(** Likewise the loop emits, for every member, a content-store and a
    data-exchange service and, with a managed database, a database
    service. *)
Lemma member_body_emits_services (stack : Stack) (c c' : DockerComposeConfig)
    (m : Member) :
  member_body stack c m = Ok c' ->
  (Database stack = "postgres" -> is_Some (Services c' !! ("postgres_" +:+ ID m))) /\
  is_Some (Services c' !! ("ipfs_" +:+ ID m)) /\
  is_Some (Services c' !! ("dataexchange_" +:+ ID m)).
Proof.
  unfold member_body, emit_postgres, set_depends_on. intros Hbody.
  destruct (String.eqb (Database stack) "postgres") eqn:Hdb; simpl in Hbody.
  - destruct (<[_ := _]> (Services (emit_core m c)) !! _) as [s|]; [|done].
    destruct (DependsOn s); [|done]. simpl in Hbody. injection Hbody as <-. simpl.
    rewrite !lookup_insert_is_Some'. auto 10.
  - injection Hbody as <-. simpl. rewrite !lookup_insert_is_Some'.
    split_and!; [|auto..]. intros Hpg%String_eqb_true. congruence.
Qed.

Lemma range_loop_emits_services (stack : Stack) (ms : list Member)
    (c c' : DockerComposeConfig) (m : Member) :
  range_loop (member_body stack) ms c = Ok c' -> m ∈ ms ->
  (Database stack = "postgres" -> is_Some (Services c' !! ("postgres_" +:+ ID m))) /\
  is_Some (Services c' !! ("ipfs_" +:+ ID m)) /\
  is_Some (Services c' !! ("dataexchange_" +:+ ID m)).
Proof.
  revert c. induction ms as [|m0 ms IH]; intros c; simpl; [by intros _ ?%elem_of_nil|].
  destruct (member_body stack c m0) as [c1|] eqn:Hbody; [|done]. simpl.
  intros Hloop [->|Hin]%elem_of_cons.
  - destruct (member_body_emits_services stack c c1 m0 Hbody) as (Hpg & Hipfs & Hdx).
    split_and!; [intros Hdb; specialize (Hpg Hdb)|..];
      by apply (range_loop_keeps stack ms c1 c' _ Hloop).
  - by apply (IH c1).
Qed.

Lemma CreateDockerCompose_emits_core (stack : Stack) (c : DockerComposeConfig) :
  CreateDockerCompose stack = Ok c ->
  forall m, m ∈ Members stack -> External m = false ->
    is_Some (Services c !! ("firefly_core_" +:+ ID m)).
Proof. intros Hc m. by apply (range_loop_emits_core stack _ emptyCompose). Qed.

(** After a step of the loop, a core key is in the map when it was there
    before or the member is not external and has that id. *)
Lemma member_body_core_iff (stack : Stack) (c c' : DockerComposeConfig) (m : Member)
    (id : string) :
  member_body stack c m = Ok c' ->
  is_Some (Services c' !! ("firefly_core_" +:+ id)) <->
  is_Some (Services c !! ("firefly_core_" +:+ id)) \/ (External m = false /\ ID m = id).
Proof.
  intros Hbody. split.
  - intros Hsome.
    destruct (Services c !! ("firefly_core_" +:+ id)) as [s|] eqn:Hc; [left; by eexists|].
    destruct (decide (External m = false /\ ID m = id)) as [|Hne]; [by right|].
    rewrite (member_body_core_absent stack c c' m id) in Hsome; [by destruct Hsome| |done..].
    intros Hext Hid. by apply Hne.
  - intros [Hsome|[Hext <-]].
    + by apply (member_body_keeps stack c c' m).
    + by apply (member_body_emits_core stack c c' m).
Qed.

(** With a managed database, the body of the loop succeeds on an external
    member whose core key is already in the map. *)
Lemma member_body_amends (stack : Stack) (c : DockerComposeConfig) (m : Member) :
  Database stack = "postgres" -> External m = true -> generated stack c ->
  is_Some (Services c !! ("firefly_core_" +:+ ID m)) ->
  exists c', member_body stack c m = Ok c'.
Proof.
  intros Hdb Hext [Hs _ _] [s Hcore].
  unfold member_body, emit_postgres, emit_core, set_depends_on.
  rewrite Hdb, Hext. simpl. rewrite lookup_insert_ne, Hcore by done.
  pose proof (Hs _ s Hcore) as He.
  inversion He as [m' d _ _ _ Hk Hsvc| | |]; simplify_eq/=.
  by eexists.
Qed.

(** With a managed database, the loop returns exactly when every external
    member finds a core service under its id: one already in the map or one
    emitted for an earlier member that is not external. *)
Lemma range_loop_returns_iff (stack : Stack) (ms : list Member) (c : DockerComposeConfig) :
  Database stack = "postgres" -> generated stack c ->
  (forall m, m ∈ ms -> m ∈ Members stack) ->
  (exists c', range_loop (member_body stack) ms c = Ok c') <->
  (forall pre m post, ms = (pre ++ m :: post)%list -> External m = true ->
     is_Some (Services c !! ("firefly_core_" +:+ ID m)) \/
     exists m', m' ∈ pre /\ External m' = false /\ ID m' = ID m).
Proof.
  intros Hdb. revert c. induction ms as [|m0 ms IH]; intros c Hg Hsub.
  - split; [|by eexists]. intros _ pre m post Heq. by destruct pre.
  - simpl. destruct (member_body stack c m0) as [c1|msg] eqn:Hbody; simpl.
    + assert (generated stack c1) as Hg1.
      { eapply member_body_generated; [|done|done]. apply Hsub. by left. }
      rewrite (IH c1 Hg1) by (intros m' Hm'; apply Hsub; by right).
      split.
      * intros Hrest pre m post Heq Hext. destruct pre as [|m1 pre]; simplify_eq/=.
        -- left.
           destruct (Services c !! ("firefly_core_" +:+ ID m)) as [s|] eqn:Hcore;
             [by eexists|].
           by rewrite (member_body_panics stack c m) in Hbody.
        -- destruct (Hrest pre m post eq_refl Hext) as [Hsome|(m' & ? & ? & ?)].
           ++ destruct (proj1 (member_body_core_iff stack c c1 m1 (ID m) Hbody) Hsome)
                as [?|[? ?]]; [by left|].
              right. exists m1. split_and!; [by left|done..].
           ++ right. exists m'. split_and!; [by right|done..].
      * intros Hall pre m post -> Hext.
        destruct (Hall (m0 :: pre) m post eq_refl Hext) as [Hsome|(m' & Hin & ? & ?)].
        -- left. apply (member_body_core_iff stack c c1 m0 (ID m) Hbody). by left.
        -- apply elem_of_cons in Hin as [->|Hin].
           ++ left. apply (member_body_core_iff stack c c1 m0 (ID m) Hbody). by right.
           ++ right. by exists m'.
    + split; [by intros [? ?]|]. intros Hall. exfalso.
      destruct (External m0) eqn:Hext.
      * destruct (Hall [] m0 ms eq_refl Hext) as [Hsome|(m' & Hin & _)];
          [|by apply elem_of_nil in Hin].
        destruct (member_body_amends stack c m0) as [c' Hc']; [done..|]. congruence.
      * by rewrite member_body_postgres in Hbody.
Qed.

(** The generator returns a descriptor exactly when the database is not
    managed, or every external member comes after a member that is not
    external and has the same id. *)
Lemma CreateDockerCompose_returns_iff (stack : Stack) :
  (exists c, CreateDockerCompose stack = Ok c) <->
  Database stack <> "postgres" \/
  (forall pre m post, Members stack = (pre ++ m :: post)%list -> External m = true ->
     exists m', m' ∈ pre /\ External m' = false /\ ID m' = ID m).
Proof.
  destruct (decide (Database stack = "postgres")) as [Hdb|Hdb].
  - unfold CreateDockerCompose.
    rewrite (range_loop_returns_iff stack (Members stack) emptyCompose Hdb
               (generated_empty stack)) by done.
    split.
    + intros Hall. right. intros pre m post Heq Hext.
      destruct (Hall pre m post Heq Hext) as [[s Hs]|?]; [|done].
      simpl in Hs. by rewrite lookup_empty in Hs.
    + intros [?|Hall] pre m post Heq Hext; [done|]. right. by apply (Hall pre m post).
  - split; [by left|]. intros _. apply CreateDockerCompose_total. by left.
Qed.

(** ** Volumes *)

Lemma mount_volume_prefix (p rest v : string) :
  mount_volume rest = Some v -> mount_volume (p +:+ rest) = Some (p +:+ v).
Proof. intros Hr. induction p as [|a p IH]; simpl; [done|]. by rewrite IH. Qed.

Lemma mount_volume_named (p id path : string) :
  mount_volume path = None ->
  mount_volume (p +:+ id +:+ String ":" path) = Some (p +:+ id).
Proof. intros Hp. by apply mount_volume_prefix, mount_volume_app. Qed.

(** A service mounts only the volumes that belong to its key. *)
Lemma emitted_mount_named (stack : Stack) (k : string) (s : Service) (mount : string) :
  emitted stack k s -> mount ∈ Volumes s ->
  exists v, mount_volume mount = Some v /\ volume_of v k.
Proof.
  intros [m d _ _ _|m _ _|m _|m _]; simpl;
    rewrite ?elem_of_cons, elem_of_nil; intros Hin;
    repeat destruct Hin as [->|Hin]; try done.
  - exists ("firefly_core_" +:+ ID m). split; [|constructor].
    by apply (mount_volume_named "firefly_core_").
  - exists ("postgres_" +:+ ID m). split; [|constructor].
    by apply (mount_volume_named "postgres_").
  - exists ("ipfs_staging_" +:+ ID m). split; [|constructor].
    by apply (mount_volume_named "ipfs_staging_").
  - exists ("ipfs_data_" +:+ ID m). split; [|constructor].
    by apply (mount_volume_named "ipfs_data_").
  - exists ("dataexchange_" +:+ ID m). split; [|constructor].
    by apply (mount_volume_named "dataexchange_").
Qed.

(** A service mounts every volume that belongs to its key. *)
Lemma emitted_volume_mounted (stack : Stack) (k : string) (s : Service) (v : string) :
  emitted stack k s -> volume_of v k ->
  exists mount, mount ∈ Volumes s /\ mount_volume mount = Some v.
Proof.
  intros [m d _ _ _|m _ _|m _|m _] Hv; inversion Hv; simplify_eq/=.
  - eexists. split; [by left|]. by apply (mount_volume_named "firefly_core_").
  - eexists. split; [by left|]. by apply (mount_volume_named "postgres_").
  - eexists. split; [by left|]. by apply (mount_volume_named "ipfs_staging_").
  - eexists. split; [right; by left|]. by apply (mount_volume_named "ipfs_data_").
  - eexists. split; [by left|]. by apply (mount_volume_named "dataexchange_").
Qed.

(** C5. Volume closure: in every generated descriptor, each mount of each
    service names a volume of the descriptor's volume set, and each volume
    of that set is mounted by one of the services. *)
Theorem volume_closure (stack : Stack) (c : DockerComposeConfig) :
  CreateDockerCompose stack = Ok c ->
  (forall k s mount, Services c !! k = Some s -> mount ∈ Volumes s ->
     exists v, mount_volume mount = Some v /\ v ∈ Volumes_ c) /\
  (forall v, v ∈ Volumes_ c ->
     exists k s mount, Services c !! k = Some s /\ mount ∈ Volumes s /\
       mount_volume mount = Some v).
Proof.
  intros [Hs Hv Hm]%CreateDockerCompose_generated. split.
  - intros k s mount Hk Hin.
    destruct (emitted_mount_named stack k s mount) as (v & Hmv & Hvk); auto.
    exists v. split; [done|]. apply (Hm k); [by eexists|done].
  - intros v Hin. destruct (Hv v Hin) as (k & Hvk & [s Hk]).
    destruct (emitted_volume_mounted stack k s v) as (mount & ? & ?); auto.
    by exists k, s, mount.
Qed.

(** ** Dependencies *)

(** Only core services have [depends_on] entries, and they name
    data-exchange and database services. *)
Lemma depends_shape (stack : Stack) (c : DockerComposeConfig) (k k' : string) :
  generated stack c -> depends c k k' ->
  (exists id, k = "firefly_core_" +:+ id) /\
  ((exists id, k' = "dataexchange_" +:+ id) \/ (exists id, k' = "postgres_" +:+ id)).
Proof.
  intros [Hs _ _] (s & d & Hk & Hd & Hk').
  destruct (Hs k s Hk) as [m d0 _ _ Hd0|m _ _|m _|m _]; simplify_eq/=.
  split; [by eexists|].
  destruct Hd0 as [->|[_ ->]].
  - unfold core_depends in Hk'.
    apply lookup_singleton_is_Some in Hk' as <-. left. by eexists.
  - unfold core_depends_db, core_depends in Hk'.
    apply lookup_insert_is_Some in Hk' as [<-|[_ Hk']]; [right; by eexists|].
    apply lookup_singleton_is_Some in Hk' as <-. left. by eexists.
Qed.

Lemma depends_target_is_leaf (stack : Stack) (c : DockerComposeConfig) (k k' k'' : string) :
  generated stack c -> depends c k k' -> ~ depends c k' k''.
Proof.
  intros Hg H1 H2.
  destruct (depends_shape stack c k k' Hg H1) as [_ [[id ->]|[id ->]]];
    destruct (depends_shape stack c _ k'' Hg H2) as [[id' ?] _]; simplify_eq/=.
Qed.

(** C6. Dependency acyclicity: in every generated descriptor no service
    reaches itself along [depends_on] edges, directly or transitively. *)
Theorem dependency_acyclic (stack : Stack) (c : DockerComposeConfig) :
  CreateDockerCompose stack = Ok c ->
  forall k, ~ tc (depends c) k k.
Proof.
  intros Hg%CreateDockerCompose_generated k Hcycle.
  inversion Hcycle as [? ? Hstep|? y ? Hstep Hrest]; subst.
  - by apply (depends_target_is_leaf stack c k k k Hg).
  - inversion Hrest as [? ? Hnext|? z ? Hnext _]; subst;
      by eapply (depends_target_is_leaf stack c k y).
Qed.

(** ** Published ports *)

(** C10. Port pairs: in every generated descriptor each member has a
    content-store and a data-exchange service, a core service unless it is
    external, and a database service when the database is the managed one;
    every service is one of these four kinds; a core service publishes the
    core port and the admin port of a member that is not external, each
    mapped to the same container port, and a database, content-store or
    data-exchange service maps its member's host ports to the fixed
    container ports 5432, 5001 and 8080, or 3000. *)
Theorem port_pairs (stack : Stack) (c : DockerComposeConfig) :
  CreateDockerCompose stack = Ok c ->
  (forall m, m ∈ Members stack ->
     (External m = false -> is_Some (Services c !! ("firefly_core_" +:+ ID m))) /\
     (Database stack = "postgres" -> is_Some (Services c !! ("postgres_" +:+ ID m))) /\
     is_Some (Services c !! ("ipfs_" +:+ ID m)) /\
     is_Some (Services c !! ("dataexchange_" +:+ ID m))) /\
  (forall k s, Services c !! k = Some s ->
     exists id, k = "firefly_core_" +:+ id \/ k = "postgres_" +:+ id \/
       k = "ipfs_" +:+ id \/ k = "dataexchange_" +:+ id) /\
  forall k s, Services c !! k = Some s ->
  (forall id, k = "firefly_core_" +:+ id ->
     exists m, m ∈ Members stack /\ ID m = id /\ External m = false /\
       published_port <$> Ports s =
         [ Some (ExposedFireflyPort m, ExposedFireflyPort m);
           Some (ExposedFireflyAdminPort m, ExposedFireflyAdminPort m) ]) /\
  (forall id, k = "postgres_" +:+ id ->
     exists m, m ∈ Members stack /\ ID m = id /\
       published_port <$> Ports s = [ Some (ExposedPostgresPort m, 5432) ]) /\
  (forall id, k = "ipfs_" +:+ id ->
     exists m, m ∈ Members stack /\ ID m = id /\
       published_port <$> Ports s =
         [ Some (ExposedIPFSApiPort m, 5001); Some (ExposedIPFSGWPort m, 8080) ]) /\
  (forall id, k = "dataexchange_" +:+ id ->
     exists m, m ∈ Members stack /\ ID m = id /\
       published_port <$> Ports s = [ Some (ExposedDataexchangePort m, 3000) ]).
Proof.
  intros Hc. split_and!.
  - intros m Hm. split; [by apply (CreateDockerCompose_emits_core stack c)|].
    by apply (range_loop_emits_services stack (Members stack) emptyCompose).
  - apply CreateDockerCompose_generated in Hc as [Hs _ _]. intros k s Hk.
    destruct (Hs k s Hk) as [m d _ _ _|m _ _|m _|m _]; exists (ID m); auto.
  - apply CreateDockerCompose_generated in Hc as [Hs _ _]. intros k s Hk.
    destruct (Hs k s Hk) as [m d Hm Hext _|m Hm _|m Hm|m Hm];
      (split_and!; intros id Hid; simplify_eq/=; exists m; split_and!; try done).
    + by rewrite !published_port_Sprintf.
    + by rewrite (published_port_fixed _ 5432).
    + by rewrite (published_port_fixed _ 5001), (published_port_fixed _ 8080).
    + by rewrite (published_port_fixed _ 3000).
Qed.

Lemma host_port_Sprintf (h c : Z) :
  host_port (Sprintf_d h +:+ ":" +:+ Sprintf_d c) = Some h.
Proof. unfold host_port. by rewrite published_port_Sprintf. Qed.

Lemma host_port_fixed (h c : Z) (text : string) :
  parse_d text = Some c -> host_port (Sprintf_d h +:+ String ":" text) = Some h.
Proof. intros Hc. unfold host_port. by rewrite (published_port_fixed h c). Qed.

(** Each host port a service publishes is a port field of a member, and the
    field fixes the service and the position in its list. *)
Lemma emitted_port_owner (stack : Stack) (k : string) (s : Service) (n : nat) (y : Z) :
  emitted stack k s -> service_host_ports s !! n = Some y ->
  exists m i, m ∈ Members stack /\ member_ports m !! i = Some y /\
    k = port_service_key i (ID m) /\ n = port_slot i.
Proof.
  intros [m d Hm _ _|m Hm _|m Hm|m Hm]; unfold service_host_ports; simpl.
  - rewrite !host_port_Sprintf. simpl.
    destruct n as [|[|n]]; intros [= <-]; exists m;
      [by exists 0%nat | by exists 1%nat].
  - rewrite (host_port_fixed _ 5432) by done. simpl.
    destruct n as [|n]; intros [= <-]. exists m. by exists 2%nat.
  - rewrite (host_port_fixed _ 5001), (host_port_fixed _ 8080) by done. simpl.
    destruct n as [|[|n]]; intros [= <-]; exists m;
      [by exists 3%nat | by exists 4%nat].
  - rewrite (host_port_fixed _ 3000) by done. simpl.
    destruct n as [|n]; intros [= <-]. exists m. by exists 5%nat.
Qed.

(** In a duplicate-free concatenation a value has one owner and one
    position. *)
Lemma NoDup_bind_owner {A B : Type} (f : A -> list B) (l : list A)
    (x1 x2 : A) (i j : nat) (y : B) :
  NoDup (l ≫= f) -> x1 ∈ l -> x2 ∈ l ->
  f x1 !! i = Some y -> f x2 !! j = Some y -> x1 = x2 /\ i = j.
Proof.
  induction l as [|x l IH]; [by intros _ ?%elem_of_nil|].
  rewrite bind_cons. intros (Hx & Hdisj & Hl)%NoDup_app.
  intros [->|H1]%elem_of_cons [->|H2]%elem_of_cons Hi Hj.
  - split; [done|]. exact (NoDup_lookup _ _ _ _ Hx Hi Hj).
  - exfalso. apply (Hdisj y); [by eapply list_elem_of_lookup_2|].
    apply list_elem_of_bind. exists x2. split; [|done].
    by eapply list_elem_of_lookup_2.
  - exfalso. apply (Hdisj y); [by eapply list_elem_of_lookup_2|].
    apply list_elem_of_bind. exists x1. split; [|done].
    by eapply list_elem_of_lookup_2.
  - by apply IH.
Qed.

(** C7. Port disjointness: when the exposed port fields of the members of
    a stack are pairwise distinct, within and across members, no host port
    is published twice by the services of the generated descriptor. *)
Theorem host_ports_disjoint (stack : Stack) (c : DockerComposeConfig) :
  NoDup (Members stack ≫= member_ports) ->
  CreateDockerCompose stack = Ok c ->
  NoDup (published_host_ports c).
Proof.
  intros Hports [Hs _ _]%CreateDockerCompose_generated.
  unfold published_host_ports. apply NoDup_bind.
  - intros [k1 s1] [k2 s2] y H1%elem_of_map_to_list H2%elem_of_map_to_list.
    simpl. intros [n1 Hn1]%list_elem_of_lookup_1 [n2 Hn2]%list_elem_of_lookup_1.
    destruct (emitted_port_owner stack k1 s1 n1 y) as (m1 & i1 & ? & ? & -> & _); auto.
    destruct (emitted_port_owner stack k2 s2 n2 y) as (m2 & i2 & ? & ? & -> & _); auto.
    destruct (NoDup_bind_owner member_ports (Members stack) m1 m2 i1 i2 y)
      as [-> ->]; auto.
    f_equal. congruence.
  - intros [k s] Hk%elem_of_map_to_list. simpl.
    apply NoDup_alt. intros n1 n2 y Hn1 Hn2.
    destruct (emitted_port_owner stack k s n1 y) as (m1 & i1 & ? & ? & _ & ->); auto.
    destruct (emitted_port_owner stack k s n2 y) as (m2 & i2 & ? & ? & _ & ->); auto.
    by destruct (NoDup_bind_owner member_ports (Members stack) m1 m2 i1 i2 y)
      as [_ ->].
  - apply NoDup_map_to_list.
Qed.

(** ** The two-member scenario *)



(** ** [strconv.Atoi] on a few inputs *)

Example Atoi_3 : Atoi "3" = (3, None).
Proof. reflexivity. Qed.

Example Atoi_plus_7 : Atoi "+7" = (7, None).
Proof. reflexivity. Qed.

Example Atoi_minus_12 : Atoi "-12" = (-12, None).
Proof. reflexivity. Qed.

Example Atoi_empty : Atoi "" = (0, Some (NumError "Atoi" "" ErrSyntax)).
Proof. reflexivity. Qed.

Example Atoi_word : Atoi "two" = (0, Some (NumError "Atoi" "two" ErrSyntax)).
Proof. reflexivity. Qed.

Example Atoi_too_large :
  Atoi "9223372036854775808" =
    (9223372036854775807, Some (NumError "Atoi" "9223372036854775808" ErrRange)).
Proof. reflexivity. Qed.

Example Atoi_overflow_then_letter :
  Atoi "99999999999999999999x" =
    (9223372036854775807, Some (NumError "Atoi" "99999999999999999999x" ErrRange)).
Proof. reflexivity. Qed.

Example Atoi_letter_then_overflow :
  Atoi "x99999999999999999999" =
    (0, Some (NumError "Atoi" "x99999999999999999999" ErrSyntax)).
Proof. reflexivity. Qed.

Example Atoi_too_small :
  Atoi "-99999999999999999999" =
    (-9223372036854775808, Some (NumError "Atoi" "-99999999999999999999" ErrRange)).
Proof. reflexivity. Qed.

(** ** The validators of [init] *)

Section Validators.
Context {C : Collaborators} {SM : StackManager}.

(** The checks of [validateCount], in their order. *)
Lemma validateCount_order (initOptions : InitOptions) (input : string) :
  (forall i err, Atoi input = (i, Some err) ->
     validateCount initOptions input = Some NotANumber) /\
  (forall i, Atoi input = (i, None) -> i <= 0 ->
     validateCount initOptions input = Some NonPositiveCount) /\
  (forall i, Atoi input = (i, None) -> 0 < i -> ExternalProcesses initOptions >= i ->
     validateCount initOptions input = Some TooManyExternal) /\
  (forall i, Atoi input = (i, None) -> 0 < i -> ExternalProcesses initOptions < i ->
     validateCount initOptions input = None).
Proof.
  unfold validateCount. split_and!; intros i.
  - by intros err ->.
  - intros -> Hi. by rewrite (proj2 (Z.leb_le i 0)).
  - intros -> Hi Hext. rewrite (proj2 (Z.leb_gt i 0)) by done.
    by rewrite (proj2 (Z.geb_le _ _)) by lia.
  - intros -> Hi Hext. rewrite (proj2 (Z.leb_gt i 0)) by done.
    destruct (ExternalProcesses initOptions >=? i)%Z eqn:E; [|done].
    apply Z.geb_le in E. lia.
Qed.

(** C3. [validateCount] fails with [NotANumber] on every input that does
    not parse, with [NonPositiveCount] on every parsed value that is zero or
    negative, with [TooManyExternal] on every parsed positive value that the
    number of external processes equals or exceeds, so that it fails whenever
    that number equals or exceeds the parsed value; it succeeds on every
    parsed positive value that is one more than the number of external
    processes. *)
Theorem validateCount_cases (initOptions : InitOptions) (input : string) :
  (forall i err, Atoi input = (i, Some err) ->
     validateCount initOptions input = Some NotANumber) /\
  (forall i, Atoi input = (i, None) -> i <= 0 ->
     validateCount initOptions input = Some NonPositiveCount) /\
  (forall i, Atoi input = (i, None) -> 0 < i -> ExternalProcesses initOptions >= i ->
     validateCount initOptions input = Some TooManyExternal) /\
  (forall i, Atoi input = (i, None) -> ExternalProcesses initOptions >= i ->
     is_Some (validateCount initOptions input)) /\
  (forall i, Atoi input = (i, None) -> 0 < i -> ExternalProcesses initOptions = i - 1 ->
     validateCount initOptions input = None).
Proof.
  destruct (validateCount_order initOptions input) as (Hnan & Hnonpos & Hmany & Hok).
  split_and!; [done..| |].
  - intros i Hi Hext. destruct (decide (i <= 0)).
    + rewrite (Hnonpos i) by done. by eexists.
    + rewrite (Hmany i) by (done || lia). by eexists.
  - intros i Hi Hpos Hext. apply (Hok i); [done..|lia].
Qed.

(** C9. The policy check of the blockchain provider fails with
    [UnsupportedProvider] on every token the registry parses to a provider
    other than [GoEthereum], and succeeds exactly on the tokens the registry
    parses to [GoEthereum]; so, the registry parsing some token to another
    provider, the tokens the check accepts are strictly fewer than the tokens
    the registry parses. *)
Theorem validateBlockchainProvider_policy :
  (forall input v, BlockchainProviderFromString input = (v, None) -> v <> GoEthereum ->
     validateBlockchainProvider input = Some UnsupportedProvider) /\
  (forall input, validateBlockchainProvider input = None <->
     BlockchainProviderFromString input = (GoEthereum, None)) /\
  ((exists input v, BlockchainProviderFromString input = (v, None) /\ v <> GoEthereum) ->
     (forall input, validateBlockchainProvider input = None ->
        (BlockchainProviderFromString input).2 = None) /\
     (exists input, (BlockchainProviderFromString input).2 = None /\
        validateBlockchainProvider input = Some UnsupportedProvider)).
Proof.
  assert (forall input v, BlockchainProviderFromString input = (v, None) ->
            v <> GoEthereum -> validateBlockchainProvider input = Some UnsupportedProvider)
    as Hreject.
  { intros input v Hp Hv. unfold validateBlockchainProvider. rewrite Hp.
    by destruct (decide (v <> GoEthereum)). }
  assert (forall input, validateBlockchainProvider input = None <->
            BlockchainProviderFromString input = (GoEthereum, None)) as Haccept.
  { intros input. unfold validateBlockchainProvider.
    destruct (BlockchainProviderFromString input) as [v [err|]]; [done|].
    destruct (decide (v <> GoEthereum)) as [Hv|Hv].
    - split; [done|]. by intros [= ->].
    - apply dec_stable in Hv as ->. done. }
  split_and!; [done..|].
  intros (input & v & Hp & Hv). split.
  - intros input' ->%Haccept. done.
  - exists input. split; [by rewrite Hp|]. by apply (Hreject input v).
Qed.

(** The two checks of [validateName], in their order. *)
Lemma validateName_cases (stackName : string) (w : World) :
  (strings_TrimSpace stackName = "" -> validateName stackName w = Some EmptyName) /\
  (strings_TrimSpace stackName <> "" -> (CheckExists stackName w).1 = true ->
     validateName stackName w = Some (NameConflict stackName)) /\
  (strings_TrimSpace stackName <> "" -> (CheckExists stackName w).1 = false ->
     validateName stackName w = (CheckExists stackName w).2).
Proof.
  unfold validateName. split_and!.
  - intros ->. done.
  - intros Hne Hex. destruct (String.eqb_spec (strings_TrimSpace stackName) ""); [done|].
    destruct (CheckExists stackName w) as [[] ?]; by simplify_eq/=.
  - intros Hne Hex. destruct (String.eqb_spec (strings_TrimSpace stackName) ""); [done|].
    destruct (CheckExists stackName w) as [[] ?]; by simplify_eq/=.
Qed.

(** C4, as the source has it. With the stack name and the member count
    given as arguments, [init] runs the three provider checks first
    (database, blockchain with its policy check, tokens), then the name
    check ([EmptyName] before [NameConflict]), then the count check
    ([NotANumber], then [NonPositiveCount], then [TooManyExternal]), and
    reports the first failure in this order; when none fails, it reports
    what [InitStack] returns. *)
Theorem init_reports_first_failure (flags : Flags) (stackName memberCountInput : string)
    (rest : list string) (st : State) :
  (initCmd_RunE flags (stackName :: memberCountInput :: rest) st).1 =
    match first_failure (init_validations flags stackName memberCountInput (world st)) with
    | Some err => Some err
    | None =>
        (InitStack stackName (Atoi memberCountInput).1 (fill_initOptions flags) (world st)).1
    end /\
  (strings_TrimSpace stackName = "" ->
     validateName stackName (world st) = Some EmptyName) /\
  (strings_TrimSpace stackName <> "" -> (CheckExists stackName (world st)).1 = true ->
     validateName stackName (world st) = Some (NameConflict stackName)) /\
  (forall i err, Atoi memberCountInput = (i, Some err) ->
     validateCount (initOptions flags) memberCountInput = Some NotANumber) /\
  (forall i, Atoi memberCountInput = (i, None) -> i <= 0 ->
     validateCount (initOptions flags) memberCountInput = Some NonPositiveCount) /\
  (forall i, Atoi memberCountInput = (i, None) -> 0 < i ->
     ExternalProcesses (initOptions flags) >= i ->
     validateCount (initOptions flags) memberCountInput = Some TooManyExternal).
Proof.
  destruct (validateName_cases stackName (world st)) as (Hempty & Hconflict & _).
  destruct (validateCount_order (initOptions flags) memberCountInput)
    as (Hnan & Hnonpos & Hmany & _).
  split_and!; [|done..].
  unfold initCmd_RunE, init_validations. simpl.
  destruct (validateDatabaseProvider _) as [?|]; [done|].
  destruct (validateBlockchainProvider _) as [?|]; [done|].
  destruct (validateTokensProvider _) as [?|]; [done|].
  destruct (validateName _ _) as [?|]; [done|].
  destruct (validateCount _ _) as [?|]; [done|]. simpl.
  by destruct (InitStack _ _ _ _) as [[?|] ?].
Qed.

(** C8. A declined reset: on an existing stack, without [--force], when the
    confirmation prompt fails or its answer is not [y], [reset] returns no
    error, prints the warning and [canceled], and leaves the persisted
    stacks as they were; [ResetStack] is not called. *)
Theorem reset_declined_is_noop (flags : Flags) (stackName : string) (rest : list string)
    (st : State) (result : string) (err : option error) (con : Console) :
  force flags = false ->
  CheckExists stackName (world st) = (true, None) ->
  promptui_Run
    {| Label := "reset all data in FireFly stack '" +:+ stackName +:+ "'";
       IsConfirm := true |} (console st) = ((result, err), con) ->
  is_Some err \/ strings_ToLower result <> "y" ->
  resetCmd_RunE flags (stackName :: rest) st =
    (None, {| world := world st; console := con;
              trace := trace st ++ [ Println reset_warning; Printf "canceled" [] ] |}).
Proof.
  intros Hforce Hexists Hrun Hdeclined. unfold resetCmd_RunE.
  rewrite Hexists, Hforce. simpl. rewrite Hrun.
  assert (bool_decide (is_Some err) || negb (String.eqb (strings_ToLower result) "y") = true)
    as ->.
  { destruct Hdeclined as [Herr|Hans].
    - by rewrite bool_decide_eq_true_2.
    - apply orb_true_iff. right. apply negb_true_iff.
      by destruct (String.eqb_spec (strings_ToLower result) "y"). }
  unfold emit, with_console. simpl. by rewrite <- app_assoc.
Qed.

End Validators.

(** * The statements on sample configurations *)

Lemma two_members_generated :
  CreateDockerCompose sample.two_members = Ok sample.two_members_compose.
Proof. vm_compute. reflexivity. Defined.

(** The failing configuration of C1: two members, the managed database,
    one external process. *)
Lemma external_member_with_postgres_panics_witness :
  exists msg, CreateDockerCompose sample.one_external = Panic msg.
Proof.
  apply (external_member_with_postgres_panics sample.one_external
           (model.createMember (sample.options model.PostgreSQL 1) 0)).
  - reflexivity.
  - by left.
  - reflexivity.
  - intros m'. unfold sample.one_external, model.createStack. simpl.
    rewrite !elem_of_cons, elem_of_nil. intros [->|[->|[]]]; [discriminate|].
    intros _. discriminate.
Defined.

Example one_external_panic :
  CreateDockerCompose sample.one_external =
    Panic "invalid memory address or nil pointer dereference".
Proof. vm_compute. reflexivity. Qed.


Lemma validateCount_cases_witness :
  validateCount (sample.options model.SQLite3 2) "two" = Some NotANumber /\
  validateCount (sample.options model.SQLite3 2) "0" = Some NonPositiveCount /\
  validateCount (sample.options model.SQLite3 2) "2" = Some TooManyExternal /\
  validateCount (sample.options model.SQLite3 2) "1" = Some TooManyExternal /\
  validateCount (sample.options model.SQLite3 2) "3" = None.
Proof.
  split_and!.
  - apply (proj1 (validateCount_cases (sample.options model.SQLite3 2) "two")
             0 (NumError "Atoi" "two" ErrSyntax)).
    reflexivity.
  - apply (proj1 (proj2 (validateCount_cases (sample.options model.SQLite3 2) "0")) 0).
    + reflexivity.
    + reflexivity.
  - apply (proj1 (proj2 (proj2 (validateCount_cases (sample.options model.SQLite3 2) "2"))) 2).
    + reflexivity.
    + reflexivity.
    + discriminate.
  - apply (proj1 (proj2 (proj2 (validateCount_cases (sample.options model.SQLite3 2) "1"))) 1).
    + reflexivity.
    + reflexivity.
    + discriminate.
  - apply (proj2 (proj2 (proj2 (proj2
             (validateCount_cases (sample.options model.SQLite3 2) "3")))) 3).
    + reflexivity.
    + reflexivity.
    + reflexivity.
Defined.

(** The order of the design document against the order of the source: with
    an empty stack name and an unknown database token, the document's order
    reports [EmptyName], [init] reports the unknown database. *)
Lemma init_order_counterexample :
  first_failure (spec_init_validations sample.unknown_database_flags "" "1"
                   (world sample.fresh_state)) = Some EmptyName /\
  (initCmd_RunE sample.unknown_database_flags [ ""; "1" ] sample.fresh_state).1 =
    Some (UnknownProvider "database" "oracle" [ "postgres"; "sqlite3" ]) /\
  (initCmd_RunE sample.unknown_database_flags [ ""; "1" ] sample.fresh_state).1 <>
    first_failure (spec_init_validations sample.unknown_database_flags "" "1"
                     (world sample.fresh_state)).
Proof. split_and!; [reflexivity | reflexivity | discriminate]. Qed.

Lemma volume_closure_witness :
  (forall k s mount, Services sample.two_members_compose !! k = Some s ->
     mount ∈ Volumes s ->
     exists v, mount_volume mount = Some v /\ v ∈ Volumes_ sample.two_members_compose) /\
  (forall v, v ∈ Volumes_ sample.two_members_compose ->
     exists k s mount, Services sample.two_members_compose !! k = Some s /\
       mount ∈ Volumes s /\ mount_volume mount = Some v).
Proof.
  apply (volume_closure sample.two_members sample.two_members_compose).
  vm_compute. reflexivity.
Defined.

Lemma dependency_acyclic_witness :
  Forall (fun k => ~ tc (depends sample.two_members_compose) k k)
    (service_names sample.two_members_compose).
Proof.
  apply Forall_forall. intros k _.
  apply (dependency_acyclic sample.two_members sample.two_members_compose).
  vm_compute. reflexivity.
Defined.

Lemma host_ports_disjoint_witness :
  NoDup (published_host_ports sample.two_members_compose).
Proof.
  apply (host_ports_disjoint sample.two_members sample.two_members_compose).
  - apply (bool_decide_unpack _). vm_compute. exact I.
  - vm_compute. reflexivity.
Defined.

Example two_members_host_ports :
  published_host_ports sample.two_members_compose ≡ₚ
    [ 5000; 5101; 5102; 5103; 5104; 5105; 5001; 5201; 5202; 5203; 5204; 5205 ].
Proof.
  apply (bool_decide_unpack _). vm_compute. exact I.
Qed.

Lemma reset_declined_is_noop_witness :
  resetCmd_RunE sample.reset_flags [ "stack1" ] sample.stack1_state =
    (None, {| world := world sample.stack1_state; console := ([] : model.Console);
              trace := [ Println reset_warning; Printf "canceled" [] ] |}).
Proof.
  apply (reset_declined_is_noop sample.reset_flags "stack1" [] sample.stack1_state
           "" (Some model.ErrAbort) []).
  - reflexivity.
  - vm_compute. reflexivity.
  - reflexivity.
  - left. by eexists.
Defined.

Lemma validateBlockchainProvider_policy_witness :
  (forall input, validateBlockchainProvider input = None ->
     (model.BlockchainProviderFromString input).2 = None) /\
  (exists input, (model.BlockchainProviderFromString input).2 = None /\
     validateBlockchainProvider input = Some UnsupportedProvider).
Proof.
  apply (proj2 (proj2 (validateBlockchainProvider_policy (C := model.collaborators)))).
  exists "besu", model.HyperledgerBesu. split; [reflexivity | discriminate].
Defined.

Lemma two_members_members (m : Member) :
  m ∈ Members sample.two_members ->
  m = model.createMember (sample.options model.PostgreSQL 0) 0 \/
  m = model.createMember (sample.options model.PostgreSQL 0) 1.
Proof.
  change (Members sample.two_members) with
    [ model.createMember (sample.options model.PostgreSQL 0) 0;
      model.createMember (sample.options model.PostgreSQL 0) 1 ].
  rewrite !elem_of_cons, elem_of_nil. tauto.
Defined.

Lemma port_pairs_witness :
  (exists s, Services sample.two_members_compose !! "firefly_core_0" = Some s /\
     published_port <$> Ports s = [ Some (5000, 5000); Some (5101, 5101) ]) /\
  (exists s, Services sample.two_members_compose !! "postgres_0" = Some s /\
     published_port <$> Ports s = [ Some (5102, 5432) ]) /\
  (exists s, Services sample.two_members_compose !! "ipfs_1" = Some s /\
     published_port <$> Ports s = [ Some (5203, 5001); Some (5204, 8080) ]) /\
  (exists s, Services sample.two_members_compose !! "dataexchange_1" = Some s /\
     published_port <$> Ports s = [ Some (5205, 3000) ]).
Proof.
  destruct (port_pairs sample.two_members sample.two_members_compose
              two_members_generated) as (Hex & _ & Hports).
  destruct (Hex (model.createMember (sample.options model.PostgreSQL 0) 0))
    as (Hcore & Hpg & _ & _); [apply list_elem_of_here|].
  destruct (Hex (model.createMember (sample.options model.PostgreSQL 0) 1))
    as (_ & _ & Hipfs & Hdx); [apply list_elem_of_further, list_elem_of_here|].
  destruct (Hcore eq_refl) as [s1 Hs1]. destruct (Hpg eq_refl) as [s2 Hs2].
  destruct Hipfs as [s3 Hs3]. destruct Hdx as [s4 Hs4].
  split_and!.
  - exists s1. split; [exact Hs1|].
    destruct (proj1 (Hports _ s1 Hs1) "0" eq_refl) as (m & Hm & Hid & _ & ->).
    by destruct (two_members_members m Hm) as [->| ->].
  - exists s2. split; [exact Hs2|].
    destruct (proj1 (proj2 (Hports _ s2 Hs2)) "0" eq_refl) as (m & Hm & Hid & ->).
    by destruct (two_members_members m Hm) as [->| ->].
  - exists s3. split; [exact Hs3|].
    destruct (proj1 (proj2 (proj2 (Hports _ s3 Hs3))) "1" eq_refl) as (m & Hm & Hid & ->).
    by destruct (two_members_members m Hm) as [->| ->].
  - exists s4. split; [exact Hs4|].
    destruct (proj2 (proj2 (proj2 (Hports _ s4 Hs4))) "1" eq_refl) as (m & Hm & Hid & ->).
    by destruct (two_members_members m Hm) as [->| ->].
Defined.

(** * Further properties of the generator *)

#[local] Set Warnings "-clear-no-such-hyp".

(** ** The loop, one member at a time *)

(** A property that holds of the empty descriptor and that every step of
    the loop carries from the members already handled to one more holds of
    the result. *)
Lemma range_loop_prefix_ind (stack : Stack)
    (P : list Member -> DockerComposeConfig -> Prop) :
  (forall handled c m c1, P handled c -> member_body stack c m = Ok c1 ->
     P (handled ++ [m])%list c1) ->
  forall ms handled c c', P handled c ->
    range_loop (member_body stack) ms c = Ok c' -> P (handled ++ ms)%list c'.
Proof.
  intros Hstep ms. induction ms as [|m ms IH]; intros handled c c' HP; simpl.
  - intros [= <-]. by rewrite app_nil_r.
  - destruct (member_body stack c m) as [c1|] eqn:Hbody; [|done]. simpl.
    intros Hloop. rewrite (cons_middle m handled ms), app_assoc.
    apply (IH _ c1); [|done]. by apply (Hstep handled c).
Qed.

Lemma CreateDockerCompose_prefix_ind (stack : Stack)
    (P : list Member -> DockerComposeConfig -> Prop) :
  P [] emptyCompose ->
  (forall handled c m c1, P handled c -> member_body stack c m = Ok c1 ->
     P (handled ++ [m])%list c1) ->
  forall c, CreateDockerCompose stack = Ok c -> P (Members stack) c.
Proof.
  intros Hempty Hstep c Hc.
  by apply (range_loop_prefix_ind stack P Hstep (Members stack) [] emptyCompose c).
Qed.

(** The three ways the body of the loop returns. *)
Lemma member_body_cases (stack : Stack) (c c1 : DockerComposeConfig) (m : Member) :
  member_body stack c m = Ok c1 ->
  (String.eqb (Database stack) "postgres" = false /\
     c1 = emit_ipfs_dataexchange stack m (emit_core m c)) \/
  (String.eqb (Database stack) "postgres" = true /\ External m = false /\
     c1 = emit_ipfs_dataexchange stack m
            (set_service ("firefly_core_" +:+ ID m)
               (with_DependsOn (Some (core_depends_db (ID m))) (coreService m))
               (add_volume ("postgres_" +:+ ID m)
                  (set_service ("postgres_" +:+ ID m) (postgresService m)
                     (emit_core m c))))) \/
  (String.eqb (Database stack) "postgres" = true /\ External m = true /\
     exists s d, Services c !! ("firefly_core_" +:+ ID m) = Some s /\
       DependsOn s = Some d /\
       c1 = emit_ipfs_dataexchange stack m
              (set_service ("firefly_core_" +:+ ID m)
                 (with_DependsOn
                    (Some (<[ "postgres_" +:+ ID m :=
                                {[ "condition" := "service_healthy" ]} ]> d)) s)
                 (add_volume ("postgres_" +:+ ID m)
                    (set_service ("postgres_" +:+ ID m) (postgresService m) c)))).
Proof.
  intros Hbody.
  destruct (String.eqb (Database stack) "postgres") eqn:Hdb.
  - apply String_eqb_true in Hdb. right.
    destruct (External m) eqn:Hext.
    + right. split_and!; [done..|].
      revert Hbody. unfold member_body, emit_postgres, emit_core, set_depends_on.
      rewrite Hdb, Hext. simpl. rewrite lookup_insert_ne by done.
      destruct (Services c !! ("firefly_core_" +:+ ID m)) as [s|]; [|done].
      destruct (DependsOn s) as [d|] eqn:Hd; [|done]. simpl.
      intros [= <-]. by exists s, d.
    + left. split_and!; [done..|].
      rewrite member_body_postgres in Hbody by done. by injection Hbody as <-.
  - left. split; [done|].
    rewrite member_body_other in Hbody; [by injection Hbody as <-|].
    intros Heq. by rewrite Heq in Hdb.
Qed.

(** ** Which services and volumes a descriptor holds *)

Lemma member_body_dom (stack : Stack) (c c1 : DockerComposeConfig) (m : Member) :
  member_body stack c m = Ok c1 ->
  dom (Services c1) = dom (Services c) ∪ list_to_set (member_keys stack m).
Proof.
  intros [(Hdb & ->)|[(Hdb & Hext & ->)|(Hdb & Hext & s & d & Hs & Hd & ->)]]%member_body_cases;
    unfold member_keys, emit_core; rewrite Hdb, ?Hext; simpl.
  - destruct (External m); simpl; rewrite !dom_insert_L; clear;
      apply set_eq; intros k; set_unfold; tauto.
  - rewrite !dom_insert_L. clear. apply set_eq; intros k; set_unfold; tauto.
  - rewrite !dom_insert_L.
    assert ("firefly_core_" +:+ ID m ∈ dom (Services c)) as Hin
      by (apply elem_of_dom; by eexists).
    clear -Hin. apply set_eq; intros k; set_unfold; intuition (subst; auto).
Qed.

Lemma member_body_volumes (stack : Stack) (c c1 : DockerComposeConfig) (m : Member) :
  member_body stack c m = Ok c1 ->
  Volumes_ c1 = Volumes_ c ∪ list_to_set (member_volumes stack m).
Proof.
  intros [(Hdb & ->)|[(Hdb & Hext & ->)|(Hdb & Hext & s & d & Hs & Hd & ->)]]%member_body_cases;
    unfold member_volumes, emit_core; rewrite Hdb, ?Hext; simpl.
  - destruct (External m); simpl; clear; apply set_eq; intros v; set_unfold; tauto.
  - clear. apply set_eq; intros v; set_unfold; tauto.
  - clear. apply set_eq; intros v; set_unfold; tauto.
Qed.

Lemma CreateDockerCompose_dom (stack : Stack) (c : DockerComposeConfig) :
  CreateDockerCompose stack = Ok c ->
  dom (Services c) = list_to_set (Members stack ≫= member_keys stack).
Proof.
  apply (CreateDockerCompose_prefix_ind stack
           (fun handled c => dom (Services c) = list_to_set (handled ≫= member_keys stack))).
  - simpl. by rewrite dom_empty_L.
  - intros handled c0 m c1 IH Hbody.
    rewrite (member_body_dom stack c0 c1 m Hbody), IH.
    rewrite bind_app, list_to_set_app_L, bind_singleton. done.
Qed.

Lemma CreateDockerCompose_volumes (stack : Stack) (c : DockerComposeConfig) :
  CreateDockerCompose stack = Ok c ->
  Volumes_ c = list_to_set (Members stack ≫= member_volumes stack).
Proof.
  apply (CreateDockerCompose_prefix_ind stack
           (fun handled c => Volumes_ c = list_to_set (handled ≫= member_volumes stack))).
  - done.
  - intros handled c0 m c1 IH Hbody.
    rewrite (member_body_volumes stack c0 c1 m Hbody), IH.
    rewrite bind_app, list_to_set_app_L, bind_singleton. done.
Qed.

Lemma elem_of_member_keys (stack : Stack) (m : Member) (k : string) :
  k ∈ member_keys stack m <->
  (External m = false /\ k = "firefly_core_" +:+ ID m) \/
  (Database stack = "postgres" /\ k = "postgres_" +:+ ID m) \/
  k = "ipfs_" +:+ ID m \/ k = "dataexchange_" +:+ ID m.
Proof.
  unfold member_keys. rewrite !elem_of_app, !elem_of_cons, elem_of_nil.
  destruct (External m); destruct (String.eqb_spec (Database stack) "postgres");
    rewrite ?elem_of_cons, ?elem_of_nil; naive_solver.
Qed.

Lemma elem_of_member_volumes (stack : Stack) (m : Member) (v : string) :
  v ∈ member_volumes stack m <->
  (External m = false /\ v = "firefly_core_" +:+ ID m) \/
  (Database stack = "postgres" /\ v = "postgres_" +:+ ID m) \/
  v = "ipfs_staging_" +:+ ID m \/ v = "ipfs_data_" +:+ ID m \/
  v = "dataexchange_" +:+ ID m.
Proof.
  unfold member_volumes. rewrite !elem_of_app, !elem_of_cons, elem_of_nil.
  destruct (External m); destruct (String.eqb_spec (Database stack) "postgres");
    rewrite ?elem_of_cons, ?elem_of_nil; naive_solver.
Qed.

(** The same, key by key. *)
Lemma CreateDockerCompose_key (stack : Stack) (c : DockerComposeConfig) (k : string) :
  CreateDockerCompose stack = Ok c ->
  is_Some (Services c !! k) <-> exists m, m ∈ Members stack /\ k ∈ member_keys stack m.
Proof.
  intros Hc. rewrite <- elem_of_dom, (CreateDockerCompose_dom stack c Hc).
  rewrite elem_of_list_to_set, list_elem_of_bind. naive_solver.
Qed.

(** X2. The services of a generated descriptor are exactly: a core service
    for each member that is not external, a database service for each member
    when the database is [postgres], and a content-store and a data-exchange
    service for each member. *)
Theorem generated_service_keys (stack : Stack) (c : DockerComposeConfig) :
  CreateDockerCompose stack = Ok c ->
  forall k, is_Some (Services c !! k) <->
    (exists m, m ∈ Members stack /\ External m = false /\ k = "firefly_core_" +:+ ID m) \/
    (Database stack = "postgres" /\ exists m, m ∈ Members stack /\ k = "postgres_" +:+ ID m) \/
    (exists m, m ∈ Members stack /\ k = "ipfs_" +:+ ID m) \/
    (exists m, m ∈ Members stack /\ k = "dataexchange_" +:+ ID m).
Proof.
  intros Hc k. rewrite (CreateDockerCompose_key stack c k Hc).
  setoid_rewrite elem_of_member_keys. naive_solver.
Qed.

(** X3. The volume set of a generated descriptor is exactly: a core volume
    for each member that is not external, a database volume for each member
    when the database is [postgres], and two content-store volumes and a
    data-exchange volume for each member. *)
Theorem generated_volume_names (stack : Stack) (c : DockerComposeConfig) :
  CreateDockerCompose stack = Ok c ->
  forall v, v ∈ Volumes_ c <->
    (exists m, m ∈ Members stack /\ External m = false /\ v = "firefly_core_" +:+ ID m) \/
    (Database stack = "postgres" /\ exists m, m ∈ Members stack /\ v = "postgres_" +:+ ID m) \/
    (exists m, m ∈ Members stack /\ v = "ipfs_staging_" +:+ ID m) \/
    (exists m, m ∈ Members stack /\ v = "ipfs_data_" +:+ ID m) \/
    (exists m, m ∈ Members stack /\ v = "dataexchange_" +:+ ID m).
Proof.
  intros Hc v. rewrite (CreateDockerCompose_volumes stack c Hc).
  rewrite elem_of_list_to_set, list_elem_of_bind.
  setoid_rewrite elem_of_member_volumes. naive_solver.
Qed.

(** ** What the services of a descriptor carry *)

(** With the managed database, every core service in the map has been
    amended at the end of each step of the loop. *)
Lemma member_body_amended (stack : Stack) (c c1 : DockerComposeConfig) (m : Member) :
  String.eqb (Database stack) "postgres" = true ->
  (forall id s, Services c !! ("firefly_core_" +:+ id) = Some s ->
     DependsOn s = Some (core_depends_db id)) ->
  member_body stack c m = Ok c1 ->
  forall id s, Services c1 !! ("firefly_core_" +:+ id) = Some s ->
    DependsOn s = Some (core_depends_db id).
Proof.
  intros Hpg IH
    [(Hdb & ->)|[(Hdb & Hext & ->)|(Hdb & Hext & s0 & d & Hs & Hd & ->)]]%member_body_cases
    id s; [congruence|..]; simpl; rewrite !lookup_insert_ne by done.
  - unfold emit_core. rewrite Hext. simpl.
    intros [[Hk <-]|[Hne Hk]]%lookup_insert_Some; [by simplify_eq/=|].
    rewrite lookup_insert_ne in Hk by done.
    apply lookup_insert_Some in Hk as [[Hk' _]|[_ Hk]]; [done|]. by apply IH.
  - intros [[Hk <-]|[Hne Hk]]%lookup_insert_Some.
    + simplify_eq/=. rewrite (IH _ _ Hs) in Hd. injection Hd as <-.
      unfold core_depends_db. by rewrite insert_insert_eq.
    + rewrite lookup_insert_ne in Hk by done. by apply IH.
Qed.

Lemma CreateDockerCompose_amended (stack : Stack) (c : DockerComposeConfig) :
  CreateDockerCompose stack = Ok c ->
  String.eqb (Database stack) "postgres" = true ->
  forall id s, Services c !! ("firefly_core_" +:+ id) = Some s ->
    DependsOn s = Some (core_depends_db id).
Proof.
  intros Hc Hpg. revert c Hc.
  apply (CreateDockerCompose_prefix_ind stack
           (fun _ c => forall id s, Services c !! ("firefly_core_" +:+ id) = Some s ->
                         DependsOn s = Some (core_depends_db id))).
  - intros id s. simpl. by rewrite lookup_empty.
  - intros _ c m c1. by apply member_body_amended.
Qed.

(** The [depends_on] of each service of a generated descriptor. *)
Lemma CreateDockerCompose_depends_on (stack : Stack) (c : DockerComposeConfig)
    (k : string) (s : Service) :
  CreateDockerCompose stack = Ok c -> Services c !! k = Some s ->
  (forall id, k = "firefly_core_" +:+ id -> DependsOn s = Some (core_depends_of stack id)) /\
  ((forall id, k <> "firefly_core_" +:+ id) -> DependsOn s = None).
Proof.
  intros Hc Hk. pose proof (CreateDockerCompose_generated stack c Hc) as [Hs _ _].
  pose proof (Hs k s Hk) as He. unfold core_depends_of. split.
  - intros id ->. destruct (String.eqb (Database stack) "postgres") eqn:Hdb.
    + by apply (CreateDockerCompose_amended stack c).
    + inversion He as [m d _ _ Hd Hkey Hsvc| | |]; simplify_eq/=.
      destruct Hd as [->|[Heq _]]; [done|].
      apply String_eqb_true in Heq. congruence.
  - intros Hnot. destruct He as [m d _ _ _|m _ _|m _|m _]; try done.
    by destruct (Hnot (ID m)).
Qed.

(** X4. In a generated descriptor a core service depends on the
    data-exchange service of its member with condition [service_started]
    and, when the database is [postgres], on the database service of its
    member with condition [service_healthy], and on nothing else; no other
    service depends on anything. *)
Theorem generated_depends_on (stack : Stack) (c : DockerComposeConfig)
    (k : string) (s : Service) :
  CreateDockerCompose stack = Ok c -> Services c !! k = Some s ->
  (forall id, k = "firefly_core_" +:+ id ->
     DependsOn s =
       Some (if String.eqb (Database stack) "postgres"
             then {[ "postgres_" +:+ id := {[ "condition" := "service_healthy" ]};
                     "dataexchange_" +:+ id := {[ "condition" := "service_started" ]} ]}
             else {[ "dataexchange_" +:+ id := {[ "condition" := "service_started" ]} ]})) /\
  ((forall id, k <> "firefly_core_" +:+ id) -> DependsOn s = None).
Proof. apply CreateDockerCompose_depends_on. Qed.

(** X5. In a generated descriptor every service a [depends_on] names is a
    service of the descriptor. *)
Theorem generated_depends_closed (stack : Stack) (c : DockerComposeConfig) (k k' : string) :
  CreateDockerCompose stack = Ok c -> depends c k k' -> is_Some (Services c !! k').
Proof.
  intros Hc (s & d & Hk & Hd & Hk').
  pose proof (CreateDockerCompose_generated stack c Hc) as [Hs _ _].
  apply (CreateDockerCompose_key stack c k' Hc).
  destruct (Hs k s Hk) as [m d0 Hm _ Hd0|m _ _|m _|m _]; simplify_eq/=.
  exists m. split; [done|]. apply elem_of_member_keys.
  destruct Hd0 as [->|[Hdb ->]]; unfold core_depends_db, core_depends in Hk'.
  - apply lookup_singleton_is_Some in Hk' as <-. auto.
  - apply lookup_insert_is_Some in Hk' as [<-|[_ Hk']]; [auto|].
    apply lookup_singleton_is_Some in Hk' as <-. auto.
Qed.

(** X6. Every service of a generated descriptor logs with the standard
    options: the [json-file] driver, files of at most 10m, one file. *)
Theorem generated_logging (stack : Stack) (c : DockerComposeConfig) (k : string) (s : Service) :
  CreateDockerCompose stack = Ok c -> Services c !! k = Some s ->
  Logging s =
    Some {| Driver := "json-file";
            Options := {[ "max-size" := "10m"; "max-file" := "1" ]} |}.
Proof.
  intros [Hs _ _]%CreateDockerCompose_generated Hk.
  by destruct (Hs k s Hk).
Qed.

(** X7. In a generated descriptor the database services, and only they,
    have a health check: [pg_isready] every 5s, with a timeout of 3s and 12
    retries. *)
Theorem generated_health_check (stack : Stack) (c : DockerComposeConfig)
    (k : string) (s : Service) :
  CreateDockerCompose stack = Ok c -> Services c !! k = Some s ->
  ((exists id, k = "postgres_" +:+ id) -> HealthCheck_ s = Some postgresHealthCheck) /\
  ((forall id, k <> "postgres_" +:+ id) -> HealthCheck_ s = None).
Proof.
  intros [Hs _ _]%CreateDockerCompose_generated Hk.
  destruct (Hs k s Hk) as [m d _ _ _|m _ _|m _|m _]; split; try done;
    try (by intros [id ?]; simplify_eq/=).
  intros Hnot. by destruct (Hnot (ID m)).
Qed.

(** ** Members with ids of their own *)

Lemma NoDup_ID_inj (ms : list Member) (m m' : Member) :
  NoDup (ID <$> ms) -> m ∈ ms -> m' ∈ ms -> ID m = ID m' -> m = m'.
Proof.
  induction ms as [|m0 ms IH]; [by intros _ ?%elem_of_nil|].
  rewrite fmap_cons. intros [Hnotin Hnodup]%NoDup_cons.
  intros [->|Hm]%elem_of_cons [->|Hm']%elem_of_cons Hid; [done| | |by apply IH].
  - destruct Hnotin. rewrite Hid. apply list_elem_of_fmap. by exists m'.
  - destruct Hnotin. rewrite <- Hid. apply list_elem_of_fmap. by exists m.
Qed.

(** The services stored for a member whose id no other member has. *)
Lemma CreateDockerCompose_member (stack : Stack) (c : DockerComposeConfig) (m : Member) :
  NoDup (ID <$> Members stack) -> CreateDockerCompose stack = Ok c -> m ∈ Members stack ->
  Services c !! ("dataexchange_" +:+ ID m) = Some (dataexchangeService m) /\
  Services c !! ("ipfs_" +:+ ID m) = Some (ipfsService stack m) /\
  (Database stack = "postgres" ->
     Services c !! ("postgres_" +:+ ID m) = Some (postgresService m)) /\
  (External m = false ->
     Services c !! ("firefly_core_" +:+ ID m) =
       Some (with_DependsOn (Some (core_depends_of stack (ID m))) (coreService m))).
Proof.
  intros Hids Hc Hm.
  pose proof (CreateDockerCompose_generated stack c Hc) as [Hs _ _].
  assert (forall k, k ∈ member_keys stack m -> exists s, Services c !! k = Some s /\
            emitted stack k s) as Hkey.
  { intros k Hk. destruct (proj2 (CreateDockerCompose_key stack c k Hc)) as [s Hks];
      [by exists m|]. exists s. split; [done|]. by apply Hs. }
  split_and!.
  - destruct (Hkey ("dataexchange_" +:+ ID m)) as (s & Hk & He);
      [apply elem_of_member_keys; auto|].
    inversion He as [| | |m' Hm' Hid]; simplify_eq/=.
    assert (m' = m) as -> by (by apply (NoDup_ID_inj (Members stack))). congruence.
  - destruct (Hkey ("ipfs_" +:+ ID m)) as (s & Hk & He);
      [apply elem_of_member_keys; auto|].
    inversion He as [| |m' Hm' Hid|]; simplify_eq/=.
    assert (m' = m) as -> by (by apply (NoDup_ID_inj (Members stack))). congruence.
  - intros Hdb. destruct (Hkey ("postgres_" +:+ ID m)) as (s & Hk & He);
      [apply elem_of_member_keys; auto|].
    inversion He as [|m' Hm' _ Hid| |]; simplify_eq/=.
    assert (m' = m) as -> by (by apply (NoDup_ID_inj (Members stack))). congruence.
  - intros Hext. destruct (Hkey ("firefly_core_" +:+ ID m)) as (s & Hk & He);
      [apply elem_of_member_keys; auto|].
    destruct (CreateDockerCompose_depends_on stack c _ s Hc Hk) as [Hd _].
    specialize (Hd (ID m) eq_refl).
    inversion He as [m' d Hm' _ _ Hid Hsvc| | |]; simplify_eq/=.
    assert (m' = m) as -> by (by apply (NoDup_ID_inj (Members stack))). congruence.
Qed.

(** X8. When no two members share an id, the generated descriptor holds,
    for each member, the data-exchange and content-store services built from
    that member, its database service when the database is [postgres], and,
    unless the member is external, its core service with the [depends_on] of
    that database kind. *)
Theorem generated_member_services (stack : Stack) (c : DockerComposeConfig) (m : Member) :
  NoDup (ID <$> Members stack) -> CreateDockerCompose stack = Ok c -> m ∈ Members stack ->
  Services c !! ("dataexchange_" +:+ ID m) = Some (dataexchangeService m) /\
  Services c !! ("ipfs_" +:+ ID m) = Some (ipfsService stack m) /\
  (Database stack = "postgres" ->
     Services c !! ("postgres_" +:+ ID m) = Some (postgresService m)) /\
  (External m = false ->
     Services c !! ("firefly_core_" +:+ ID m) =
       Some (with_DependsOn (Some (core_depends_of stack (ID m))) (coreService m))).
Proof. apply CreateDockerCompose_member. Qed.

(** ** Members that share an id *)

(** A step of the loop for a member leaves alone the services stored under
    another id. *)
Lemma member_body_other_id (stack : Stack) (c c1 : DockerComposeConfig) (m : Member)
    (id : string) :
  member_body stack c m = Ok c1 -> ID m <> id ->
  Services c1 !! ("firefly_core_" +:+ id) = Services c !! ("firefly_core_" +:+ id) /\
  Services c1 !! ("postgres_" +:+ id) = Services c !! ("postgres_" +:+ id) /\
  Services c1 !! ("ipfs_" +:+ id) = Services c !! ("ipfs_" +:+ id) /\
  Services c1 !! ("dataexchange_" +:+ id) = Services c !! ("dataexchange_" +:+ id).
Proof.
  intros [(Hdb & ->)|[(Hdb & Hext & ->)|(Hdb & Hext & s & d & Hs & Hd & ->)]]%member_body_cases
    Hid; unfold emit_core; try rewrite Hext; try destruct (External m); simpl;
    split_and!; by rewrite !lookup_insert_ne by (intros ?; simplify_eq/=).
Qed.

(** What a step of the loop stores under the id of its member. *)
Lemma member_body_own_id (stack : Stack) (c c1 : DockerComposeConfig) (m : Member) :
  member_body stack c m = Ok c1 ->
  Services c1 !! ("dataexchange_" +:+ ID m) = Some (dataexchangeService m) /\
  Services c1 !! ("ipfs_" +:+ ID m) = Some (ipfsService stack m) /\
  (Database stack = "postgres" ->
     Services c1 !! ("postgres_" +:+ ID m) = Some (postgresService m)) /\
  (External m = false ->
     Services c1 !! ("firefly_core_" +:+ ID m) =
       Some (with_DependsOn (Some (core_depends_of stack (ID m))) (coreService m))).
Proof.
  unfold core_depends_of.
  intros [(Hdb & ->)|[(Hdb & Hext & ->)|(Hdb & Hext & s & d & Hs & Hd & ->)]]%member_body_cases;
    rewrite Hdb; simpl; split_and!.
  - by rewrite lookup_insert_eq.
  - by rewrite lookup_insert_ne, lookup_insert_eq by done.
  - intros Heq. apply String_eqb_true in Heq. congruence.
  - intros Hext. unfold emit_core. rewrite Hext. simpl.
    by rewrite !lookup_insert_ne, lookup_insert_eq by done.
  - by rewrite lookup_insert_eq.
  - by rewrite lookup_insert_ne, lookup_insert_eq by done.
  - intros _. by rewrite !lookup_insert_ne, lookup_insert_eq by done.
  - intros _. by rewrite !lookup_insert_ne, lookup_insert_eq by done.
  - by rewrite lookup_insert_eq.
  - by rewrite lookup_insert_ne, lookup_insert_eq by done.
  - intros _. by rewrite !lookup_insert_ne, lookup_insert_eq by done.
  - congruence.
Qed.

(** A step of the loop for an external member leaves alone the core
    service stored under its id, when that service already depends on the
    database of the id. *)
Lemma member_body_external_core (stack : Stack) (c c1 : DockerComposeConfig)
    (m : Member) (s : Service) :
  member_body stack c m = Ok c1 -> External m = true ->
  Services c !! ("firefly_core_" +:+ ID m) =
    Some (with_DependsOn (Some (core_depends_of stack (ID m))) s) ->
  Services c1 !! ("firefly_core_" +:+ ID m) =
    Some (with_DependsOn (Some (core_depends_of stack (ID m))) s).
Proof.
  unfold core_depends_of.
  intros [(Hdb & ->)|[(Hdb & Hext & ->)|(Hdb & Hext & s0 & d & Hs & Hd & ->)]]%member_body_cases
    Hm Hcore; rewrite Hdb in *.
  - unfold emit_core. rewrite Hm. simpl.
    by rewrite !lookup_insert_ne by done.
  - congruence.
  - simpl. rewrite !lookup_insert_ne, lookup_insert_eq by done.
    rewrite Hcore in Hs. injection Hs as <-. simpl in Hd. injection Hd as <-.
    unfold with_DependsOn, core_depends_db. simpl. by rewrite insert_insert_eq.
Qed.

(** X9. When several members share an id, the data-exchange and
    content-store services stored under it, and the database service when
    the database is [postgres], are those of the last member with the id;
    the core service stored under it is that of the last member with the id
    that is not external, also when external members with the id come after
    it; and no core service is stored under an id all of whose members are
    external. *)
Theorem last_member_with_id_wins (stack : Stack) (c : DockerComposeConfig)
    (pre post : list Member) (m : Member) :
  Members stack = (pre ++ m :: post)%list ->
  CreateDockerCompose stack = Ok c ->
  ((forall m', m' ∈ post -> ID m' <> ID m) ->
     Services c !! ("dataexchange_" +:+ ID m) = Some (dataexchangeService m) /\
     Services c !! ("ipfs_" +:+ ID m) = Some (ipfsService stack m) /\
     (Database stack = "postgres" ->
        Services c !! ("postgres_" +:+ ID m) = Some (postgresService m))) /\
  (External m = false ->
   (forall m', m' ∈ post -> ID m' = ID m -> External m' = true) ->
     Services c !! ("firefly_core_" +:+ ID m) =
       Some (with_DependsOn (Some (core_depends_of stack (ID m))) (coreService m))) /\
  ((forall m', m' ∈ Members stack -> ID m' = ID m -> External m' = true) ->
     Services c !! ("firefly_core_" +:+ ID m) = None).
Proof.
  intros Hsplit Hc. split_and!.
  - revert pre post m Hsplit. revert c Hc.
    apply (CreateDockerCompose_prefix_ind stack
             (fun handled c => forall pre post m,
                handled = (pre ++ m :: post)%list ->
                (forall m', m' ∈ post -> ID m' <> ID m) ->
                Services c !! ("dataexchange_" +:+ ID m) = Some (dataexchangeService m) /\
                Services c !! ("ipfs_" +:+ ID m) = Some (ipfsService stack m) /\
                (Database stack = "postgres" ->
                   Services c !! ("postgres_" +:+ ID m) = Some (postgresService m)))).
    + intros pre post m Heq. by destruct pre.
    + intros handled c0 m0 c1 IH Hbody pre post m Heq Hpost.
      destruct post as [|x post _] using rev_ind.
      * apply (app_inj_tail handled pre m0 m) in Heq as [-> ->].
        destruct (member_body_own_id stack c0 c1 m Hbody) as (? & ? & ? & _). done.
      * rewrite app_comm_cons, app_assoc in Heq.
        apply app_inj_tail in Heq as [-> ->].
        destruct (IH pre post m eq_refl) as (Hdx & Hipfs & Hpg).
        { intros m' Hm'. apply Hpost. apply elem_of_app. by left. }
        destruct (member_body_other_id stack c0 c1 x (ID m) Hbody)
          as (_ & Hpg' & Hipfs' & Hdx').
        { apply Hpost. apply elem_of_app. right. by left. }
        rewrite Hpg', Hipfs', Hdx'. done.
  - revert pre post m Hsplit. revert c Hc.
    apply (CreateDockerCompose_prefix_ind stack
             (fun handled c => forall pre post m,
                handled = (pre ++ m :: post)%list ->
                External m = false ->
                (forall m', m' ∈ post -> ID m' = ID m -> External m' = true) ->
                Services c !! ("firefly_core_" +:+ ID m) =
                  Some (with_DependsOn (Some (core_depends_of stack (ID m)))
                          (coreService m)))).
    + intros pre post m Heq. by destruct pre.
    + intros handled c0 m0 c1 IH Hbody pre post m Heq Hext Hpost.
      destruct post as [|x post _] using rev_ind.
      * apply (app_inj_tail handled pre m0 m) in Heq as [-> ->].
        destruct (member_body_own_id stack c0 c1 m Hbody) as (_ & _ & _ & Hcore).
        by apply Hcore.
      * rewrite app_comm_cons, app_assoc in Heq.
        apply app_inj_tail in Heq as [-> ->].
        assert (Services c0 !! ("firefly_core_" +:+ ID m) =
                  Some (with_DependsOn (Some (core_depends_of stack (ID m)))
                          (coreService m))) as Hcore.
        { apply (IH pre post m eq_refl Hext).
          intros m' Hm'. apply Hpost. apply elem_of_app. by left. }
        destruct (decide (ID x = ID m)) as [Hid|Hid].
        -- rewrite <- Hid in *.
           apply (member_body_external_core stack c0 c1 x _ Hbody); [|done].
           apply Hpost; [|done]. apply elem_of_app. right. by left.
        -- destruct (member_body_other_id stack c0 c1 x (ID m) Hbody Hid) as (-> & _).
           done.
  - intros Hall. apply eq_None_not_Some.
    intros (m' & Hm' & Hk)%(CreateDockerCompose_key stack c _ Hc).
    apply elem_of_member_keys in Hk as [(Hext & Hk)|[(_ & Hk)|[Hk|Hk]]];
      simplify_eq/=.
    rewrite (Hall m' Hm') in Hext; [done|]. congruence.
Qed.

(** ** How many services *)

Lemma NoDup_member_keys (stack : Stack) (m : Member) : NoDup (member_keys stack m).
Proof.
  unfold member_keys.
  destruct (External m); destruct (String.eqb (Database stack) "postgres"); simpl;
    rewrite ?NoDup_cons, ?not_elem_of_cons, ?elem_of_nil;
    split_and!; try (by apply NoDup_nil); try tauto; by intros ?; simplify_eq/=.
Qed.

Lemma member_keys_ID (stack : Stack) (m m' : Member) (k : string) :
  k ∈ member_keys stack m -> k ∈ member_keys stack m' -> ID m = ID m'.
Proof.
  rewrite !elem_of_member_keys.
  intros [[_ ->]|[[_ ->]|[->| ->]]] [[_ ?]|[[_ ?]|[?|?]]]; by simplify_eq/=.
Qed.

(** With ids of their own, the keys of the members are all different. *)
Lemma NoDup_keys (stack : Stack) (ms : list Member) :
  NoDup (ID <$> ms) -> NoDup (ms ≫= member_keys stack).
Proof.
  intros Hids. apply NoDup_bind.
  - intros m m' k Hm Hm' Hk Hk'. apply (NoDup_ID_inj ms); [done..|].
    by apply (member_keys_ID stack m m' k).
  - intros m _. apply NoDup_member_keys.
  - by apply (NoDup_fmap_1 ID).
Qed.

(** With ids of their own, the keys of the descriptor are the keys of the
    members, each once. *)
Lemma service_names_members (stack : Stack) (c : DockerComposeConfig) :
  NoDup (ID <$> Members stack) -> CreateDockerCompose stack = Ok c ->
  service_names c ≡ₚ Members stack ≫= member_keys stack.
Proof.
  intros Hids Hc. apply NoDup_Permutation.
  - apply NoDup_fst_map_to_list.
  - by apply NoDup_keys.
  - intros k. unfold service_names.
    rewrite list_elem_of_bind, list_elem_of_fmap. split.
    + intros ([k' s] & -> & Hin%elem_of_map_to_list).
      destruct (proj1 (CreateDockerCompose_key stack c k' Hc)) as (m & ? & ?);
        [by eexists|]. by exists m.
    + intros (m & Hk & Hm).
      destruct (proj2 (CreateDockerCompose_key stack c k Hc)) as [s Hs]; [by exists m|].
      exists (k, s). split; [done|]. by apply elem_of_map_to_list.
Qed.

Lemma count_keys (stack : Stack) (ms : list Member) :
  length (filter (fun k => has_prefix "firefly_core_" k = true) (ms ≫= member_keys stack)) =
    length (filter (fun m => External m = false) ms) /\
  length (filter (fun k => has_prefix "postgres_" k = true) (ms ≫= member_keys stack)) =
    (if String.eqb (Database stack) "postgres" then length ms else 0%nat) /\
  length (filter (fun k => has_prefix "ipfs_" k = true) (ms ≫= member_keys stack)) =
    length ms /\
  length (filter (fun k => has_prefix "dataexchange_" k = true) (ms ≫= member_keys stack)) =
    length ms /\
  length (ms ≫= member_keys stack) =
    (length (filter (fun m => External m = false) ms) +
     (if String.eqb (Database stack) "postgres" then length ms else 0) +
     length ms + length ms)%nat.
Proof.
  induction ms as [|m ms (IH1 & IH2 & IH3 & IH4 & IH5)].
  - simpl. by destruct (String.eqb (Database stack) "postgres").
  - rewrite bind_cons, !filter_app, !length_app, IH1, IH2, IH3, IH4, IH5.
    rewrite filter_cons. unfold member_keys.
    destruct (External m); destruct (String.eqb (Database stack) "postgres");
      simpl; split_and!; try done; lia.
Qed.

(** X10. When no two members share an id, a generated descriptor has one
    core service for each member that is not external, one database service
    for each member when the database is [postgres] and none otherwise, one
    content-store and one data-exchange service for each member, and no
    other service. *)
Theorem generated_service_counts (stack : Stack) (c : DockerComposeConfig) :
  NoDup (ID <$> Members stack) -> CreateDockerCompose stack = Ok c ->
  count_services "firefly_core_" c =
    length (filter (fun m => External m = false) (Members stack)) /\
  count_services "postgres_" c =
    (if String.eqb (Database stack) "postgres" then length (Members stack) else 0%nat) /\
  count_services "ipfs_" c = length (Members stack) /\
  count_services "dataexchange_" c = length (Members stack) /\
  size (Services c) =
    (count_services "firefly_core_" c + count_services "postgres_" c +
     count_services "ipfs_" c + count_services "dataexchange_" c)%nat.
Proof.
  intros Hids Hc.
  pose proof (service_names_members stack c Hids Hc) as Hperm.
  destruct (count_keys stack (Members stack)) as (H1 & H2 & H3 & H4 & H5).
  unfold count_services. rewrite !Hperm, H1, H2, H3, H4.
  split_and!; [done..|].
  rewrite <- length_map_to_list, <- (length_fmap fst).
  change ((map_to_list (Services c)).*1) with (service_names c).
  by rewrite Hperm, H5.
Qed.

(** ** Ports of external members *)

(** The core port and the admin port are published by core services only,
    and these are built from members that are not external. *)
Lemma emitted_core_port_owner (stack : Stack) (k : string) (s : Service) (y : Z) :
  emitted stack k s -> y ∈ service_host_ports s ->
  exists m i, m ∈ Members stack /\ member_ports m !! i = Some y /\
    ((i = 0 \/ i = 1)%nat -> External m = false).
Proof.
  intros [m d Hm Hext _|m Hm _|m Hm|m Hm]; unfold service_host_ports; simpl.
  - rewrite !host_port_Sprintf. simpl.
    rewrite !elem_of_cons, elem_of_nil. intros [->|[->|[]]]; exists m;
      [by exists 0%nat | by exists 1%nat].
  - rewrite (host_port_fixed _ 5432) by done. simpl.
    rewrite !elem_of_cons, elem_of_nil. intros [->|[]]. exists m, 2%nat.
    split_and!; [done..|]. by intros [|].
  - rewrite (host_port_fixed _ 5001), (host_port_fixed _ 8080) by done. simpl.
    rewrite !elem_of_cons, elem_of_nil. intros [->|[->|[]]]; exists m;
      [exists 3%nat | exists 4%nat]; (split_and!; [done..|]; by intros [|]).
  - rewrite (host_port_fixed _ 3000) by done. simpl.
    rewrite !elem_of_cons, elem_of_nil. intros [->|[]]. exists m, 5%nat.
    split_and!; [done..|]. by intros [|].
Qed.

(** X11. When the exposed port fields of the members are pairwise distinct,
    a generated descriptor publishes neither the core port nor the admin
    port of an external member. *)
Theorem external_core_ports_unpublished (stack : Stack) (c : DockerComposeConfig)
    (m : Member) :
  NoDup (Members stack ≫= member_ports) ->
  CreateDockerCompose stack = Ok c ->
  m ∈ Members stack -> External m = true ->
  (ExposedFireflyPort m ∉ published_host_ports c) /\
  ExposedFireflyAdminPort m ∉ published_host_ports c.
Proof.
  intros Hports [Hs _ _]%CreateDockerCompose_generated Hm Hext.
  assert (forall i y, (i = 0 \/ i = 1)%nat -> member_ports m !! i = Some y ->
            y ∉ published_host_ports c) as Hnot.
  { intros i y Hi Hy ([k s] & Hin & Hk%elem_of_map_to_list)%list_elem_of_bind.
    destruct (emitted_core_port_owner stack k s y) as (m' & i' & Hm' & Hy' & Hext');
      [by apply Hs|done|].
    destruct (NoDup_bind_owner member_ports (Members stack) m m' i i' y) as [-> ->];
      [done..|]. rewrite Hext' in Hext; done. }
  split; [apply (Hnot 0%nat); [by left|done] | apply (Hnot 1%nat); [by right|done]].
Qed.

(** ** When the generator returns *)

(** A failure of the loop is the nil pointer dereference of the amendment. *)
Lemma range_loop_panic_message (stack : Stack) (ms : list Member)
    (c : DockerComposeConfig) (msg : string) :
  generated stack c -> (forall m, m ∈ ms -> m ∈ Members stack) ->
  range_loop (member_body stack) ms c = Panic msg ->
  msg = "invalid memory address or nil pointer dereference".
Proof.
  revert c. induction ms as [|m ms IH]; intros c Hg Hsub; simpl; [done|].
  destruct (member_body stack c m) as [c1|msg'] eqn:Hbody; simpl.
  - apply IH.
    + eapply member_body_generated; [|done|done]. apply Hsub. by left.
    + intros m' Hm'. apply Hsub. by right.
  - intros [= <-]. revert Hbody.
    unfold member_body, emit_postgres, set_depends_on.
    destruct (String.eqb (Database stack) "postgres") eqn:Hdb; [|done]. simpl.
    rewrite lookup_insert_ne by done.
    destruct (Services (emit_core m c) !! ("firefly_core_" +:+ ID m)) as [s|] eqn:Hs;
      [|by intros [= <-]].
    assert (generated stack (emit_core m c)) as [Hs' _ _].
    { apply emit_core_generated; [|done]. apply Hsub. by left. }
    pose proof (Hs' _ s Hs) as He.
    inversion He as [m' d _ _ _ Hk Hsvc| | |]; by simplify_eq/=.
Qed.

(** X13. When the generator fails, the database is [postgres], some member
    is external, and the failure is the nil pointer dereference of the
    database amendment: the [depends_on] map it writes to is never nil. *)
Theorem generator_failure_shape (stack : Stack) (msg : string) :
  CreateDockerCompose stack = Panic msg ->
  msg = "invalid memory address or nil pointer dereference" /\
  Database stack = "postgres" /\
  exists m, m ∈ Members stack /\ External m = true.
Proof.
  intros Hpanic. split_and!.
  - by apply (range_loop_panic_message stack (Members stack) emptyCompose msg
                (generated_empty stack)).
  - destruct (decide (Database stack = "postgres")) as [|Hdb]; [done|].
    destruct (CreateDockerCompose_total stack) as [c Hc]; [by left|]. congruence.
  - destruct (decide (Exists (fun m => External m = true) (Members stack)))
      as [(m & ? & ?)%Exists_exists|Hnone]; [by exists m|].
    destruct (CreateDockerCompose_total stack) as [c Hc]; [|congruence].
    right. intros m Hm. destruct (External m) eqn:Hext; [|done].
    destruct Hnone. apply Exists_exists. by exists m.
Qed.

(** X1. When no two members share an id, the generator returns a descriptor
    exactly when the database is not [postgres] or no member is external. *)
Theorem generator_returns_iff (stack : Stack) :
  NoDup (ID <$> Members stack) ->
  (exists c, CreateDockerCompose stack = Ok c) <->
  Database stack <> "postgres" \/ (forall m, m ∈ Members stack -> External m = false).
Proof.
  intros Hids. split; [|apply CreateDockerCompose_total].
  intros [c Hc].
  destruct (decide (Database stack = "postgres")) as [Hdb|]; [|by left].
  right. intros m Hm. destruct (External m) eqn:Hext; [|done].
  destruct (range_loop_panics stack (Members stack) emptyCompose m) as [msg Hmsg];
    [done..| |done|].
  - intros m' Hm' Hext' Hid.
    assert (m' = m) as -> by (by apply (NoDup_ID_inj (Members stack))). congruence.
  - unfold CreateDockerCompose in Hc. congruence.
Qed.

(** ** The order of the members *)

Lemma CreateDockerCompose_version (stack : Stack) (c : DockerComposeConfig) :
  CreateDockerCompose stack = Ok c -> Version c = "2.1".
Proof.
  apply (CreateDockerCompose_prefix_ind stack (fun _ c => Version c = "2.1")); [done|].
  intros _ c0 m c1 IH
    [(Hdb & ->)|[(Hdb & Hext & ->)|(Hdb & Hext & s & d & Hs & Hd & ->)]]%member_body_cases;
    simpl; try done; unfold emit_core; by destruct (External m).
Qed.

(** The service stored under a key of a member, when ids are the members'
    own: a function of the member, the database kind and the swarm key. *)
Lemma CreateDockerCompose_lookup (stack : Stack) (c : DockerComposeConfig)
    (m : Member) (k : string) :
  NoDup (ID <$> Members stack) -> CreateDockerCompose stack = Ok c ->
  m ∈ Members stack -> k ∈ member_keys stack m ->
  Services c !! k =
    if decide (k = "firefly_core_" +:+ ID m)
    then Some (with_DependsOn (Some (core_depends_of stack (ID m))) (coreService m))
    else if decide (k = "postgres_" +:+ ID m) then Some (postgresService m)
    else if decide (k = "ipfs_" +:+ ID m) then Some (ipfsService stack m)
    else Some (dataexchangeService m).
Proof.
  intros Hids Hc Hm Hk.
  destruct (CreateDockerCompose_member stack c m Hids Hc Hm) as (Hdx & Hipfs & Hpg & Hcore).
  apply elem_of_member_keys in Hk as [[Hext ->]|[[Hdb ->]|[->| ->]]];
    repeat case_decide; simplify_eq/=; auto.
Qed.

(** X12. When no two members share an id, the result of the generator does
    not depend on the order of the members. *)
Theorem member_order_irrelevant (stack1 stack2 : Stack) :
  NoDup (ID <$> Members stack1) ->
  Members stack1 ≡ₚ Members stack2 ->
  Database stack1 = Database stack2 ->
  SwarmKey stack1 = SwarmKey stack2 ->
  CreateDockerCompose stack1 = CreateDockerCompose stack2.
Proof.
  intros Hids1 Hperm Hdb Hkey.
  assert (NoDup (ID <$> Members stack2)) as Hids2 by (by rewrite <- Hperm).
  assert (forall m, member_keys stack1 m = member_keys stack2 m) as Hkeys.
  { intros m. unfold member_keys. by rewrite Hdb. }
  assert (forall m, member_volumes stack1 m = member_volumes stack2 m) as Hvols.
  { intros m. unfold member_volumes. by rewrite Hdb. }
  destruct (CreateDockerCompose stack1) as [c1|msg1] eqn:H1;
    destruct (CreateDockerCompose stack2) as [c2|msg2] eqn:H2.
  - f_equal.
    assert (Services c1 = Services c2) as Hservices.
    { apply map_eq. intros k.
      destruct (Services c1 !! k) as [s1|] eqn:Hk1.
      - destruct (proj1 (CreateDockerCompose_key stack1 c1 k H1)) as (m & Hm & Hk);
          [by eexists|].
        rewrite (CreateDockerCompose_lookup stack1 c1 m k) in Hk1 by done.
        rewrite (CreateDockerCompose_lookup stack2 c2 m k);
          [|done..|by rewrite <- Hperm|by rewrite <- Hkeys].
        rewrite <- Hk1. unfold core_depends_of, ipfsService. by rewrite Hdb, Hkey.
      - destruct (Services c2 !! k) as [s2|] eqn:Hk2; [|done].
        destruct (proj1 (CreateDockerCompose_key stack2 c2 k H2)) as (m & Hm & Hk);
          [by eexists|].
        destruct (proj2 (CreateDockerCompose_key stack1 c1 k H1)) as [s Hs];
          [|congruence].
        exists m. split; [by rewrite Hperm|by rewrite Hkeys]. }
    assert (Volumes_ c1 = Volumes_ c2) as Hvolumes.
    { rewrite (CreateDockerCompose_volumes stack1 c1 H1),
        (CreateDockerCompose_volumes stack2 c2 H2).
      apply set_eq. intros v. rewrite !elem_of_list_to_set, !list_elem_of_bind.
      split; intros (m & Hv & Hm); exists m.
      - split; [by rewrite <- Hvols|by rewrite <- Hperm].
      - split; [by rewrite Hvols|by rewrite Hperm]. }
    pose proof (CreateDockerCompose_version stack1 c1 H1) as Hv1.
    pose proof (CreateDockerCompose_version stack2 c2 H2) as Hv2.
    destruct c1, c2. simpl in *. congruence.
  - exfalso.
    assert (Database stack2 = "postgres" /\ exists m, m ∈ Members stack2 /\ External m = true)
      as (Hpg & m & Hm & Hext).
    { destruct (decide (Database stack2 = "postgres")) as [|Hne].
      - split; [done|].
        destruct (decide (Exists (fun m => External m = true) (Members stack2)))
          as [(m & ? & ?)%Exists_exists|Hnone]; [by exists m|].
        destruct (CreateDockerCompose_total stack2) as [c Hc]; [|congruence].
        right. intros m Hm. destruct (External m) eqn:Hext; [|done].
        destruct Hnone. apply Exists_exists. by exists m.
      - destruct (CreateDockerCompose_total stack2) as [c Hc]; [by left|congruence]. }
    destruct (range_loop_panics stack1 (Members stack1) emptyCompose m) as [msg Hmsg];
      [congruence|done|by rewrite Hperm| |done|].
    + intros m' Hm' Hext' Hid.
      assert (m' = m) as ->; [|congruence].
      apply (NoDup_ID_inj (Members stack1)); [done..|by rewrite Hperm|done].
    + unfold CreateDockerCompose in H1. congruence.
  - exfalso.
    assert (Database stack1 = "postgres" /\ exists m, m ∈ Members stack1 /\ External m = true)
      as (Hpg & m & Hm & Hext).
    { destruct (decide (Database stack1 = "postgres")) as [|Hne].
      - split; [done|].
        destruct (decide (Exists (fun m => External m = true) (Members stack1)))
          as [(m & ? & ?)%Exists_exists|Hnone]; [by exists m|].
        destruct (CreateDockerCompose_total stack1) as [c Hc]; [|congruence].
        right. intros m Hm. destruct (External m) eqn:Hext; [|done].
        destruct Hnone. apply Exists_exists. by exists m.
      - destruct (CreateDockerCompose_total stack1) as [c Hc]; [by left|congruence]. }
    destruct (range_loop_panics stack2 (Members stack2) emptyCompose m) as [msg Hmsg];
      [congruence|done|by rewrite <- Hperm| |done|].
    + intros m' Hm' Hext' Hid.
      assert (m' = m) as ->; [|congruence].
      apply (NoDup_ID_inj (Members stack2)); [done..|by rewrite <- Hperm|done].
    + unfold CreateDockerCompose in H2. congruence.
  - f_equal.
    rewrite (range_loop_panic_message stack1 (Members stack1) emptyCompose msg1
               (generated_empty stack1)) by done.
    by rewrite (range_loop_panic_message stack2 (Members stack2) emptyCompose msg2
                  (generated_empty stack2)) by done.
Qed.

(** * Further properties of the commands *)

Section MoreCommands.
Context {C : Collaborators} {SM : StackManager}.

(** ** The validators *)

(** X14. [validateName] accepts a name exactly when its trimmed form is not
    empty and [CheckExists] reports neither a stack of that name nor an
    error; an error of [CheckExists] is returned as it is. *)
Theorem validateName_accepts_iff (stackName : string) (w : World) :
  (validateName stackName w = None <->
     strings_TrimSpace stackName <> "" /\ CheckExists stackName w = (false, None)) /\
  (forall err, strings_TrimSpace stackName <> "" ->
     CheckExists stackName w = (false, Some err) -> validateName stackName w = Some err).
Proof.
  unfold validateName.
  destruct (String.eqb_spec (strings_TrimSpace stackName) "") as [Hempty|Hne].
  - split; [|done]. split; [done|]. by intros [? _].
  - destruct (CheckExists stackName w) as [[] [err|]]; split; try done;
      try (split; [done|by intros [_ [=]]]).
    by intros err' _ [= ->].
Qed.

(** X15. [validateCount] accepts an input exactly when it parses to a
    positive integer greater than the number of external processes, and it
    reports no failure other than [NotANumber], [NonPositiveCount] and
    [TooManyExternal]. *)
Theorem validateCount_accepts_iff (initOptions : InitOptions) (input : string) :
  (validateCount initOptions input = None <->
     exists i, Atoi input = (i, None) /\ 0 < i /\ ExternalProcesses initOptions < i) /\
  (forall err, validateCount initOptions input = Some err ->
     err = NotANumber \/ err = NonPositiveCount \/ err = TooManyExternal).
Proof.
  unfold validateCount. destruct (Atoi input) as [i [e|]].
  - split; [|naive_solver]. split; [done|]. by intros (? & [=] & _).
  - destruct (Z.leb_spec i 0); [split; [|naive_solver]; split; [done|]|].
    { intros (? & [= <-] & ? & _). lia. }
    destruct (ExternalProcesses initOptions >=? i)%Z eqn:Hext.
    + apply Z.geb_le in Hext. split; [|naive_solver]. split; [done|].
      intros (? & [= <-] & _ & ?). lia.
    + split; [|done]. split; [|done]. intros _. exists i. split_and!; [done..|].
      destruct (Z.geb_spec (ExternalProcesses initOptions) i); [done|lia].
Qed.

(** ** [init] *)

Lemma Called_not_printed (operation : string) (evs : list event) :
  Forall (fun e => match e with Called _ => False | _ => True end) evs ->
  Called operation ∉ evs.
Proof.
  intros Hall Hin. rewrite Forall_forall in Hall. by apply (Hall _ Hin).
Qed.

(** X16. [init] changes the persisted stacks only through one call of
    [InitStack]: either it fails before that call, leaving them as they
    were, or its result and the persisted stacks it leaves are those of
    [InitStack], called once with the options filled from the flags. *)
Theorem init_persists_only_through_InitStack (flags : Flags) (args : list string)
    (st : State) :
  (exists evs,
     trace (initCmd_RunE flags args st).2 = (trace st ++ evs)%list /\
     (Called "stackManager.InitStack" ∉ evs) /\
     world (initCmd_RunE flags args st).2 = world st /\
     is_Some (initCmd_RunE flags args st).1) \/
  (exists stackName memberCount before after,
     trace (initCmd_RunE flags args st).2 =
       (trace st ++ before ++ Called "stackManager.InitStack" :: after)%list /\
     (Called "stackManager.InitStack" ∉ before) /\
     (Called "stackManager.InitStack" ∉ after) /\
     (initCmd_RunE flags args st).1 =
       (InitStack stackName memberCount (fill_initOptions flags) (world st)).1 /\
     world (initCmd_RunE flags args st).2 =
       (InitStack stackName memberCount (fill_initOptions flags) (world st)).2).
Proof.
  unfold initCmd_RunE.
  destruct (validateDatabaseProvider (databaseSelection flags)) as [?|].
  { left. exists []. rewrite app_nil_r. split_and!; [done|by apply Called_not_printed|done|by eexists]. }
  destruct (validateBlockchainProvider (blockchainProviderSelection flags)) as [?|].
  { left. exists []. rewrite app_nil_r. split_and!; [done|by apply Called_not_printed|done|by eexists]. }
  destruct (validateTokensProvider (tokensProviderSelection flags)) as [?|].
  { left. exists []. rewrite app_nil_r. split_and!; [done|by apply Called_not_printed|done|by eexists]. }
  unfold read_stackName, read_memberCountInput.
  destruct args as [|stackName [|memberCountInput rest]]; cbn [emit with_console with_world world console trace].
  - destruct (prompt "stack name: " _ _) as [[n e1] con1].
    cbn [emit with_console with_world world console trace].
    destruct (prompt "number of members: " _ _) as [[cnt e2] con2].
    cbn [emit with_console with_world world console trace].
    right. exists n, (Atoi cnt).1,
      [Println "initializing new FireFly stack..."; Println ("You selected " +:+ n)].
    destruct (InitStack n (Atoi cnt).1 (fill_initOptions flags) (world st)) as [[err|] w];
      cbn [emit with_console with_world world console trace fst snd].
    + exists []. split_and!; [by rewrite <- !app_assoc| | |done..];
        apply Called_not_printed; by repeat constructor.
    + eexists [_; _]. split_and!; [by rewrite <- !app_assoc| | |done..];
        apply Called_not_printed; by repeat constructor.
  - destruct (validateName stackName (world st)) as [err|];
      cbn [emit with_console with_world world console trace fst snd].
    { left. exists [Println "initializing new FireFly stack..."].
      split_and!; [done| |done|by eexists]. apply Called_not_printed. by repeat constructor. }
    destruct (prompt "number of members: " _ _) as [[cnt e2] con2].
    cbn [emit with_console with_world world console trace].
    right. exists stackName, (Atoi cnt).1, [Println "initializing new FireFly stack..."].
    destruct (InitStack stackName (Atoi cnt).1 (fill_initOptions flags) (world st))
      as [[err|] w]; cbn [emit with_console with_world world console trace fst snd].
    + exists []. split_and!; [by rewrite <- !app_assoc| | |done..];
        apply Called_not_printed; by repeat constructor.
    + eexists [_; _]. split_and!; [by rewrite <- !app_assoc| | |done..];
        apply Called_not_printed; by repeat constructor.
  - destruct (validateName stackName (world st)) as [err|];
      cbn [emit with_console with_world world console trace fst snd].
    { left. exists [Println "initializing new FireFly stack..."].
      split_and!; [done| |done|by eexists]. apply Called_not_printed. by repeat constructor. }
    destruct (validateCount (initOptions flags) memberCountInput) as [err|];
      cbn [emit with_console with_world world console trace fst snd].
    { left. exists [Println "initializing new FireFly stack..."].
      split_and!; [done| |done|by eexists]. apply Called_not_printed. by repeat constructor. }
    right. exists stackName, (Atoi memberCountInput).1,
      [Println "initializing new FireFly stack..."].
    destruct (InitStack stackName (Atoi memberCountInput).1 (fill_initOptions flags) (world st))
      as [[err|] w]; cbn [emit with_console with_world world console trace fst snd].
    + exists []. split_and!; [by rewrite <- !app_assoc| | |done..];
        apply Called_not_printed; by repeat constructor.
    + eexists [_; _]. split_and!; [by rewrite <- !app_assoc| | |done..];
        apply Called_not_printed; by repeat constructor.
Qed.

(** X17. With the stack name and the member count given as arguments and
    every check passed, [init] calls [InitStack] with the name, the parsed
    count and the options filled from the flags; when that returns no error
    it leaves the persisted stacks [InitStack] left, prints the two closing
    messages, and returns no error; when it returns an error, [init] returns
    that error and prints neither message. *)
Theorem init_runs_InitStack (flags : Flags) (stackName memberCountInput : string)
    (rest : list string) (st : State) (err : option error) (w : World) :
  first_failure (init_validations flags stackName memberCountInput (world st)) = None ->
  InitStack stackName (Atoi memberCountInput).1 (fill_initOptions flags) (world st) = (err, w) ->
  initCmd_RunE flags (stackName :: memberCountInput :: rest) st =
    (err,
     {| world := w; console := console st;
        trace :=
          (trace st ++
           [ Println "initializing new FireFly stack..."; Called "stackManager.InitStack" ] ++
           match err with
           | Some _ => []
           | None =>
               [ Printf created_format [ stackName; rootCmd_Use; stackName ];
                 Printf compose_file_format
                   [ filepath_Join [ constants_StacksDir; stackName; "docker-compose.yml" ] ] ]
           end)%list |}).
Proof.
  unfold init_validations, initCmd_RunE. simpl.
  destruct (validateDatabaseProvider _) as [?|]; [done|].
  destruct (validateBlockchainProvider _) as [?|]; [done|].
  destruct (validateTokensProvider _) as [?|]; [done|].
  destruct (validateName _ _) as [?|]; [done|].
  destruct (validateCount _ _) as [?|]; [done|].
  intros _ ->. unfold emit, with_world. simpl.
  destruct err; simpl; by rewrite <- !app_assoc.
Qed.

(** X18. Without arguments [init] takes the stack name and the member count
    from the two prompts and drops the errors the prompts return: once the
    provider checks pass, its result is that of [InitStack], called with
    whatever name the first prompt gave and the integer [Atoi] reads from
    the answer of the second, zero when it is not a number. *)
Theorem init_drops_prompt_errors (flags : Flags) (st : State)
    (stackName memberCountInput : string) (e1 e2 : option error) (con1 con2 : Console) :
  validateDatabaseProvider (databaseSelection flags) = None ->
  validateBlockchainProvider (blockchainProviderSelection flags) = None ->
  validateTokensProvider (tokensProviderSelection flags) = None ->
  prompt "stack name: " (fun s => validateName s (world st)) (console st) =
    ((stackName, e1), con1) ->
  prompt "number of members: " (validateCount (initOptions flags)) con1 =
    ((memberCountInput, e2), con2) ->
  (initCmd_RunE flags [] st).1 =
    (InitStack stackName (Atoi memberCountInput).1 (fill_initOptions flags) (world st)).1 /\
  world (initCmd_RunE flags [] st).2 =
    (InitStack stackName (Atoi memberCountInput).1 (fill_initOptions flags) (world st)).2 /\
  ((Atoi memberCountInput).2 <> None -> (Atoi memberCountInput).1 = 0 \/
     (Atoi memberCountInput).1 = 2 ^ 63 - 1 \/ (Atoi memberCountInput).1 = - 2 ^ 63).
Proof.
  intros Hdb Hbc Htok Hname Hcount. unfold initCmd_RunE, read_stackName, read_memberCountInput.
  rewrite Hdb, Hbc, Htok. cbn [emit with_console with_world world console trace].
  rewrite Hname. cbn [emit with_console with_world world console trace].
  rewrite Hcount. cbn [emit with_console with_world world console trace].
  split_and!.
  - by destruct (InitStack _ _ _ _) as [[?|] ?].
  - by destruct (InitStack _ _ _ _) as [[?|] ?].
  - unfold Atoi. destruct memberCountInput as [|a s]; [by left|].
    destruct (if (Ascii.eqb a "-" || Ascii.eqb a "+")%bool then s else String a s);
      [by left|].
    destruct (digits_overflow 0 _); [destruct (Ascii.eqb a "-"); simpl; auto|].
    destruct (digits_value 0 _) as [n|]; [|by left].
    destruct (Ascii.eqb a "-").
    + destruct (2 ^ 63 <? n)%Z; simpl; [auto|done].
    + destruct (2 ^ 63 <=? n)%Z; simpl; [auto|done].
Qed.

(** ** [reset] *)

(** X19. [reset] on a name that [CheckExists] does not know fails with
    [StackNotFound], with or without [--force]: nobody is asked, nothing is
    printed, the persisted stacks are as they were. An error of
    [CheckExists] is returned in the same way. *)
Theorem reset_missing_stack (flags : Flags) (stackName : string) (rest : list string)
    (st : State) :
  (CheckExists stackName (world st) = (false, None) ->
     resetCmd_RunE flags (stackName :: rest) st = (Some (StackNotFound stackName), st)) /\
  (forall found err, CheckExists stackName (world st) = (found, Some err) ->
     resetCmd_RunE flags (stackName :: rest) st = (Some err, st)).
Proof.
  unfold resetCmd_RunE. split.
  - by intros ->.
  - intros found err ->. by destruct found.
Qed.

(** X20. [reset --force] on an existing stack asks nobody: it loads the
    stack, calls [ResetStack] on it and returns no error, whatever
    [ResetStack] did; when the stack cannot be loaded it returns the error
    of [LoadStack] and leaves the persisted stacks as they were. *)
Theorem reset_forced (flags : Flags) (stackName : string) (rest : list string) (st : State) :
  force flags = true ->
  CheckExists stackName (world st) = (true, None) ->
  (forall stack, LoadStack stackName (world st) = inl stack ->
     resetCmd_RunE flags (stackName :: rest) st =
       (None, {| world := ResetStack stack (verbose flags) (world st);
                 console := console st;
                 trace := (trace st ++
                           [ Printf "resetting FireFly stack '%s'... " [ stackName ];
                             Called "stack.ResetStack"; Println "done" ])%list |})) /\
  (forall err, LoadStack stackName (world st) = inr err ->
     resetCmd_RunE flags (stackName :: rest) st = (Some err, st)).
Proof.
  intros Hforce Hexists. unfold resetCmd_RunE, load_and_reset.
  rewrite Hexists, Hforce. simpl. split.
  - intros stack ->. unfold emit, with_world. simpl. by rewrite <- !app_assoc.
  - by intros err ->.
Qed.

(** X21. A confirmed reset does what a forced one does: on an existing
    stack, without [--force], when the prompt returns no error and an answer
    whose lower case is [y], [reset] prints the warning and then loads the
    stack, calls [ResetStack] on it and returns no error. *)
Theorem reset_confirmed (flags : Flags) (stackName : string) (rest : list string)
    (st : State) (result : string) (con : Console) (stack : LoadedStack) :
  force flags = false ->
  CheckExists stackName (world st) = (true, None) ->
  promptui_Run
    {| Label := "reset all data in FireFly stack '" +:+ stackName +:+ "'";
       IsConfirm := true |} (console st) = ((result, None), con) ->
  strings_ToLower result = "y" ->
  LoadStack stackName (world st) = inl stack ->
  resetCmd_RunE flags (stackName :: rest) st =
    (None, {| world := ResetStack stack (verbose flags) (world st);
              console := con;
              trace := (trace st ++
                        [ Println reset_warning;
                          Printf "resetting FireFly stack '%s'... " [ stackName ];
                          Called "stack.ResetStack"; Println "done" ])%list |}).
Proof.
  intros Hforce Hexists Hrun Hyes Hload. unfold resetCmd_RunE, load_and_reset.
  rewrite Hexists, Hforce. simpl. rewrite Hrun, Hyes. simpl. rewrite Hload.
  unfold emit, with_world, with_console. simpl. by rewrite <- !app_assoc.
Qed.

(** X22. [reset] changes the persisted stacks only through [ResetStack]:
    whenever it returns an error, and whenever it is declined, the persisted
    stacks are as they were and [ResetStack] has not been called; otherwise
    it returns no error and the persisted stacks are what [ResetStack] made
    of them, for the stack loaded under the given name. *)
Theorem reset_persists_only_through_ResetStack (flags : Flags) (args : list string)
    (st : State) :
  (exists evs,
     trace (resetCmd_RunE flags args st).2 = (trace st ++ evs)%list /\
     (Called "stack.ResetStack" ∉ evs) /\
     world (resetCmd_RunE flags args st).2 = world st) \/
  (exists stackName rest stack,
     args = stackName :: rest /\
     CheckExists stackName (world st) = (true, None) /\
     LoadStack stackName (world st) = inl stack /\
     (resetCmd_RunE flags args st).1 = None /\
     world (resetCmd_RunE flags args st).2 = ResetStack stack (verbose flags) (world st)).
Proof.
  unfold resetCmd_RunE.
  destruct args as [|stackName rest].
  { left. exists []. rewrite app_nil_r. split_and!; [done| |done].
    by apply Called_not_printed. }
  destruct (CheckExists stackName (world st)) as [found [err|]] eqn:Hexists.
  { left. exists []. rewrite app_nil_r.
    destruct found; (split_and!; [done| |done]); by apply Called_not_printed. }
  destruct found.
  2:{ left. exists []. rewrite app_nil_r. split_and!; [done| |done].
      by apply Called_not_printed. }
  assert (forall st0 : State, world st0 = world st ->
            forall pre, trace st0 = (trace st ++ pre)%list ->
            Forall (fun e => match e with Called _ => False | _ => True end) pre ->
            (exists evs,
               trace (load_and_reset flags stackName st0).2 = (trace st ++ evs)%list /\
               (Called "stack.ResetStack" ∉ evs) /\
               world (load_and_reset flags stackName st0).2 = world st) \/
            (exists stack,
               LoadStack stackName (world st) = inl stack /\
               (load_and_reset flags stackName st0).1 = None /\
               world (load_and_reset flags stackName st0).2 =
                 ResetStack stack (verbose flags) (world st))) as Hload.
  { intros st0 Hw pre Htrace Hpre. unfold load_and_reset. rewrite Hw.
    destruct (LoadStack stackName (world st)) as [stack|err] eqn:Hl.
    - right. exists stack. unfold emit, with_world. simpl. by rewrite Hw.
    - left. exists pre. split_and!; [done| |done]. by apply Called_not_printed. }
  destruct (negb (force flags)).
  - cbn [emit with_console with_world world console trace].
    destruct (promptui_Run _ _) as [[result err] con].
    cbn [emit with_console with_world world console trace].
    destruct (bool_decide (is_Some err) || negb (String.eqb (strings_ToLower result) "y")).
    + left. exists [Println reset_warning; Printf "canceled" []].
      split_and!; [simpl; by rewrite <- !app_assoc| |done].
      apply Called_not_printed. by repeat constructor.
    + destruct (Hload {| world := world st; console := con;
                         trace := trace st ++ [Println reset_warning] |}
                  eq_refl [Println reset_warning] eq_refl)
        as [?|(stack & ? & ? & ?)]; [by repeat constructor|by left|].
      right. by exists stackName, rest, stack.
  - destruct (Hload st eq_refl []) as [?|(stack & ? & ? & ?)];
      [by rewrite app_nil_r|done|by left|].
    right. by exists stackName, rest, stack.
Qed.

End MoreCommands.

(** * [strconv.Atoi] on what [%d] prints *)

Lemma digits_value_uint (acc : Z) (d : Decimal.uint) :
  digits_value acc (NilEmpty.string_of_uint d) = Some (uint_value acc d).
Proof. revert acc. induction d; intros acc; simpl; by rewrite ?IHd. Qed.

Lemma uint_value_acc (acc : positive) (d : Decimal.uint) :
  uint_value (Z.pos acc) d = Z.pos (Pos.of_uint_acc d acc).
Proof.
  revert acc. induction d; intros acc; simpl; [done|..];
    match goal with
    | |- uint_value ?z _ = _ =>
        let p := fresh in
        evar (p : positive);
        replace z with (Z.pos ?p); [apply IHd|subst p; lia]
    end.
Qed.

Lemma uint_value_of_uint (d : Decimal.uint) :
  uint_value 0 d = Z.of_N (Pos.of_uint d).
Proof.
  induction d; simpl; try done;
    match goal with
    | |- uint_value ?z _ = _ => let z' := eval vm_compute in z in change z with z'
    end; by rewrite ?(uint_value_acc _ d).
Qed.

Lemma digits_value_pos (p : positive) :
  digits_value 0 (NilEmpty.string_of_uint (Pos.to_uint p)) = Some (Z.pos p).
Proof.
  rewrite digits_value_uint, uint_value_of_uint.
  by rewrite DecimalPos.Unsigned.of_to.
Qed.

Lemma is_digit_value (c : ascii) :
  is_digit c = true -> 0 <= Z.of_nat (nat_of_ascii c) - 48 <= 9.
Proof. unfold is_digit. lia. Qed.

Lemma digits_value_ge (acc : Z) (s : string) (n : Z) :
  0 <= acc -> digits_value acc s = Some n -> acc <= n.
Proof.
  revert acc. induction s as [|c s IH]; intros acc Hacc; simpl.
  - intros [= <-]. lia.
  - destruct (is_digit c) eqn:Hc; [|done]. intros Hn.
    apply is_digit_value in Hc. apply IH in Hn; lia.
Qed.

(** A digit run whose value fits 64 bits never overflows on the way. *)
Lemma digits_overflow_value (acc : Z) (s : string) (n : Z) :
  0 <= acc -> digits_value acc s = Some n -> n < 2 ^ 64 ->
  digits_overflow acc s = false.
Proof.
  revert acc. induction s as [|c s IH]; intros acc Hacc; [done|].
  cbn [digits_value digits_overflow].
  destruct (is_digit c) eqn:Hc; [|done]. intros Hn Hlt.
  apply is_digit_value in Hc.
  set (acc' := 10 * acc + (Z.of_nat (nat_of_ascii c) - 48)) in *.
  assert (0 <= acc') as Hacc' by (subst acc'; lia).
  pose proof (digits_value_ge acc' s n Hacc' Hn).
  destruct (Z.leb_spec (2 ^ 64) acc'); [lia|].
  by apply (IH acc').
Qed.

Lemma digits_overflow_pos (p : positive) :
  Z.pos p < 2 ^ 64 ->
  digits_overflow 0 (NilEmpty.string_of_uint (Pos.to_uint p)) = false.
Proof.
  intros Hp. apply (digits_overflow_value 0 _ (Z.pos p)); [lia| |done].
  apply digits_value_pos.
Qed.

(** The text of a positive number: not empty, no sign in front. *)
Lemma string_of_uint_pos (p : positive) :
  exists a s, NilEmpty.string_of_uint (Pos.to_uint p) = String a s /\
    NilZero.string_of_uint (Pos.to_uint p) = String a s /\
    Ascii.eqb a "-" = false /\ Ascii.eqb a "+" = false.
Proof.
  pose proof (DecimalPos.Unsigned.to_uint_nonnil p) as Hnil.
  destruct (Pos.to_uint p); [done|..]; simpl; by eexists _, _.
Qed.

Lemma Atoi_Sprintf_d (n : Z) :
  - 2 ^ 63 <= n < 2 ^ 63 -> Atoi (Sprintf_d n) = (n, None).
Proof.
  intros Hn. unfold Sprintf_d. destruct n as [|p|p]; [done|..]; simpl.
  - destruct (string_of_uint_pos p) as (a & s & Hs & -> & Hminus & Hplus).
    unfold Atoi. cbn -[digits_value digits_overflow Z.pow Z.leb Z.ltb].
    rewrite Hminus, Hplus. cbn -[digits_value digits_overflow Z.pow Z.leb Z.ltb].
    rewrite <- Hs, digits_overflow_pos, digits_value_pos by lia.
    destruct (Z.leb_spec (2 ^ 63) (Z.pos p)); [lia|done].
  - destruct (string_of_uint_pos p) as (a & s & Hs & -> & Hminus & Hplus).
    unfold Atoi. cbn -[digits_value digits_overflow Z.pow Z.leb Z.ltb].
    rewrite <- Hs, digits_overflow_pos, digits_value_pos by lia.
    destruct (Z.ltb_spec (2 ^ 63) (Z.pos p)); [lia|done].
Qed.

Section DecimalCounts.
Context {C : Collaborators} {SM : StackManager}.

(** X23. On the decimal text of an integer [n] of the range of [int],
    [validateCount] fails with [NonPositiveCount] when [n] is zero or
    negative, with [TooManyExternal] when [n] is positive and the number of
    external processes equals or exceeds it, and succeeds otherwise. *)
Theorem validateCount_decimal (initOptions : InitOptions) (n : Z) :
  - 2 ^ 63 <= n < 2 ^ 63 ->
  validateCount initOptions (Sprintf_d n) =
    if (n <=? 0)%Z then Some NonPositiveCount
    else if (ExternalProcesses initOptions >=? n)%Z then Some TooManyExternal
    else None.
Proof. intros Hn. unfold validateCount. by rewrite (Atoi_Sprintf_d n Hn). Qed.

End DecimalCounts.

(** * More members *)

Lemma range_loop_app (stack : Stack) (ms1 ms2 : list Member) (c : DockerComposeConfig) :
  range_loop (member_body stack) (ms1 ++ ms2)%list c =
    c1 ← range_loop (member_body stack) ms1 c; range_loop (member_body stack) ms2 c1.
Proof.
  revert c. induction ms1 as [|m ms1 IH]; intros c; simpl; [done|].
  destruct (member_body stack c m) as [c1|]; simpl; [apply IH|done].
Qed.

(** The loop body reads the stack only for its database kind and its swarm
    key. *)
Lemma member_body_ext (stack1 stack2 : Stack) (c : DockerComposeConfig) (m : Member) :
  Database stack1 = Database stack2 -> SwarmKey stack1 = SwarmKey stack2 ->
  member_body stack1 c m = member_body stack2 c m.
Proof.
  intros Hdb Hkey. unfold member_body, emit_postgres, emit_ipfs_dataexchange, ipfsService.
  by rewrite Hdb, Hkey.
Qed.

Lemma range_loop_ext (stack1 stack2 : Stack) (ms : list Member) (c : DockerComposeConfig) :
  Database stack1 = Database stack2 -> SwarmKey stack1 = SwarmKey stack2 ->
  range_loop (member_body stack1) ms c = range_loop (member_body stack2) ms c.
Proof.
  intros Hdb Hkey. revert c. induction ms as [|m ms IH]; intros c; simpl; [done|].
  rewrite (member_body_ext stack1 stack2 c m Hdb Hkey).
  destruct (member_body stack2 c m); simpl; [apply IH|done].
Qed.

(** X24. Adding members at the end of a stack, with ids no member has yet,
    only adds to the descriptor: when the generator returns for the longer
    stack it returns for the shorter one too, and every service and every
    volume of the shorter descriptor is in the longer one unchanged. *)
Theorem more_members_only_add (stack1 stack2 : Stack) (more : list Member)
    (c2 : DockerComposeConfig) :
  Members stack2 = (Members stack1 ++ more)%list ->
  Database stack1 = Database stack2 ->
  SwarmKey stack1 = SwarmKey stack2 ->
  NoDup (ID <$> Members stack2) ->
  CreateDockerCompose stack2 = Ok c2 ->
  exists c1, CreateDockerCompose stack1 = Ok c1 /\
    Services c1 ⊆ Services c2 /\ Volumes_ c1 ⊆ Volumes_ c2.
Proof.
  intros Hmembers Hdb Hkey Hids H2.
  assert (exists c1, CreateDockerCompose stack1 = Ok c1) as [c1 H1].
  { unfold CreateDockerCompose in *. rewrite Hmembers, range_loop_app in H2.
    rewrite (range_loop_ext stack1 stack2 _ _ Hdb Hkey).
    destruct (range_loop (member_body stack2) (Members stack1) emptyCompose); [|done].
    by eexists. }
  assert (NoDup (ID <$> Members stack1)) as Hids1.
  { rewrite Hmembers, fmap_app in Hids. by apply NoDup_app in Hids as [? _]. }
  assert (forall m, m ∈ Members stack1 -> m ∈ Members stack2) as Hsub.
  { intros m Hm. rewrite Hmembers. apply elem_of_app. by left. }
  exists c1. split_and!; [done| |].
  - apply map_subseteq_spec. intros k s Hk.
    destruct (proj1 (CreateDockerCompose_key stack1 c1 k H1)) as (m & Hm & Hkm);
      [by eexists|].
    rewrite (CreateDockerCompose_lookup stack1 c1 m k) in Hk by done.
    rewrite (CreateDockerCompose_lookup stack2 c2 m k); [|done..|by apply Hsub|].
    + rewrite <- Hk. unfold core_depends_of, ipfsService. by rewrite Hdb, Hkey.
    + unfold member_keys in *. by rewrite <- Hdb.
  - rewrite (CreateDockerCompose_volumes stack1 c1 H1),
      (CreateDockerCompose_volumes stack2 c2 H2).
    intros v. rewrite !elem_of_list_to_set, !list_elem_of_bind.
    intros (m & Hv & Hm). exists m. split; [|by apply Hsub].
    unfold member_volumes in *. by rewrite <- Hdb.
Qed.

(** * The further statements on sample configurations *)

Lemma three_members_generated :
  CreateDockerCompose scenario.three_members = Ok scenario.three_members_compose.
Proof. vm_compute. reflexivity. Defined.

Lemma shared_id_generated :
  CreateDockerCompose scenario.shared_id = Ok scenario.shared_id_compose.
Proof. vm_compute. reflexivity. Defined.

Lemma three_members_ids : NoDup (ID <$> Members scenario.three_members).
Proof. apply (bool_decide_unpack _). vm_compute. exact I. Defined.

Lemma third_member_in : scenario.third_member ∈ Members scenario.three_members.
Proof. right. right. left. Defined.

Lemma third_member_core :
  Services scenario.three_members_compose !! "firefly_core_2" =
    Some (coreService scenario.third_member).
Proof. vm_compute. reflexivity. Defined.

Lemma generator_returns_iff_witness :
  (exists c, CreateDockerCompose scenario.three_members = Ok c) <->
  Database scenario.three_members <> "postgres" \/
  (forall m, m ∈ Members scenario.three_members -> External m = false).
Proof. apply (generator_returns_iff scenario.three_members three_members_ids). Defined.

Lemma generated_service_keys_witness :
  is_Some (Services scenario.three_members_compose !! "firefly_core_2") <->
    (exists m, m ∈ Members scenario.three_members /\ External m = false /\
       "firefly_core_2" = "firefly_core_" +:+ ID m) \/
    (Database scenario.three_members = "postgres" /\
       exists m, m ∈ Members scenario.three_members /\ "firefly_core_2" = "postgres_" +:+ ID m) \/
    (exists m, m ∈ Members scenario.three_members /\ "firefly_core_2" = "ipfs_" +:+ ID m) \/
    (exists m, m ∈ Members scenario.three_members /\
       "firefly_core_2" = "dataexchange_" +:+ ID m).
Proof.
  apply (generated_service_keys scenario.three_members scenario.three_members_compose
           three_members_generated "firefly_core_2").
Defined.

Lemma generated_volume_names_witness :
  "ipfs_data_0" ∈ Volumes_ scenario.three_members_compose <->
    (exists m, m ∈ Members scenario.three_members /\ External m = false /\
       "ipfs_data_0" = "firefly_core_" +:+ ID m) \/
    (Database scenario.three_members = "postgres" /\
       exists m, m ∈ Members scenario.three_members /\ "ipfs_data_0" = "postgres_" +:+ ID m) \/
    (exists m, m ∈ Members scenario.three_members /\ "ipfs_data_0" = "ipfs_staging_" +:+ ID m) \/
    (exists m, m ∈ Members scenario.three_members /\ "ipfs_data_0" = "ipfs_data_" +:+ ID m) \/
    (exists m, m ∈ Members scenario.three_members /\
       "ipfs_data_0" = "dataexchange_" +:+ ID m).
Proof.
  apply (generated_volume_names scenario.three_members scenario.three_members_compose
           three_members_generated "ipfs_data_0").
Defined.

Lemma generated_depends_on_witness :
  (forall id, "firefly_core_2" = "firefly_core_" +:+ id ->
     DependsOn (coreService scenario.third_member) =
       Some (if String.eqb (Database scenario.three_members) "postgres"
             then {[ "postgres_" +:+ id := {[ "condition" := "service_healthy" ]};
                     "dataexchange_" +:+ id := {[ "condition" := "service_started" ]} ]}
             else {[ "dataexchange_" +:+ id := {[ "condition" := "service_started" ]} ]})) /\
  ((forall id, "firefly_core_2" <> "firefly_core_" +:+ id) ->
     DependsOn (coreService scenario.third_member) = None).
Proof.
  apply (generated_depends_on scenario.three_members scenario.three_members_compose
           "firefly_core_2" (coreService scenario.third_member)
           three_members_generated third_member_core).
Defined.

Lemma generated_depends_closed_witness :
  is_Some (Services scenario.three_members_compose !! "dataexchange_2").
Proof.
  apply (generated_depends_closed scenario.three_members scenario.three_members_compose
           "firefly_core_2" "dataexchange_2" three_members_generated).
  exists (coreService scenario.third_member), (core_depends "2").
  split_and!; [apply third_member_core|reflexivity|].
  unfold core_depends. rewrite lookup_singleton_eq. by eexists.
Defined.

Lemma generated_logging_witness :
  Logging (coreService scenario.third_member) =
    Some {| Driver := "json-file";
            Options := {[ "max-size" := "10m"; "max-file" := "1" ]} |}.
Proof.
  apply (generated_logging scenario.three_members scenario.three_members_compose
           "firefly_core_2" (coreService scenario.third_member)
           three_members_generated third_member_core).
Defined.

Lemma generated_health_check_witness :
  ((exists id, "firefly_core_2" = "postgres_" +:+ id) ->
     HealthCheck_ (coreService scenario.third_member) = Some postgresHealthCheck) /\
  ((forall id, "firefly_core_2" <> "postgres_" +:+ id) ->
     HealthCheck_ (coreService scenario.third_member) = None).
Proof.
  apply (generated_health_check scenario.three_members scenario.three_members_compose
           "firefly_core_2" (coreService scenario.third_member)
           three_members_generated third_member_core).
Defined.

Lemma generated_member_services_witness :
  Services scenario.three_members_compose !! ("dataexchange_" +:+ ID scenario.third_member) =
    Some (dataexchangeService scenario.third_member) /\
  Services scenario.three_members_compose !! ("ipfs_" +:+ ID scenario.third_member) =
    Some (ipfsService scenario.three_members scenario.third_member) /\
  (Database scenario.three_members = "postgres" ->
     Services scenario.three_members_compose !! ("postgres_" +:+ ID scenario.third_member) =
       Some (postgresService scenario.third_member)) /\
  (External scenario.third_member = false ->
     Services scenario.three_members_compose !! ("firefly_core_" +:+ ID scenario.third_member) =
       Some (with_DependsOn
               (Some (core_depends_of scenario.three_members (ID scenario.third_member)))
               (coreService scenario.third_member))).
Proof.
  apply (generated_member_services scenario.three_members scenario.three_members_compose
           scenario.third_member three_members_ids three_members_generated third_member_in).
Defined.

Lemma shared_id_external_generated :
  CreateDockerCompose scenario.shared_id_external = Ok scenario.shared_id_external_compose.
Proof. vm_compute. reflexivity. Defined.

Lemma last_member_with_id_wins_witness :
  (Services scenario.shared_id_external_compose !! "dataexchange_0" =
     Some (dataexchangeService scenario.external_of_shared_id) /\
   Services scenario.shared_id_external_compose !! "ipfs_0" =
     Some (ipfsService scenario.shared_id_external scenario.external_of_shared_id) /\
   Services scenario.shared_id_external_compose !! "postgres_0" =
     Some (postgresService scenario.external_of_shared_id)) /\
  Services scenario.shared_id_external_compose !! "firefly_core_0" =
    Some (with_DependsOn (Some (core_depends_db "0"))
            (coreService scenario.first_of_shared_id)) /\
  Services scenario.shared_id_compose !! "firefly_core_0" =
    Some (with_DependsOn (Some (core_depends_db "0"))
            (coreService scenario.second_of_shared_id)) /\
  Services scenario.three_members_compose !! "firefly_core_0" = None.
Proof.
  split; [|split_and!].
  - destruct (proj1 (last_member_with_id_wins scenario.shared_id_external
                       scenario.shared_id_external_compose
                       [scenario.first_of_shared_id] [] scenario.external_of_shared_id
                       eq_refl shared_id_external_generated))
      as (Hdx & Hipfs & Hpg).
    + intros m' Hm'. by apply elem_of_nil in Hm'.
    + split_and!; [exact Hdx | exact Hipfs | exact (Hpg eq_refl)].
  - apply (proj1 (proj2 (last_member_with_id_wins scenario.shared_id_external
                           scenario.shared_id_external_compose
                           [] [scenario.external_of_shared_id] scenario.first_of_shared_id
                           eq_refl shared_id_external_generated))).
    + reflexivity.
    + intros m' Hm' _. apply list_elem_of_singleton in Hm'. by rewrite Hm'.
  - apply (proj1 (proj2 (last_member_with_id_wins scenario.shared_id
                           scenario.shared_id_compose
                           [scenario.first_of_shared_id] [] scenario.second_of_shared_id
                           eq_refl shared_id_generated))).
    + reflexivity.
    + intros m' Hm'. by apply elem_of_nil in Hm'.
  - apply (proj2 (proj2 (last_member_with_id_wins scenario.three_members
                           scenario.three_members_compose
                           [] (tail (Members scenario.three_members))
                           (model.createMember (sample.options model.SQLite3 2) 0)
                           eq_refl three_members_generated))).
    intros m' Hm' Hid.
    change (Members scenario.three_members) with
      [ model.createMember (sample.options model.SQLite3 2) 0;
        model.createMember (sample.options model.SQLite3 2) 1;
        model.createMember (sample.options model.SQLite3 2) 2 ] in Hm'.
    rewrite !elem_of_cons, elem_of_nil in Hm'.
    destruct Hm' as [->|[->|[->|[]]]]; [reflexivity|reflexivity|discriminate Hid].
Defined.

Lemma generated_service_counts_witness :
  count_services "firefly_core_" scenario.three_members_compose =
    length (filter (fun m => External m = false) (Members scenario.three_members)) /\
  count_services "postgres_" scenario.three_members_compose =
    (if String.eqb (Database scenario.three_members) "postgres"
     then length (Members scenario.three_members) else 0%nat) /\
  count_services "ipfs_" scenario.three_members_compose =
    length (Members scenario.three_members) /\
  count_services "dataexchange_" scenario.three_members_compose =
    length (Members scenario.three_members) /\
  size (Services scenario.three_members_compose) =
    (count_services "firefly_core_" scenario.three_members_compose +
     count_services "postgres_" scenario.three_members_compose +
     count_services "ipfs_" scenario.three_members_compose +
     count_services "dataexchange_" scenario.three_members_compose)%nat.
Proof.
  apply (generated_service_counts scenario.three_members scenario.three_members_compose
           three_members_ids three_members_generated).
Defined.

Example three_members_counts :
  count_services "firefly_core_" scenario.three_members_compose = 1%nat /\
  count_services "postgres_" scenario.three_members_compose = 0%nat /\
  count_services "ipfs_" scenario.three_members_compose = 3%nat /\
  count_services "dataexchange_" scenario.three_members_compose = 3%nat /\
  size (Services scenario.three_members_compose) = 7%nat.
Proof. vm_compute. done. Qed.

Lemma external_core_ports_unpublished_witness :
  (ExposedFireflyPort (model.createMember (sample.options model.SQLite3 2) 0)
    ∉ published_host_ports scenario.three_members_compose) /\
  ExposedFireflyAdminPort (model.createMember (sample.options model.SQLite3 2) 0)
    ∉ published_host_ports scenario.three_members_compose.
Proof.
  apply (external_core_ports_unpublished scenario.three_members
           scenario.three_members_compose
           (model.createMember (sample.options model.SQLite3 2) 0)).
  - apply (bool_decide_unpack _). vm_compute. exact I.
  - apply three_members_generated.
  - by left.
  - reflexivity.
Defined.

Lemma member_order_irrelevant_witness :
  CreateDockerCompose scenario.three_members =
    CreateDockerCompose scenario.three_members_reversed.
Proof.
  apply (member_order_irrelevant scenario.three_members scenario.three_members_reversed).
  - apply three_members_ids.
  - simpl. by rewrite reverse_Permutation.
  - reflexivity.
  - reflexivity.
Defined.

Lemma generator_failure_shape_witness :
  "invalid memory address or nil pointer dereference" =
    "invalid memory address or nil pointer dereference" /\
  Database sample.one_external = "postgres" /\
  exists m, m ∈ Members sample.one_external /\ External m = true.
Proof.
  apply (generator_failure_shape sample.one_external
           "invalid memory address or nil pointer dereference").
  vm_compute. reflexivity.
Defined.

Lemma init_runs_InitStack_witness :
  initCmd_RunE scenario.default_flags [ "dev"; "2" ] sample.fresh_state =
    (None,
     {| world :=
          (model.InitStack "dev" 2 (fill_initOptions scenario.default_flags)
             (world sample.fresh_state)).2;
        console := console sample.fresh_state;
        trace :=
          (trace sample.fresh_state ++
           [ Println "initializing new FireFly stack..."; Called "stackManager.InitStack" ] ++
           [ Printf created_format [ "dev"; rootCmd_Use; "dev" ];
             Printf compose_file_format
               [ filepath_Join [ constants_StacksDir; "dev"; "docker-compose.yml" ] ] ])%list |}).
Proof.
  apply (init_runs_InitStack scenario.default_flags "dev" "2" [] sample.fresh_state None).
  - reflexivity.
  - vm_compute. reflexivity.
Defined.

Lemma init_drops_prompt_errors_witness :
  (initCmd_RunE scenario.default_flags [] sample.fresh_state).1 =
    (InitStack "" (Atoi "").1 (fill_initOptions scenario.default_flags)
       (world sample.fresh_state)).1 /\
  world (initCmd_RunE scenario.default_flags [] sample.fresh_state).2 =
    (InitStack "" (Atoi "").1 (fill_initOptions scenario.default_flags)
       (world sample.fresh_state)).2 /\
  ((Atoi "").2 <> None -> (Atoi "").1 = 0 \/
     (Atoi "").1 = 2 ^ 63 - 1 \/ (Atoi "").1 = - 2 ^ 63).
Proof.
  apply (init_drops_prompt_errors scenario.default_flags sample.fresh_state "" ""
           (Some model.ErrEOF) (Some model.ErrEOF) [] []); reflexivity.
Defined.

Example init_on_closed_input :
  (initCmd_RunE scenario.default_flags [] sample.fresh_state).1 = None /\
  is_Some (world (initCmd_RunE scenario.default_flags [] sample.fresh_state).2 !! "").
Proof. split; [by vm_compute|]. vm_compute. by eexists. Qed.

Lemma reset_forced_witness :
  resetCmd_RunE scenario.force_flags [ "stack1" ] sample.stack1_state =
    (None, {| world := ResetStack scenario.stack1_loaded (verbose scenario.force_flags)
                         (world sample.stack1_state);
              console := console sample.stack1_state;
              trace := (trace sample.stack1_state ++
                        [ Printf "resetting FireFly stack '%s'... " [ "stack1" ];
                          Called "stack.ResetStack"; Println "done" ])%list |}).
Proof.
  apply (proj1 (reset_forced scenario.force_flags "stack1" [] sample.stack1_state
                  eq_refl ltac:(vm_compute; reflexivity))).
  vm_compute. reflexivity.
Defined.

Lemma reset_confirmed_witness :
  resetCmd_RunE sample.reset_flags [ "stack1" ] scenario.confirming_state =
    (None, {| world := ResetStack scenario.stack1_loaded (verbose sample.reset_flags)
                         (world scenario.confirming_state);
              console := ([] : model.Console);
              trace := (trace scenario.confirming_state ++
                        [ Println reset_warning;
                          Printf "resetting FireFly stack '%s'... " [ "stack1" ];
                          Called "stack.ResetStack"; Println "done" ])%list |}).
Proof.
  apply (reset_confirmed sample.reset_flags "stack1" [] scenario.confirming_state "Y" []
           scenario.stack1_loaded).
  - reflexivity.
  - vm_compute. reflexivity.
  - reflexivity.
  - reflexivity.
  - vm_compute. reflexivity.
Defined.

Lemma validateCount_decimal_witness :
  validateCount (sample.options model.SQLite3 2) (Sprintf_d 3) =
    if (3 <=? 0)%Z then Some NonPositiveCount
    else if (ExternalProcesses (sample.options model.SQLite3 2) >=? 3)%Z
         then Some TooManyExternal
         else None.
Proof.
  apply (validateCount_decimal (sample.options model.SQLite3 2) 3). done.
Defined.

Lemma more_members_only_add_witness :
  exists c1, CreateDockerCompose sample.two_members = Ok c1 /\
    Services c1 ⊆ Services scenario.three_members_postgres_compose /\
    Volumes_ c1 ⊆ Volumes_ scenario.three_members_postgres_compose.
Proof.
  apply (more_members_only_add sample.two_members scenario.three_members_postgres
           [model.createMember (sample.options model.PostgreSQL 0) 2]
           scenario.three_members_postgres_compose).
  - reflexivity.
  - reflexivity.
  - reflexivity.
  - apply (bool_decide_unpack _). vm_compute. exact I.
  - vm_compute. reflexivity.
Defined.

(** * Host ports derived from the base ports *)

(** A host port that two services publish is published twice. *)
Lemma published_twice (c : DockerComposeConfig) (k1 k2 : string) (s1 s2 : Service)
    (y : Z) :
  Services c !! k1 = Some s1 -> Services c !! k2 = Some s2 -> k1 <> k2 ->
  y ∈ service_host_ports s1 -> y ∈ service_host_ports s2 ->
  ~ NoDup (published_host_ports c).
Proof.
  intros H1 H2 Hne [i Hi]%list_elem_of_lookup_1 [j Hj]%list_elem_of_lookup_1 Hnodup.
  destruct (NoDup_bind_owner (fun ks : string * Service => service_host_ports ks.2)
              (map_to_list (Services c)) (k1, s1) (k2, s2) i j y) as [Heq _];
    [done|by apply elem_of_map_to_list..|done|done|].
  by injection Heq.
Qed.

(** The ports derived from the base ports are pairwise distinct, within
    and across members, as long as the core ports stay below the service
    ports: with the default base ports, up to 101 members. *)
Lemma createStack_ports_distinct (memberCount : Z) (options : InitOptions) :
  FireFlyBasePort options + memberCount <= ServicesBasePort options + 1 ->
  NoDup (Members (model.createStack memberCount options) ≫= member_ports).
Proof.
  intros Hbases. unfold model.createStack. cbn [Members].
  apply NoDup_bind.
  - intros m1 m2 y (i1 & -> & Hi1%elem_of_seq)%list_elem_of_fmap
      (i2 & -> & Hi2%elem_of_seq)%list_elem_of_fmap.
    unfold member_ports, model.createMember. cbn.
    rewrite !elem_of_cons, !elem_of_nil. intros H1 H2.
    assert (i1 = i2) as -> by lia. done.
  - intros m (i & -> & Hi%elem_of_seq)%list_elem_of_fmap.
    unfold member_ports, model.createMember. cbn.
    repeat (apply NoDup_cons; split; [rewrite ?elem_of_cons, ?elem_of_nil; lia|]).
    apply NoDup_nil_2.
  - apply NoDup_fmap_2_strong; [|apply NoDup_seq].
    intros i1 i2 _ _ Heq.
    assert (ExposedFireflyPort (model.createMember options i1) =
            ExposedFireflyPort (model.createMember options i2)) as Hport
      by (by rewrite Heq).
    cbn in Hport. lia.
Qed.

Example default_bases_ports_distinct :
  NoDup (Members (model.createStack 101 (sample.options model.SQLite3 0)) ≫= member_ports).
Proof. apply createStack_ports_distinct. cbn. lia. Qed.

(** Ports derived from the base ports can meet.  With the default base
    ports the core port of the hundred-and-second member, 5000 + 101, is
    the admin port of the first, 5100 + 1, although each of the six port
    fields differs from member to member; and with [-p 5101 -s 5100] the
    only member has one number for its core port and its admin port. *)
Lemma host_ports_collide :
  (exists c, CreateDockerCompose sample.many_members = Ok c /\
     Forall (fun field => NoDup (field <$> Members sample.many_members))
       sample.port_fields /\
     service_host_ports <$> Services c !! "firefly_core_0" = Some [ 5000; 5101 ] /\
     service_host_ports <$> Services c !! "firefly_core_101" = Some [ 5101; 15201 ] /\
     ~ NoDup (published_host_ports c)) /\
  (exists c, CreateDockerCompose sample.one_member_close_bases = Ok c /\
     Forall (fun field => NoDup (field <$> Members sample.one_member_close_bases))
       sample.port_fields /\
     service_host_ports <$> Services c !! "firefly_core_0" = Some [ 5101; 5101 ] /\
     ~ NoDup (published_host_ports c)).
Proof.
  split.
  - destruct (CreateDockerCompose_total sample.many_members) as [c Hc]; [by left|].
    exists c. split; [done|].
    assert (NoDup (ID <$> Members sample.many_members)) as Hids
      by (apply (bool_decide_unpack _); vm_compute; exact I).
    destruct (CreateDockerCompose_member sample.many_members c
                (model.createMember (sample.options model.SQLite3 0) 0) Hids Hc)
      as (_ & _ & _ & H0); [apply list_elem_of_here|].
    destruct (CreateDockerCompose_member sample.many_members c
                (model.createMember (sample.options model.SQLite3 0) 101) Hids Hc)
      as (_ & _ & _ & H101);
      [apply (list_elem_of_lookup_2 _ 101%nat); vm_compute; reflexivity|].
    specialize (H0 eq_refl). specialize (H101 eq_refl).
    change ("firefly_core_" +:+
              ID (model.createMember (sample.options model.SQLite3 0) 0))
      with "firefly_core_0" in H0.
    change ("firefly_core_" +:+
              ID (model.createMember (sample.options model.SQLite3 0) 101))
      with "firefly_core_101" in H101.
    split_and!.
    + apply (bool_decide_unpack _). vm_compute. exact I.
    + rewrite H0. vm_compute. reflexivity.
    + rewrite H101. vm_compute. reflexivity.
    + apply (published_twice c "firefly_core_0" "firefly_core_101" _ _ 5101 H0 H101);
        [done| |].
      * apply (list_elem_of_lookup_2 _ 1%nat). vm_compute. reflexivity.
      * apply (list_elem_of_lookup_2 _ 0%nat). vm_compute. reflexivity.
  - destruct (CreateDockerCompose sample.one_member_close_bases) as [c|msg] eqn:Hc;
      [|by vm_compute in Hc].
    exists c. split; [done|].
    assert (c = match CreateDockerCompose sample.one_member_close_bases with
                | Ok c => c | Panic _ => emptyCompose end) as -> by (by rewrite Hc).
    clear Hc. split_and!.
    + apply (bool_decide_unpack _). vm_compute. exact I.
    + vm_compute. reflexivity.
    + apply (bool_decide_eq_false_1 (NoDup _)). vm_compute. reflexivity.
Qed.
